(** * ChatAppServer: the agent protocol, the command tables and the chat hub

    A shallow embedding of
      - routes/agents.js          (the HTTP agent routes),
      - socket/agentHandler.js    (the live agent connection handler),
      - socket/socketHandler.js   (both the in-memory and the database variant),
      - models/Message.js         (reactions),
    together with the parts of Node's [crypto], [Buffer] and [JSON] they call:
    SHA-256, HMAC, hex and base64 text, [timingSafeEqual], [JSON.stringify].

    Conventions.
      - A JS string is a [string] of bytes (its UTF-8 encoding); a Buffer is a
        [list Z] of bytes.
      - A field of a request body or of a socket message is an [option]:
        absent, or present with its value. Identifiers, signatures and
        statuses are strings; a timestamp is an integer number of
        milliseconds (as [JSON.stringify] prints below 1e21); [params] and
        other opaque payloads are kept as their JSON text.
      - A JS [Map] that the code iterates is an insertion-ordered association
        list ([omap]); a [Map] that is only read and written by key is a
        [gmap].
      - [Date.now()] and [crypto.randomUUID()] read an oracle, by the number
        of earlier readings, which the state counts.
      - A thrown exception is the [Throw] outcome; the state reached before
        the throw is kept, as in JS. A [try]/[catch] is [try_catch].
      - An awaited call of the persistence layer (User, Message) is logged
        and resolves or rejects as an answer given to the handler says.
      - What a handler emits is appended to an outbox, oldest first. *)

From Stdlib Require Import ZArith List Ascii String Bool Lia.
From stdpp Require Import base option list strings gmap.
Import ListNotations.
Local Open Scope string_scope.
Local Open Scope Z_scope.

(* ===================================================================== *)
(** ** Node's crypto, Buffer and JSON primitives *)
(* ===================================================================== *)

Module Crypto.

(** A byte string as a Buffer: [Buffer.from(s)] (UTF-8). *)
Fixpoint bytes_of_string (s : string) : list Z :=
  match s with
  | EmptyString => []
  | String c r => Z.of_N (N_of_ascii c) :: bytes_of_string r
  end.

Definition ascii_of_Z (z : Z) : ascii := ascii_of_N (Z.to_N (z mod 256)).

Fixpoint string_of_bytes (l : list Z) : string :=
  match l with
  | [] => EmptyString
  | b :: r => String (ascii_of_Z b) (string_of_bytes r)
  end.

(** *** Hexadecimal: [buf.toString('hex')] and [Buffer.from(s, 'hex')] *)

Definition hexdigit (n : Z) : ascii :=
  if n <? 10 then ascii_of_Z (48 + n) else ascii_of_Z (87 + n).

(** Node's [unhex]: both cases of the letters are accepted. *)
Definition hexval (c : ascii) : option Z :=
  let n := Z.of_N (N_of_ascii c) in
  if (48 <=? n) && (n <=? 57) then Some (n - 48)
  else if (97 <=? n) && (n <=? 102) then Some (n - 87)
  else if (65 <=? n) && (n <=? 70) then Some (n - 55)
  else None.

Fixpoint hex_encode (l : list Z) : string :=
  match l with
  | [] => EmptyString
  | b :: r =>
      String (hexdigit ((b mod 256) / 16))
        (String (hexdigit (b mod 16)) (hex_encode r))
  end.

(** [Buffer.from(s, 'hex')] decodes pair by pair and stops, keeping what it
    has, at the first pair that is not two hex digits; a trailing single
    character is dropped. *)
Fixpoint hex_decode (s : string) : list Z :=
  match s with
  | String c1 (String c2 r) =>
      match hexval c1, hexval c2 with
      | Some h, Some l => (16 * h + l) :: hex_decode r
      | _, _ => []
      end
  | _ => []
  end.

(** *** SHA-256 (FIPS 180-4) on 32-bit words held in [Z] *)

Definition w32 (x : Z) : Z := x mod 2 ^ 32.
Definition add32 (x y : Z) : Z := w32 (x + y).
Definition rotr (n x : Z) : Z :=
  Z.lor (Z.shiftr x n) (w32 (Z.shiftl x (32 - n))).
Definition not32 (x : Z) : Z := Z.lxor x (2 ^ 32 - 1).

Definition Ch (x y z : Z) : Z := Z.lxor (Z.land x y) (Z.land (not32 x) z).
Definition Maj (x y z : Z) : Z :=
  Z.lxor (Z.lxor (Z.land x y) (Z.land x z)) (Z.land y z).
Definition bsig0 (x : Z) : Z := Z.lxor (Z.lxor (rotr 2 x) (rotr 13 x)) (rotr 22 x).
Definition bsig1 (x : Z) : Z := Z.lxor (Z.lxor (rotr 6 x) (rotr 11 x)) (rotr 25 x).
Definition ssig0 (x : Z) : Z := Z.lxor (Z.lxor (rotr 7 x) (rotr 18 x)) (Z.shiftr x 3).
Definition ssig1 (x : Z) : Z := Z.lxor (Z.lxor (rotr 17 x) (rotr 19 x)) (Z.shiftr x 10).

(** The eight working variables, and the chaining value between blocks. *)
Record regs : Type := Regs {
  ra : Z; rb : Z; rc : Z; rd : Z; re : Z; rf : Z; rg : Z; rh : Z
}.

(** Padding: 0x80, zeros up to 56 mod 64, then the bit length on 8 bytes. *)
Definition be_bytes (n : nat) (x : Z) : list Z :=
  map (fun i => Z.shiftr x (8 * Z.of_nat i) mod 256) (rev (seq 0 n)).

Definition pad (msg : list Z) : list Z :=
  let len := Z.of_nat (length msg) in
  let zeros := Z.to_nat ((55 - len) mod 64) in
  msg ++ [128] ++ repeat 0 zeros ++ be_bytes 8 (8 * len).

Definition word_of_bytes (b0 b1 b2 b3 : Z) : Z :=
  Z.lor (Z.lor (Z.shiftl b0 24) (Z.shiftl b1 16)) (Z.lor (Z.shiftl b2 8) b3).

Fixpoint words_of_bytes (l : list Z) : list Z :=
  match l with
  | b0 :: b1 :: b2 :: b3 :: r => word_of_bytes b0 b1 b2 b3 :: words_of_bytes r
  | _ => []
  end.

(** The round constants of section 4.2.2, eight words to the line. *)
Definition K256 : list Z :=
  words_of_bytes (hex_decode (
    "428a2f9871374491b5c0fbcfe9b5dba53956c25b59f111f1923f82a4ab1c5ed5" ++
    "d807aa9812835b01243185be550c7dc372be5d7480deb1fe9bdc06a7c19bf174" ++
    "e49b69c1efbe47860fc19dc6240ca1cc2de92c6f4a7484aa5cb0a9dc76f988da" ++
    "983e5152a831c66db00327c8bf597fc7c6e00bf3d5a7914706ca635114292967" ++
    "27b70a852e1b21384d2c6dfc53380d13650a7354766a0abb81c2c92e92722c85" ++
    "a2bfe8a1a81a664bc24b8b70c76c51a3d192e819d6990624f40e3585106aa070" ++
    "19a4c1161e376c082748774c34b0bcb5391c0cb34ed8aa4a5b9cca4f682e6ff3" ++
    "748f82ee78a5636f84c878148cc7020890befffaa4506cebbef9a3f7c67178f2")).

(** The initial hash value of section 5.3.3. *)
Definition H256 : regs :=
  match words_of_bytes (hex_decode "6a09e667bb67ae853c6ef372a54ff53a510e527f9b05688c1f83d9ab5be0cd19") with
  | [a; b; c; d; e; f; g; h] => Regs a b c d e f g h
  | _ => Regs 0 0 0 0 0 0 0 0
  end.

(** The message schedule, most recent word first: [W_t] is computed from
    [W_(t-2)], [W_(t-7)], [W_(t-15)] and [W_(t-16)]. *)
Definition next_w (recent : list Z) : Z :=
  add32 (add32 (ssig1 (nth 1 recent 0)) (nth 6 recent 0))
        (add32 (ssig0 (nth 14 recent 0)) (nth 15 recent 0)).

Fixpoint extend (n : nat) (recent : list Z) : list Z :=
  match n with
  | O => recent
  | S n' => extend n' (next_w recent :: recent)
  end.

Definition schedule (block : list Z) : list Z := rev (extend 48 (rev block)).

Definition round (s : regs) (kw : Z * Z) : regs :=
  let t1 := add32 (add32 (add32 (rh s) (bsig1 (re s)))
                         (add32 (Ch (re s) (rf s) (rg s)) (fst kw))) (snd kw) in
  let t2 := add32 (bsig0 (ra s)) (Maj (ra s) (rb s) (rc s)) in
  Regs (add32 t1 t2) (ra s) (rb s) (rc s) (add32 (rd s) t1) (re s) (rf s) (rg s).

Definition compress (h : regs) (block : list Z) : regs :=
  let s := fold_left round (combine K256 (schedule block)) h in
  Regs (add32 (ra h) (ra s)) (add32 (rb h) (rb s)) (add32 (rc h) (rc s))
       (add32 (rd h) (rd s)) (add32 (re h) (re s)) (add32 (rf h) (rf s))
       (add32 (rg h) (rg s)) (add32 (rh h) (rh s)).

Fixpoint blocks (n : nat) (ws : list Z) : list (list Z) :=
  match n with
  | O => []
  | S n' => match ws with
            | [] => []
            | _ => firstn 16 ws :: blocks n' (skipn 16 ws)
            end
  end.

Definition digest_bytes (h : regs) : list Z :=
  be_bytes 4 (ra h) ++ be_bytes 4 (rb h) ++ be_bytes 4 (rc h) ++ be_bytes 4 (rd h)
  ++ be_bytes 4 (re h) ++ be_bytes 4 (rf h) ++ be_bytes 4 (rg h) ++ be_bytes 4 (rh h).

Definition sha256 (msg : list Z) : list Z :=
  let ws := words_of_bytes (pad msg) in
  digest_bytes (fold_left compress (blocks (length ws) ws) H256).

(** *** HMAC (RFC 2104) with SHA-256: [crypto.createHmac('sha256', key)] *)

Definition hmac_key (key : list Z) : list Z :=
  let k := if (64 <? Z.of_nat (length key)) then sha256 key else key in
  k ++ repeat 0 (64 - length k)%nat.

Definition hmac_sha256 (key msg : list Z) : list Z :=
  let k := hmac_key key in
  sha256 (map (Z.lxor 0x5c) k ++ sha256 (map (Z.lxor 0x36) k ++ msg)).

(** *** Base64: [buf.toString('base64')] *)

Definition b64char (n : Z) : ascii :=
  if n <? 26 then ascii_of_Z (65 + n)
  else if n <? 52 then ascii_of_Z (97 + (n - 26))
  else if n <? 62 then ascii_of_Z (48 + (n - 52))
  else if n =? 62 then "+"%char else "/"%char.

Fixpoint base64 (l : list Z) : string :=
  match l with
  | [] => EmptyString
  | [a] =>
      String (b64char (a / 4))
        (String (b64char ((a mod 4) * 16)) "==")
  | [a; b] =>
      String (b64char (a / 4))
        (String (b64char ((a mod 4) * 16 + b / 16))
          (String (b64char ((b mod 16) * 4)) "="))
  | a :: b :: c :: r =>
      String (b64char (a / 4))
        (String (b64char ((a mod 4) * 16 + b / 16))
          (String (b64char ((b mod 16) * 4 + c / 64))
            (String (b64char (c mod 64)) (base64 r))))
  end.

(** *** [JSON.stringify] of strings and of integers *)

Definition dquote : ascii := "034"%char.
Definition backslash : ascii := "092"%char.
Definition str1 (c : ascii) : string := String c EmptyString.
Definition esc (c : ascii) : string := String backslash (str1 c).

Definition json_escape_char (c : ascii) : string :=
  let n := Z.of_N (N_of_ascii c) in
  if n =? 34 then esc dquote
  else if n =? 92 then esc backslash
  else if n =? 8 then esc "b"
  else if n =? 9 then esc "t"
  else if n =? 10 then esc "n"
  else if n =? 12 then esc "f"
  else if n =? 13 then esc "r"
  else if n <? 32 then
    String backslash ("u00" ++ String (hexdigit (n / 16)) (str1 (hexdigit (n mod 16))))
  else str1 c.

Fixpoint json_escape (s : string) : string :=
  match s with
  | EmptyString => EmptyString
  | String c r => json_escape_char c ++ json_escape r
  end.

Definition json_string (s : string) : string :=
  String dquote (json_escape s ++ str1 dquote).

Fixpoint digits (fuel : nat) (n : Z) (acc : string) : string :=
  match fuel with
  | O => acc
  | S f =>
      let acc' := String (ascii_of_Z (48 + n mod 10)) acc in
      if n <? 10 then acc' else digits f (n / 10) acc'
  end.

(** An integer as JS prints it (plain decimal). *)
Definition json_number (z : Z) : string :=
  if z <? 0 then String "-"%char (digits (S (Z.to_nat (Z.log2 (- z)))) (- z) EmptyString)
  else digits (S (Z.to_nat (Z.log2 z))) z EmptyString.

End Crypto.


(* ===================================================================== *)
(** ** JavaScript values, exceptions and insertion-ordered Maps *)
(* ===================================================================== *)

Module Js.

Inductive exn : Type :=
| RangeError (msg : string)
| TypeError (msg : string)
| Error (msg : string).

Inductive outcome (A : Type) : Type :=
| Ok (a : A)
| Throw (e : exn).
Arguments Ok {A} a.
Arguments Throw {A} e.

(** [!x] on an optional string field: absent and the empty string are falsy. *)
Definition truthy_string (o : option string) : bool :=
  match o with
  | Some (String _ _) => true
  | _ => false
  end.

(** [!x] on an optional integer field: absent and zero are falsy. *)
Definition truthy_number (o : option Z) : bool :=
  match o with
  | Some z => negb (z =? 0)
  | None => false
  end.

(** The value of a field that has passed its truthiness check. *)
Definition str_of (o : option string) : string := default EmptyString o.
Definition num_of (o : option Z) : Z := default 0 o.

(** [s.substring(0, n)] *)
Fixpoint substring0 (n : nat) (s : string) : string :=
  match n, s with
  | S n', String c r => String c (substring0 n' r)
  | _, _ => EmptyString
  end.

(** [crypto.timingSafeEqual(a, b)]: throws when the byte lengths differ. *)
Definition timingSafeEqual (a b : list Z) : outcome bool :=
  if Nat.eqb (length a) (length b)
  then Ok (bool_decide (a = b))
  else Throw (RangeError "Input buffers must have the same byte length").

(** A [Map] with string keys, in insertion order. [set] on a present key
    replaces the value where it stands; on a new key it appends. *)
Section OMap.
Context {V : Type}.

Definition omap : Type := list (string * V).

Fixpoint omap_get (k : string) (m : omap) : option V :=
  match m with
  | [] => None
  | (k', v) :: r => if String.eqb k k' then Some v else omap_get k r
  end.

Definition omap_has (k : string) (m : omap) : bool :=
  match omap_get k m with Some _ => true | None => false end.

Fixpoint omap_set (k : string) (v : V) (m : omap) : omap :=
  match m with
  | [] => [(k, v)]
  | (k', v') :: r =>
      if String.eqb k k' then (k, v) :: r else (k', v') :: omap_set k v r
  end.

Fixpoint omap_delete (k : string) (m : omap) : omap :=
  match m with
  | [] => []
  | (k', v') :: r =>
      if String.eqb k k' then r else (k', v') :: omap_delete k r
  end.

Definition omap_keys (m : omap) : list string := map fst m.
Definition omap_values (m : omap) : list V := map snd m.
End OMap.
Arguments omap V : clear implicits.

(** *** The state-and-exception monad of the handlers

    A computation reads and writes a state [W] and ends in a value or in a
    thrown exception; what it wrote before throwing stays written. *)
Section Monad.
Context {W : Type}.

Definition M (A : Type) : Type := W -> outcome A * W.

Definition ret {A} (a : A) : M A := fun w => (Ok a, w).
Definition throw {A} (e : exn) : M A := fun w => (Throw e, w).
Definition bind {A B} (m : M A) (k : A -> M B) : M B :=
  fun w => match m w with
           | (Ok a, w') => k a w'
           | (Throw e, w') => (Throw e, w')
           end.
Definition try_catch {A} (m : M A) (handler : exn -> M A) : M A :=
  fun w => match m w with
           | (Ok a, w') => (Ok a, w')
           | (Throw e, w') => handler e w'
           end.
Definition gets {A} (f : W -> A) : M A := fun w => (Ok (f w), w).
Definition modify (f : W -> W) : M unit := fun w => (Ok tt, f w).
(** An awaited call of a collaborator, or a library call that may throw. *)
Definition lift {A} (o : outcome A) : M A := fun w => (o, w).
End Monad.
Arguments M W A : clear implicits.

Definition message (e : exn) : string :=
  match e with RangeError m => m | TypeError m => m | Error m => m end.

Notation "x <- m ;; k" := (bind m (fun x => k))
  (at level 100, m at next level, right associativity).
Notation "m ;;; k" := (bind m (fun _ => k))
  (at level 100, right associativity).

End Js.

(* ===================================================================== *)
(** ** The shared secret and the signatures (both agent files) *)
(* ===================================================================== *)

Module Signature.
Import Crypto Js.

(** [process.env.COMPLIANCE_SHARED_SECRET || 'CHANGE_THIS_SECRET_IN_PRODUCTION'] *)
Definition SHARED_SECRET (env : option string) : string :=
  if truthy_string env then str_of env else "CHANGE_THIS_SECRET_IN_PRODUCTION".

(** The two objects the code signs: the handshake payload
    [{agentId, platform, timestamp}] and the server's acknowledgement
    [{status, agentId, timestamp}]. *)
Inductive signed : Type :=
| AuthData (agentId platform : string) (timestamp : Z)
| AckData (status agentId : string) (timestamp : Z).

Definition field (name value : string) : string :=
  json_string name ++ ":" ++ value.

Definition JSON_stringify (d : signed) : string :=
  match d with
  | AuthData agentId platform timestamp =>
      "{" ++ field "agentId" (json_string agentId) ++ ","
          ++ field "platform" (json_string platform) ++ ","
          ++ field "timestamp" (json_number timestamp) ++ "}"
  | AckData status agentId timestamp =>
      "{" ++ field "status" (json_string status) ++ ","
          ++ field "agentId" (json_string agentId) ++ ","
          ++ field "timestamp" (json_number timestamp) ++ "}"
  end.

Section WithSecret.
Variable secret_env : option string.

(** [createSignature(data)]: HMAC-SHA256 of the JSON text, in hex. *)
Definition createSignature (data : signed) : string :=
  hex_encode (hmac_sha256 (bytes_of_string (SHARED_SECRET secret_env))
                          (bytes_of_string (JSON_stringify data))).

(** [verifySignature] of socket/agentHandler.js. *)
Definition verifySignature_socket (data : signed) (signature : string)
  : outcome bool :=
  let expectedSignature := createSignature data in
  timingSafeEqual (hex_decode signature) (hex_decode expectedSignature).

(** [verifySignature] of routes/agents.js, with its base64 fallback. *)
Definition verifySignature (data : signed) (signature : string)
  : outcome bool :=
  let expectedSignature := createSignature data in
  match timingSafeEqual (hex_decode signature) (hex_decode expectedSignature) with
  | Throw e => Throw e
  | Ok true => Ok true
  | Ok false =>
      let simpleSignature :=
        substring0 32
          (base64 (bytes_of_string (JSON_stringify data ++ SHARED_SECRET secret_env))) in
      Ok (String.eqb signature simpleSignature)
  end.

(** The command hash: SHA-256 of [id + action + SHARED_SECRET], in hex. *)
Definition authHash_of (id action : string) : string :=
  hex_encode (sha256 (bytes_of_string (id ++ action ++ SHARED_SECRET secret_env))).
End WithSecret.

(** The four handshake fields are present (truthy). *)
Definition fields_present (agentId platform : option string) (timestamp : option Z)
    (signature : option string) : Prop :=
  truthy_string agentId = true /\ truthy_string platform = true
  /\ truthy_number timestamp = true /\ truthy_string signature = true.

(** The handshake is valid: the signature decodes to the bytes of the HMAC. *)
Definition signature_valid (env : option string) (agentId platform : option string)
    (timestamp : Z) (signature : option string) : Prop :=
  hex_decode (str_of signature)
  = hex_decode (createSignature env
                  (AuthData (str_of agentId) (str_of platform) timestamp)).

End Signature.

(* ===================================================================== *)
(** ** routes/agents.js: the HTTP agent routes *)
(* ===================================================================== *)

Module AgentRoutes.
Import Crypto Js Signature.

(** An entry of [activeAgents]. *)
Record Agent : Type := mkAgent {
  agentId : string;
  platform : string;
  connectedAt : Z;
  lastSeen : Z;
  status : string
}.

(** An entry of [agentCommands]. *)
Record Command : Type := mkCommand {
  id : string;
  cmd_agentId : string;
  module : string;
  action : string;
  params : string;
  priority : string;
  timestamp : Z;
  cmd_status : string;
  authHash : string;
  completedAt : option Z
}.

(** An entry of [agentResponses]. *)
Record Response : Type := mkResponse {
  commandId : string;
  rsp_agentId : string;
  rsp_module : option string;
  rsp_status : string;
  data : option string;
  error : option string;
  executionTime : option Z;
  receivedAt : Z
}.

(** The three module-level Maps, and how far the two oracles have been read. *)
Record State : Type := mkState {
  activeAgents : omap Agent;
  agentCommands : gmap string Command;
  agentResponses : gmap string Response;
  ticks : nat;
  drawn : nat
}.

Definition with_agents (f : omap Agent -> omap Agent) (st : State) : State :=
  mkState (f (activeAgents st)) (agentCommands st) (agentResponses st)
          (ticks st) (drawn st).
Definition with_commands
    (f : gmap string Command -> gmap string Command) (st : State) : State :=
  mkState (activeAgents st) (f (agentCommands st)) (agentResponses st)
          (ticks st) (drawn st).
Definition with_responses
    (f : gmap string Response -> gmap string Response) (st : State) : State :=
  mkState (activeAgents st) (agentCommands st) (f (agentResponses st))
          (ticks st) (drawn st).
Definition tick (st : State) : State :=
  mkState (activeAgents st) (agentCommands st) (agentResponses st)
          (S (ticks st)) (drawn st).
Definition draw (st : State) : State :=
  mkState (activeAgents st) (agentCommands st) (agentResponses st)
          (ticks st) (S (drawn st)).

(** The JSON bodies the routes answer with. *)
Inductive Body : Type :=
| ErrorBody (message : string)
| AuthenticatedBody (agentId : string) (timestamp : Z) (signature : string)
| CommandSentBody (commandId message : string)
| ResponseReceivedBody (message : string)
| BroadcastBody (count : nat) (commandIds : list string).

Record HttpResponse : Type := mkHttp { code : Z; body : Body }.

Definition json_error (c : Z) (msg : string) : HttpResponse :=
  mkHttp c (ErrorBody msg).

(** Request bodies: a field is absent ([None]) or has its value. *)
Record AuthBody : Type := mkAuthBody {
  req_agentId : option string;
  req_platform : option string;
  req_timestamp : option Z;
  req_signature : option string
}.

Record CommandBody : Type := mkCommandBody {
  cb_agentId : option string;
  cb_module : option string;
  cb_action : option string;
  cb_params : option string;
  cb_priority : option string
}.

Record ResponseBody : Type := mkResponseBody {
  rb_commandId : option string;
  rb_agentId : option string;
  rb_module : option string;
  rb_status : option string;
  rb_data : option string;
  rb_error : option string;
  rb_executionTime : option Z
}.

Record BroadcastReq : Type := mkBroadcastReq {
  bb_module : option string;
  bb_action : option string;
  bb_params : option string;
  bb_priority : option string
}.

Section Routes.
Variable secret_env : option string.
(** [Date.now()] and [crypto.randomUUID()], by the number of earlier calls. *)
Variable clock : nat -> Z.
Variable randomUUID : nat -> string.

(** [router.post('/authenticate', ...)] *)
Definition post_authenticate (req : AuthBody) (st : State)
  : HttpResponse * State :=
  if negb (truthy_string (req_agentId req)) || negb (truthy_string (req_platform req))
     || negb (truthy_number (req_timestamp req)) || negb (truthy_string (req_signature req))
  then (json_error 400 "Missing required authentication fields", st)
  else
    let agentId := str_of (req_agentId req) in
    let platform := str_of (req_platform req) in
    let timestamp := num_of (req_timestamp req) in
    let signature := str_of (req_signature req) in
    let authData := AuthData agentId platform timestamp in
    match verifySignature secret_env authData signature with
    | Throw _ => (json_error 500 "Authentication failed", st)
    | Ok false => (json_error 401 "Invalid authentication signature", st)
    | Ok true =>
        let now := clock (ticks st) in
        let st := tick st in
        let timeDiff := Z.abs (now - timestamp) in
        if timeDiff >? 300000
        then (json_error 401 "Authentication timestamp expired", st)
        else
          let st := with_agents
                      (omap_set agentId
                         (mkAgent agentId platform now now "authenticated")) st in
          let signature' :=
            createSignature secret_env (AckData "authenticated" agentId now) in
          (mkHttp 200 (AuthenticatedBody agentId now signature'), st)
    end.

(** The command object both [/command] and [/broadcast] build; [params]
    absent gives [{}], [priority] absent gives [normal]. *)
Definition new_command (agentId module action : string)
    (params priority : option string) (uuid : string) (now : Z) : Command :=
  mkCommand uuid agentId module action (default "{}" params)
            (default "normal" priority) now "pending"
            (authHash_of secret_env uuid action) None.

(** [router.post('/command', ...)] *)
Definition post_command (req : CommandBody) (st : State)
  : HttpResponse * State :=
  if negb (truthy_string (cb_agentId req)) || negb (truthy_string (cb_module req))
     || negb (truthy_string (cb_action req))
  then (json_error 400 "Missing required command fields", st)
  else
    let agentId := str_of (cb_agentId req) in
    if negb (omap_has agentId (activeAgents st))
    then (json_error 404 "Agent not found or not authenticated", st)
    else
      let uuid := randomUUID (drawn st) in
      let st := draw st in
      let now := clock (ticks st) in
      let st := tick st in
      let command :=
        new_command agentId (str_of (cb_module req)) (str_of (cb_action req))
                    (cb_params req) (cb_priority req) uuid now in
      let st := with_commands (insert (id command) command) st in
      match omap_get agentId (activeAgents st) with
      | None => (json_error 500 "Failed to send command", st)
      | Some agent =>
          let now' := clock (ticks st) in
          let st := tick st in
          let st := with_agents
                      (omap_set agentId
                         (mkAgent (AgentRoutes.agentId agent) (AgentRoutes.platform agent)
                                  (connectedAt agent) now' "command_sent")) st in
          (mkHttp 200 (CommandSentBody (id command) "Command sent to agent"), st)
      end.

(** [router.post('/response', ...)] *)
Definition post_response (req : ResponseBody) (st : State)
  : HttpResponse * State :=
  if negb (truthy_string (rb_commandId req)) || negb (truthy_string (rb_agentId req))
     || negb (truthy_string (rb_status req))
  then (json_error 400 "Missing required response fields", st)
  else
    let commandId := str_of (rb_commandId req) in
    let agentId := str_of (rb_agentId req) in
    let status := str_of (rb_status req) in
    match agentCommands st !! commandId with
    | None => (json_error 404 "Command not found", st)
    | Some command =>
        let received := clock (ticks st) in
        let st := tick st in
        let response :=
          mkResponse commandId agentId (rb_module req) status (rb_data req)
                     (rb_error req) (rb_executionTime req) received in
        let st := with_responses (insert commandId response) st in
        let completed := clock (ticks st) in
        let st := tick st in
        let st := with_commands
                    (insert commandId
                       (mkCommand (id command) (cmd_agentId command) (module command)
                                  (action command) (params command) (priority command)
                                  (timestamp command) status (authHash command)
                                  (Some completed))) st in
        let st :=
          match omap_get agentId (activeAgents st) with
          | Some agent =>
              let seen := clock (ticks st) in
              with_agents
                (omap_set agentId
                   (mkAgent (AgentRoutes.agentId agent) (AgentRoutes.platform agent)
                            (connectedAt agent) seen "active")) (tick st)
          | None => st
          end in
        (mkHttp 200 (ResponseReceivedBody "Response received"), st)
    end.

(** The loop of [/broadcast] over the agent ids. *)
Fixpoint broadcast_loop (module action : string) (params priority : option string)
    (agentIds : list string) (st : State) (sentCommands : list string)
  : list string * State :=
  match agentIds with
  | [] => (sentCommands, st)
  | agentId :: rest =>
      let uuid := randomUUID (drawn st) in
      let st := draw st in
      let now := clock (ticks st) in
      let st := tick st in
      let command := new_command agentId module action params priority uuid now in
      let st := with_commands (insert (id command) command) st in
      broadcast_loop module action params priority rest st
                     (sentCommands ++ [id command])
  end.

(** [router.post('/broadcast', ...)] *)
Definition post_broadcast (req : BroadcastReq) (st : State)
  : HttpResponse * State :=
  if negb (truthy_string (bb_module req)) || negb (truthy_string (bb_action req))
  then (json_error 400 "Missing required broadcast fields", st)
  else
    let activeAgentIds := omap_keys (activeAgents st) in
    let '(sentCommands, st) :=
      broadcast_loop (str_of (bb_module req)) (str_of (bb_action req))
                     (bb_params req) (bb_priority req) activeAgentIds st [] in
    (mkHttp 200 (BroadcastBody (length activeAgentIds) sentCommands), st).
End Routes.

(** The ids [/broadcast] draws for [n] agents from state [st]. *)
Definition drawn_ids (randomUUID : nat -> string) (st : State) (n : nat)
  : list string :=
  map randomUUID (seq (drawn st) n).

End AgentRoutes.

(* ===================================================================== *)
(** ** socket/agentHandler.js: the live agent connection *)
(* ===================================================================== *)

Module AgentHandler.
Import Crypto Js Signature.

(** An entry of [agentConnections]. *)
Record AgentConnection : Type := mkConn {
  socketId : string;
  agentId : string;
  platform : string;
  connectedAt : Z;
  lastSeen : Z;
  status : string;
  disconnectedAt : option Z
}.

(** The [response:command] message of an agent. *)
Record ResponseMsg : Type := mkResponseMsg {
  r_commandId : option string;
  r_agentId : option string;
  r_module : option string;
  r_status : option string;
  r_data : option string;
  r_error : option string;
  r_executionTime : option Z
}.

(** A command object: what the caller hands to [sendCommandToAgent], and,
    with the fields the handler adds, an entry of [pendingCommands]. *)
Record Command : Type := mkCommand {
  id : string;
  cmd_agentId : option string;
  module : string;
  action : string;
  params : string;
  priority : string;
  timestamp : option Z;
  authHash : option string;
  cmd_status : option string;
  sentAt : option Z;
  completedAt : option Z;
  response : option ResponseMsg
}.

Definition set_timestamp (t : Z) (c : Command) : Command :=
  mkCommand (id c) (cmd_agentId c) (module c) (action c) (params c) (priority c)
            (Some t) (authHash c) (cmd_status c) (sentAt c) (completedAt c) (response c).
Definition set_authHash (h : string) (c : Command) : Command :=
  mkCommand (id c) (cmd_agentId c) (module c) (action c) (params c) (priority c)
            (timestamp c) (Some h) (cmd_status c) (sentAt c) (completedAt c) (response c).
Definition set_sent (t : Z) (c : Command) : Command :=
  mkCommand (id c) (cmd_agentId c) (module c) (action c) (params c) (priority c)
            (timestamp c) (authHash c) (Some "sent") (Some t) (completedAt c) (response c).
Definition set_completed (st : string) (t : Z) (r : ResponseMsg) (c : Command) : Command :=
  mkCommand (id c) (cmd_agentId c) (module c) (action c) (params c) (priority c)
            (timestamp c) (authHash c) (Some st) (sentAt c) (Some t) (Some r).

Definition refresh (seen : Z) (st : string) (a : AgentConnection) : AgentConnection :=
  mkConn (socketId a) (agentId a) (platform a) (connectedAt a) seen st
         (disconnectedAt a).

(** What is emitted on a socket. *)
Inductive Payload : Type :=
| AuthFailed (message : string)
| Authenticated (status agentId : string) (timestamp : Z) (signature : string)
| CommandPayload (c : Command).

Record Emission : Type := mkEmit {
  to_socket : string;
  event : string;
  payload : Payload
}.

(** The two module-level Maps; the timers set with [setTimeout] (the command
    to delete and the delay); what has been emitted, oldest first; the clock. *)
Record World : Type := mkWorld {
  agentConnections : omap AgentConnection;
  pendingCommands : gmap string Command;
  timers : list (string * Z);
  outbox : list Emission;
  ticks : nat
}.

(** The socket object: its id and the [agentId] property the handler sets. *)
Record Socket : Type := mkSocket {
  sock_id : string;
  sock_agentId : option string
}.

(** The handlers run in the state-and-exception monad over [World]. *)
Definition M (A : Type) : Type := Js.M World A.

Definition set_connections (f : omap AgentConnection -> omap AgentConnection)
  : M unit :=
  modify (fun w => mkWorld (f (agentConnections w)) (pendingCommands w)
                           (timers w) (outbox w) (ticks w)).
Definition set_pending (f : gmap string Command -> gmap string Command) : M unit :=
  modify (fun w => mkWorld (agentConnections w) (f (pendingCommands w))
                           (timers w) (outbox w) (ticks w)).
Definition setTimeout (commandId : string) (delay : Z) : M unit :=
  modify (fun w => mkWorld (agentConnections w) (pendingCommands w)
                           (timers w ++ [(commandId, delay)]) (outbox w) (ticks w)).
Definition emit (sid ev : string) (p : Payload) : M unit :=
  modify (fun w => mkWorld (agentConnections w) (pendingCommands w)
                           (timers w) (outbox w ++ [mkEmit sid ev p]) (ticks w)).

Section Handlers.
Variable secret_env : option string.
Variable clock : nat -> Z.

Definition Date_now : M Z :=
  fun w => (Ok (clock (ticks w)),
            mkWorld (agentConnections w) (pendingCommands w) (timers w)
                    (outbox w) (S (ticks w))).

(** [socket.on('agent:authenticate', ...)]; the result is the socket, whose
    [agentId] property a successful handshake sets. *)
Definition on_agent_authenticate (socket : Socket)
    (agentId platform : option string) (timestamp : option Z)
    (signature : option string) : M Socket :=
  try_catch
    (if negb (truthy_string agentId) || negb (truthy_string platform)
        || negb (truthy_number timestamp) || negb (truthy_string signature)
     then
       emit (sock_id socket) "agent:auth_failed"
            (AuthFailed "Missing required authentication fields") ;;;
       ret socket
     else
       let agentId := str_of agentId in
       let platform := str_of platform in
       let timestamp := num_of timestamp in
       let authPayload := AuthData agentId platform timestamp in
       valid <- lift (verifySignature_socket secret_env authPayload (str_of signature)) ;;
       if negb valid
       then
         emit (sock_id socket) "agent:auth_failed"
              (AuthFailed "Invalid authentication signature") ;;;
         ret socket
       else
         now <- Date_now ;;
         let timeDiff := Z.abs (now - timestamp) in
         if timeDiff >? 300000
         then
           emit (sock_id socket) "agent:auth_failed"
                (AuthFailed "Authentication timestamp expired") ;;;
           ret socket
         else
           set_connections
             (omap_set agentId
                (mkConn (sock_id socket) agentId platform now now
                        "authenticated" None)) ;;;
           let socket := mkSocket (sock_id socket) (Some agentId) in
           let signature' :=
             createSignature secret_env (AckData "authenticated" agentId now) in
           emit (sock_id socket) "agent:authenticated"
                (Authenticated "authenticated" agentId now signature') ;;;
           ret socket)
    (fun _ =>
       emit (sock_id socket) "agent:auth_failed"
            (AuthFailed "Authentication failed") ;;;
       ret socket).

(** [socket.on('response:command', ...)] *)
Definition on_response_command (rsp : ResponseMsg) : M unit :=
  if negb (truthy_string (r_commandId rsp)) || negb (truthy_string (r_agentId rsp))
     || negb (truthy_string (r_status rsp))
  then ret tt
  else
    let commandId := str_of (r_commandId rsp) in
    let agentId := str_of (r_agentId rsp) in
    let status := str_of (r_status rsp) in
    pending <- gets pendingCommands ;;
    match pending !! commandId with
    | Some command =>
        completed <- Date_now ;;
        set_pending (insert commandId (set_completed status completed rsp command)) ;;;
        setTimeout commandId 300000
    | None => ret tt
    end ;;;
    agents <- gets agentConnections ;;
    match omap_get agentId agents with
    | Some agent =>
        seen <- Date_now ;;
        set_connections (omap_set agentId (refresh seen "active" agent))
    | None => ret tt
    end.

(** [sendCommandToAgent(io, agentId, command)]; [io] is the set of ids of
    the sockets in [io.sockets.sockets]. *)
Definition sendCommandToAgent (io : gset string) (agentId : string)
    (command : Command) : M bool :=
  agents <- gets agentConnections ;;
  match omap_get agentId agents with
  | None => throw (Error ("Agent not found: " ++ agentId))
  | Some agent =>
      now <- Date_now ;;
      let authenticatedCommand := set_timestamp now command in
      let authenticatedCommand :=
        set_authHash (authHash_of secret_env (id authenticatedCommand)
                                  (action authenticatedCommand))
                     authenticatedCommand in
      sent <- Date_now ;;
      set_pending (insert (id command) (set_sent sent authenticatedCommand)) ;;;
      if bool_decide (socketId agent ∈ io)
      then
        emit (socketId agent) ("command:" ++ module command)
             (CommandPayload authenticatedCommand) ;;;
        ret true
      else throw (Error ("Agent socket not found: " ++ agentId))
  end.

(** One entry of the list [broadcastCommandToAllAgents] returns. *)
Record Result : Type := mkResult {
  res_agentId : string;
  success : bool;
  res_error : option string
}.

Definition is_active (agent : AgentConnection) : bool :=
  String.eqb (status agent) "authenticated" || String.eqb (status agent) "active".

Fixpoint broadcast_loop (io : gset string) (command : Command)
    (activeAgents : list AgentConnection) (results : list Result)
  : M (list Result) :=
  match activeAgents with
  | [] => ret results
  | agent :: rest =>
      r <- try_catch
             (sendCommandToAgent io (agentId agent) command ;;;
              ret (mkResult (agentId agent) true None))
             (fun error =>
                ret (mkResult (agentId agent) false (Some (message error)))) ;;
      broadcast_loop io command rest (results ++ [r])
  end.

(** [broadcastCommandToAllAgents(io, command)] *)
Definition broadcastCommandToAllAgents (io : gset string) (command : Command)
  : M (list Result) :=
  agents <- gets agentConnections ;;
  let activeAgents := List.filter is_active (omap_values agents) in
  broadcast_loop io command activeAgents [].
End Handlers.

End AgentHandler.

(* ===================================================================== *)
(** ** models/Message.js: reactions *)
(* ===================================================================== *)

Module MessageModel.

(** An ObjectId, by its hex text. *)
Definition ObjectId : Type := string.
Definition equals (a b : ObjectId) : bool := String.eqb a b.

Record Reaction : Type := mkReaction {
  user : ObjectId;
  emoji : string;
  createdAt : Z
}.

(** The document; of the schema's fields, those the methods below touch and
    those the broadcast envelope reads. *)
Record Message : Type := mkMessage {
  _id : ObjectId;
  sender : ObjectId;
  content : string;
  type : string;
  room : string;
  isEdited : bool;
  editedAt : option Z;
  isDeleted : bool;
  deletedAt : option Z;
  reactions : list Reaction;
  replyTo : option ObjectId
}.

Definition set_reactions (rs : list Reaction) (m : Message) : Message :=
  mkMessage (_id m) (sender m) (content m) (type m) (room m) (isEdited m)
            (editedAt m) (isDeleted m) (deletedAt m) rs (replyTo m).

(** [addReaction(userId, emoji)] on the document in memory; [now] is the
    [Date.now] default of the new entry's [createdAt]. The [save()] the
    method returns belongs to the persistence layer. *)
Definition addReaction (userId : ObjectId) (emoji : string) (now : Z)
    (this : Message) : Message :=
  let this :=
    set_reactions
      (List.filter (fun reaction => negb (equals (user reaction) userId)) (reactions this))
      this in
  set_reactions (reactions this ++ [mkReaction userId emoji now]) this.

(** [removeReaction(userId)] *)
Definition removeReaction (userId : ObjectId) (this : Message) : Message :=
  set_reactions
    (List.filter (fun reaction => negb (equals (user reaction) userId)) (reactions this))
    this.

(** A call of one of the two methods. *)
Inductive Call : Type :=
| AddReaction (userId : ObjectId) (emoji : string) (now : Z)
| RemoveReaction (userId : ObjectId).

Definition call (this : Message) (c : Call) : Message :=
  match c with
  | AddReaction userId emoji now => addReaction userId emoji now this
  | RemoveReaction userId => removeReaction userId this
  end.

Definition calls (cs : list Call) (this : Message) : Message :=
  fold_left call cs this.

(** [new Message({sender, content, type, room, replyTo})]: the schema's
    defaults give an empty list of reactions. *)
Definition new_Message (oid sender : ObjectId) (content type room : string)
    (replyTo : option ObjectId) : Message :=
  mkMessage oid sender content type room false None false None [] replyTo.

(** The emoji the calls leave for [userId]: that of the latest
    [AddReaction] by [userId] not followed by a [RemoveReaction]. *)
Fixpoint latest (userId : ObjectId) (cs : list Call) (acc : option string)
  : option string :=
  match cs with
  | [] => acc
  | AddReaction u e _ :: r => latest userId r (if equals u userId then Some e else acc)
  | RemoveReaction u :: r => latest userId r (if equals u userId then None else acc)
  end.

(** The emojis of the entries of [userId]. *)
Definition emojis_of (userId : ObjectId) (m : Message) : list string :=
  map emoji (List.filter (fun reaction => equals (user reaction) userId) (reactions m)).

(** At most one entry per user. *)
Definition one_per_user (m : Message) : Prop :=
  List.NoDup (map user (reactions m)).

Definition as_list (o : option string) : list string :=
  match o with Some e => [e] | None => [] end.

End MessageModel.

(* ===================================================================== *)
(** ** socket/socketHandler.js: what both variants share *)
(* ===================================================================== *)

Module Chat.
Import Js.

(** The payload of a verified token. *)
Record Decoded : Type := mkDecoded {
  d_userId : string;
  d_username : string
}.

(** The socket object: its id, the two properties [authenticate] sets, the
    rooms joined, and whether [socket.disconnect()] has been called. *)
Record Socket : Type := mkSocket {
  sock_id : string;
  sock_userId : option string;
  sock_username : option string;
  rooms : list string;
  disconnected : bool
}.

(** An entry of [activeUsers], keyed by socket id. *)
Record ActiveUser : Type := mkActiveUser {
  userId : string;
  username : string;
  socketId : string
}.

(** A user document of the persistence layer. *)
Record UserDoc : Type := mkUserDoc {
  u_id : string;
  u_username : string;
  u_avatar : option string;
  u_isOnline : bool;
  u_lastSeen : option Z
}.

(** Whom an emission addresses: [socket.emit] (the connection itself),
    [socket.to(room)] (the room without the connection), [io.to(room)]. *)
Inductive Target : Type :=
| Self (socket_id : string)
| RoomExcept (room socket_id : string)
| Room (room : string).

End Chat.

(* ===================================================================== *)
(** ** socket/socketHandler.js, the in-memory variant *)
(* ===================================================================== *)

Module SocketHandlerMem.
Import Js Chat.

(** An entry of the [messages] array. *)
Record StoredMessage : Type := mkStored {
  sm_userId : string;
  sm_username : string;
  sm_content : string;
  sm_type : string;
  sm_timestamp : string
}.

Inductive Payload : Type :=
| AuthError (error : string)
| UserJoined (userId username : string)
| ActiveUsers (users : list ActiveUser)
| MessageHistory (history : list StoredMessage)
| UserLeft (userId username : string).

Record Emission : Type := mkEmit {
  target : Target;
  event : string;
  payload : Payload
}.

(** The connection's socket, the two module-level stores, and what has been
    emitted, oldest first. *)
Record World : Type := mkWorld {
  socket : Socket;
  activeUsers : omap ActiveUser;
  messages : list StoredMessage;
  outbox : list Emission
}.

Definition set_socket (f : Socket -> Socket) : M World unit :=
  modify (fun w => mkWorld (f (socket w)) (activeUsers w) (messages w) (outbox w)).
Definition set_activeUsers (f : omap ActiveUser -> omap ActiveUser) : M World unit :=
  modify (fun w => mkWorld (socket w) (f (activeUsers w)) (messages w) (outbox w)).
Definition emit (t : Target) (ev : string) (p : Payload) : M World unit :=
  modify (fun w => mkWorld (socket w) (activeUsers w) (messages w)
                           (outbox w ++ [mkEmit t ev p])).

(** [array.slice(-n)] *)
Definition slice_last {A} (n : nat) (l : list A) : list A :=
  skipn (length l - n) l.

Section Handlers.
(** [jwt.verify(token, process.env.JWT_SECRET)]: the payload, or a throw. *)
Variable jwt_verify : string -> outcome Decoded.

(** [socket.on('authenticate', ...)] *)
Definition on_authenticate (token : string) : M World unit :=
  try_catch
    (decoded <- lift (jwt_verify token) ;;
     set_socket (fun s => mkSocket (sock_id s) (Some (d_userId decoded))
                                   (Some (d_username decoded)) (rooms s)
                                   (disconnected s)) ;;;
     s <- gets socket ;;
     set_activeUsers
       (omap_set (sock_id s)
          (mkActiveUser (d_userId decoded) (d_username decoded) (sock_id s))) ;;;
     set_socket (fun s => mkSocket (sock_id s) (sock_userId s) (sock_username s)
                                   (rooms s ++ ["general"]) (disconnected s)) ;;;
     emit (RoomExcept "general" (sock_id s)) "userJoined"
          (UserJoined (d_userId decoded) (d_username decoded)) ;;;
     users <- gets activeUsers ;;
     emit (Self (sock_id s)) "activeUsers" (ActiveUsers (omap_values users)) ;;;
     history <- gets messages ;;
     emit (Self (sock_id s)) "messageHistory"
          (MessageHistory (slice_last 50 history)))
    (fun _ =>
       s <- gets socket ;;
       emit (Self (sock_id s)) "authError" (AuthError "Invalid token") ;;;
       set_socket (fun s => mkSocket (sock_id s) (sock_userId s) (sock_username s)
                                     (rooms s) true)).

(** [socket.on('disconnect', ...)] *)
Definition on_disconnect : M World unit :=
  s <- gets socket ;;
  users <- gets activeUsers ;;
  if truthy_string (sock_userId s) && omap_has (sock_id s) users
  then
    match omap_get (sock_id s) users with
    | Some user =>
        set_activeUsers (omap_delete (sock_id s)) ;;;
        emit (RoomExcept "general" (sock_id s)) "userLeft"
             (UserLeft (userId user) (username user))
    | None => ret tt
    end
  else ret tt.
End Handlers.

(** No Session stands for the connection: [socket.userId] is unset, or
    [activeUsers] has no entry under [socket.id]. *)
Definition no_session (w : World) : Prop :=
  truthy_string (sock_userId (socket w)) = false
  \/ omap_get (sock_id (socket w)) (activeUsers w) = None.

End SocketHandlerMem.

(* ===================================================================== *)
(** ** socket/socketHandler.js, the database variant *)
(* ===================================================================== *)

Module SocketHandlerDb.
Import Crypto Js Chat.

(** [data.content] as it arrives: a string, a number, or nothing. *)
Inductive JsContent : Type :=
| CString (s : string)
| CNumber (z : Z)
| CAbsent.

(** The schema's cast of [content] to [String]. *)
Definition cast_content (c : JsContent) : option string :=
  match c with
  | CString s => Some s
  | CNumber z => Some (json_number z)
  | CAbsent => None
  end.

(** The [sendMessage] payload. *)
Record SendData : Type := mkSendData {
  sd_content : JsContent;
  sd_type : option string;
  sd_file : option string;
  sd_room : option string;
  sd_replyTo : option string
}.

(** [x || fallback] on an optional string. *)
Definition or_else (o : option string) (fallback : string) : string :=
  if truthy_string o then str_of o else fallback.
Definition or_null (o : option string) : option string :=
  if truthy_string o then o else None.

(** [message.replyTo]: null, the reference, or the populated document. *)
Inductive ReplyTo : Type :=
| NoReply
| ReplyRef (oid : string)
| ReplyDoc (doc : string).

Record Sender : Type := mkSender {
  s_id : string;
  s_username : string;
  s_avatar : option string;
  s_isOnline : bool
}.

(** [formattedMessage] *)
Record FormattedMessage : Type := mkFormatted {
  fm_id : string;
  fm_sender : Sender;
  fm_content : option string;
  fm_type : string;
  fm_file : option string;
  fm_room : string;
  fm_isEdited : bool;
  fm_editedAt : option Z;
  fm_reactions : list MessageModel.Reaction;
  fm_replyTo : ReplyTo;
  fm_createdAt : Z
}.

Inductive Payload : Type :=
| AuthError (error : string)
| UserJoined (userId username : string) (avatar : option string) (isOnline : bool)
| ActiveUsers (users : list UserDoc)
| MessageHistory (history : list string)
| ErrorEvent (error : string)
| NewMessage (m : FormattedMessage)
| UserLeft (userId username : string).

Record Emission : Type := mkEmit {
  target : Target;
  event : string;
  payload : Payload
}.

(** The calls made to the persistence layer. *)
Inductive DbCall : Type :=
| FindById (userId : string)
| SetOnlineStatus (userId : string) (isOnline : bool) (socketId : option string)
| FindOnline
| GetRecentMessages (limit : Z)
| Save (sender : string) (content : option string) (type : string)
       (file : option string) (room : string) (replyTo : option string)
| Populate (path : string).

(** The connection's socket, the module-level [activeUsers], the calls made to
    the persistence layer and what has been emitted, both oldest first. *)
Record World : Type := mkWorld {
  socket : Socket;
  activeUsers : omap ActiveUser;
  dbCalls : list DbCall;
  outbox : list Emission
}.

Definition set_socket (f : Socket -> Socket) : M World unit :=
  modify (fun w => mkWorld (f (socket w)) (activeUsers w) (dbCalls w) (outbox w)).
Definition set_activeUsers (f : omap ActiveUser -> omap ActiveUser) : M World unit :=
  modify (fun w => mkWorld (socket w) (f (activeUsers w)) (dbCalls w) (outbox w)).
Definition emit (t : Target) (ev : string) (p : Payload) : M World unit :=
  modify (fun w => mkWorld (socket w) (activeUsers w) (dbCalls w)
                           (outbox w ++ [mkEmit t ev p])).

(** [await call]: the call is made, then it resolves or rejects as the
    persistence layer answers. *)
Definition await {A} (c : DbCall) (answer : outcome A) : M World A :=
  modify (fun w => mkWorld (socket w) (activeUsers w) (dbCalls w ++ [c]) (outbox w)) ;;;
  lift answer.

(** [socket.disconnect()] *)
Definition socket_disconnect : M World unit :=
  set_socket (fun s => mkSocket (sock_id s) (sock_userId s) (sock_username s)
                                (rooms s) true).

(** How the persistence layer answers during one [authenticate]. *)
Record AuthAnswers : Type := mkAuthAnswers {
  ans_findById : outcome (option UserDoc);
  ans_setOnlineStatus : outcome unit;
  ans_find : outcome (list UserDoc);
  ans_getRecentMessages : outcome (list string)
}.

(** How it answers during one [disconnect]. *)
Record DisconnectAnswers : Type := mkDisconnectAnswers {
  dans_findById : outcome (option UserDoc);
  dans_setOnlineStatus : outcome unit
}.

(** How it answers during one [sendMessage]: [save] gives the document its
    id and [createdAt]; populating [sender] finds the profile or null. *)
Record SendAnswers : Type := mkSendAnswers {
  ans_save : outcome (string * Z);
  ans_populate_sender : outcome (option Sender);
  ans_populate_replyTo : outcome (option string)
}.

Section Handlers.
Variable jwt_verify : string -> outcome Decoded.
(** [parseInt(process.env.MESSAGE_HISTORY_LIMIT) || 50] *)
Variable history_limit : Z.

(** [socket.on('authenticate', ...)] *)
Definition on_authenticate (token : string) (db : AuthAnswers) : M World unit :=
  try_catch
    (decoded <- lift (jwt_verify token) ;;
     found <- await (FindById (d_userId decoded)) (ans_findById db) ;;
     s <- gets socket ;;
     match found with
     | None =>
         emit (Self (sock_id s)) "authError" (AuthError "User not found") ;;;
         socket_disconnect
     | Some user =>
         set_socket (fun s => mkSocket (sock_id s) (Some (d_userId decoded))
                                       (Some (d_username decoded)) (rooms s)
                                       (disconnected s)) ;;;
         await (SetOnlineStatus (u_id user) true (Some (sock_id s)))
               (ans_setOnlineStatus db) ;;;
         set_activeUsers
           (omap_set (sock_id s)
              (mkActiveUser (d_userId decoded) (d_username decoded) (sock_id s))) ;;;
         set_socket (fun s => mkSocket (sock_id s) (sock_userId s) (sock_username s)
                                       (rooms s ++ ["general"]) (disconnected s)) ;;;
         emit (RoomExcept "general" (sock_id s)) "userJoined"
              (UserJoined (d_userId decoded) (d_username decoded) (u_avatar user) true) ;;;
         onlineUsers <- await FindOnline (ans_find db) ;;
         emit (Self (sock_id s)) "activeUsers" (ActiveUsers onlineUsers) ;;;
         recentMessages <- await (GetRecentMessages history_limit)
                                 (ans_getRecentMessages db) ;;
         emit (Self (sock_id s)) "messageHistory" (MessageHistory recentMessages)
     end)
    (fun _ =>
       s <- gets socket ;;
       emit (Self (sock_id s)) "authError" (AuthError "Invalid token") ;;;
       socket_disconnect).

(** [socket.on('sendMessage', ...)] *)
Definition on_sendMessage (data : SendData) (db : SendAnswers) : M World unit :=
  s <- gets socket ;;
  if negb (truthy_string (sock_userId s))
  then emit (Self (sock_id s)) "error" (ErrorEvent "Not authenticated")
  else
    try_catch
      (let content := cast_content (sd_content data) in
       let type := or_else (sd_type data) "text" in
       let file := or_null (sd_file data) in
       let room := or_else (sd_room data) "general" in
       let replyTo := or_null (sd_replyTo data) in
       saved <- await (Save (str_of (sock_userId s)) content type file room replyTo)
                      (ans_save db) ;;
       sender <- await (Populate "sender") (ans_populate_sender db) ;;
       reply <- (if truthy_string (sd_replyTo data)
                 then
                   doc <- await (Populate "replyTo") (ans_populate_replyTo db) ;;
                   ret (match doc with Some d => ReplyDoc d | None => NoReply end)
                 else ret NoReply) ;;
       match sender with
       | None => throw (TypeError "Cannot read properties of null (reading '_id')")
       | Some sender =>
           let formattedMessage :=
             mkFormatted (fst saved) sender content type file room false None []
                         reply (snd saved) in
           emit (Room (or_else (sd_room data) "general")) "newMessage"
                (NewMessage formattedMessage) ;;;
           match sd_content data with
           | CString _ => ret tt
           | _ => throw (TypeError "data.content.substring is not a function")
           end
       end)
      (fun _ =>
         emit (Self (sock_id s)) "error" (ErrorEvent "Failed to send message")).

(** [socket.on('disconnect', ...)] *)
Definition on_disconnect (db : DisconnectAnswers) : M World unit :=
  s <- gets socket ;;
  users <- gets activeUsers ;;
  if truthy_string (sock_userId s) && omap_has (sock_id s) users
  then
    match omap_get (sock_id s) users with
    | Some user =>
        set_activeUsers (omap_delete (sock_id s)) ;;;
        try_catch
          (dbUser <- await (FindById (str_of (sock_userId s))) (dans_findById db) ;;
           match dbUser with
           | Some u => await (SetOnlineStatus (u_id u) false None)
                             (dans_setOnlineStatus db)
           | None => ret tt
           end ;;;
           emit (RoomExcept "general" (sock_id s)) "userLeft"
                (UserLeft (userId user) (username user)))
          (fun _ => ret tt)
    | None => ret tt
    end
  else ret tt.
End Handlers.

(** No Session stands for the connection: [socket.userId] is unset, or
    [activeUsers] has no entry under [socket.id]. *)
Definition no_session (w : World) : Prop :=
  truthy_string (sock_userId (socket w)) = false
  \/ omap_get (sock_id (socket w)) (activeUsers w) = None.

(** An [authenticate] that fails before the Session is registered: the
    token does not verify, the user lookup rejects or finds nobody, or the
    online-status update rejects. *)
Definition fails_early (jwt_verify : string -> outcome Decoded) (token : string)
    (db : AuthAnswers) : Prop :=
  (exists e, jwt_verify token = Throw e)
  \/ (exists e, ans_findById db = Throw e)
  \/ ans_findById db = Ok None
  \/ (exists e, ans_setOnlineStatus db = Throw e).

(** [emits P m w]: run from [w], the computation [m] only adds emissions to
    the outbox, and each one it adds satisfies [P]. *)
Definition emits (P : Emission -> Prop) {A} (m : M World A) (w : World) : Prop :=
  exists new, outbox (snd (m w)) = (outbox w ++ new)%list /\ List.Forall P new.

(** An emission of [sendMessage] that may leave the sender: it is addressed to
    the connection itself, or it is the [newMessage] to the room and the
    message has been saved. *)
Definition to_sender_or_saved (sid room : string) (db : SendAnswers) (e : Emission)
  : Prop :=
  target e = Self sid
  \/ (target e = Room room /\ event e = "newMessage"
      /\ exists saved, ans_save db = Ok saved).

End SocketHandlerDb.

(* ===================================================================== *)
(** ** What a broadcast on the live connection amounts to *)
(* ===================================================================== *)

Module BroadcastSpec.
Import Js Signature AgentHandler.

(** Every entry of the registry stands under its own [agentId], once. *)
Definition registry_wf (m : omap AgentConnection) : Prop :=
  List.NoDup (omap_keys m) /\ List.Forall (fun kv => agentId (snd kv) = fst kv) m.

(** The recipients: the connections whose status is authenticated or active,
    in the order of the registry. *)
Definition recipients (w : World) : list AgentConnection :=
  List.filter is_active (omap_values (agentConnections w)).

Definition reachable (io : gset string) (agent : AgentConnection) : bool :=
  bool_decide (socketId agent ∈ io).

Section WithTemplate.
Variable secret_env : option string.
Variable clock : nat -> Z.
Variable io : gset string.
Variable command : Command.

(** The command as it is sent at tick [t]: the template with its timestamp
    and hash, under the template's own id. *)
Definition as_sent (t : nat) : Command :=
  set_authHash (authHash_of secret_env (id command) (action command))
               (set_timestamp (clock t) command).

(** The entry of the result list for one recipient. *)
Definition result_for (agent : AgentConnection) : Result :=
  if reachable io agent
  then mkResult (agentId agent) true None
  else mkResult (agentId agent) false
                (Some ("Agent socket not found: " ++ agentId agent)).

(** What is emitted: one [command:<module>] per reachable recipient, each
    recipient, reachable or not, taking two readings of the clock. *)
Fixpoint deliveries (t : nat) (agents : list AgentConnection) : list Emission :=
  match agents with
  | [] => []
  | agent :: rest =>
      (if reachable io agent
       then [mkEmit (socketId agent) ("command:" ++ module command)
                    (CommandPayload (as_sent t))]
       else [])
      ++ deliveries (S (S t)) rest
  end.
End WithTemplate.

(** The world once the command is stored: two readings of the clock, and
    the entry under the command's id with status [sent]. *)
Definition stored env clock (command : Command) (w : World) : World :=
  mkWorld (agentConnections w)
          (<[id command := set_sent (clock (S (ticks w)))
                             (as_sent env clock command (ticks w))]>
             (pendingCommands w))
          (timers w) (outbox w) (S (S (ticks w))).

(** The [id] of the command an emission carries. *)
Definition carried_id (e : Emission) : option string :=
  match payload e with
  | CommandPayload c => Some (id c)
  | _ => None
  end.

End BroadcastSpec.

(* ===================================================================== *)
(** ** Concrete requests and states used below *)
(* ===================================================================== *)

Module Scenario.
Import Js Signature.

(** No [COMPLIANCE_SHARED_SECRET] in the environment: the default secret. *)
Definition no_env : option string := None.

(** A clock that stands still at [t]. *)
Definition at_time (t : Z) : nat -> Z := fun _ => t.

(** The handshake of agent [ag-1], stamped 1700000000000. *)
Definition stamp : Z := 1700000000000.
Definition ag1_data : signed := AuthData "ag-1" "linux" stamp.
Definition ag1_signature : string := createSignature no_env ag1_data.
Definition zero_signature : string :=
  "0000000000000000000000000000000000000000000000000000000000000000".

Definition handshake (signature : string) : AgentRoutes.AuthBody :=
  AgentRoutes.mkAuthBody (Some "ag-1") (Some "linux") (Some stamp) (Some signature).

Definition routes_empty : AgentRoutes.State :=
  AgentRoutes.mkState [] ∅ ∅ 0 0.

Definition agent_socket : AgentHandler.Socket := AgentHandler.mkSocket "sock-1" None.
Definition hub_empty : AgentHandler.World :=
  AgentHandler.mkWorld [] ∅ [] [] 0.

(** A clock that advances by one millisecond at every reading. *)
Definition running_clock (t : Z) : nat -> Z := fun n => t + Z.of_nat n.

(** Three registered agents: two authenticated, one disconnected. *)
Definition conn (sid aid st : string) : AgentHandler.AgentConnection :=
  AgentHandler.mkConn sid aid "linux" stamp stamp st None.
Definition hub_three : AgentHandler.World :=
  AgentHandler.mkWorld
    [("ag-1", conn "sock-1" "ag-1" "authenticated");
     ("ag-2", conn "sock-2" "ag-2" "disconnected");
     ("ag-3", conn "sock-3" "ag-3" "active")]
    ∅ [] [] 0.

(** The command template [fs/listFiles], with the id its caller gave it. *)
Definition listFiles : AgentHandler.Command :=
  AgentHandler.mkCommand "cmd-1" None "fs" "listFiles" "{}" "normal"
                         None None None None None None.

(** All three sockets connected; the socket of [ag-1] gone. *)
Definition io_all : gset string := {[ "sock-1"; "sock-2"; "sock-3" ]}.
Definition io_without_1 : gset string := {[ "sock-2"; "sock-3" ]}.

(** The HTTP registry with an agent to which a command was sent. *)
Definition routes_two : AgentRoutes.State :=
  AgentRoutes.mkState
    [("ag-1", AgentRoutes.mkAgent "ag-1" "linux" stamp stamp "authenticated");
     ("ag-2", AgentRoutes.mkAgent "ag-2" "linux" stamp stamp "command_sent")]
    ∅ ∅ 0 0.

(** UUIDs [uuid-0], [uuid-1], ... *)
Definition uuid_n (n : nat) : string := "uuid-" ++ Crypto.json_number (Z.of_nat n).

(** [dispatch("ag-1", "fs", "listFiles", {})] as a request to POST /command. *)
Definition dispatch_listFiles : AgentRoutes.CommandBody :=
  AgentRoutes.mkCommandBody (Some "ag-1") (Some "fs") (Some "listFiles") None None.

(** A response of [ag-1] to a command nobody stored. *)
Definition stray_http_response : AgentRoutes.ResponseBody :=
  AgentRoutes.mkResponseBody (Some "cmd-9") (Some "ag-1") (Some "fs")
                             (Some "completed") None None None.
Definition stray_response : AgentHandler.ResponseMsg :=
  AgentHandler.mkResponseMsg (Some "cmd-9") (Some "ag-1") (Some "fs")
                             (Some "completed") None None None.

(** Alice's authenticated chat connection, and her message "hi". *)
Definition alice_socket : Chat.Socket :=
  Chat.mkSocket "chat-1" (Some "u1") (Some "alice") ["general"] false.
Definition alice_world : SocketHandlerDb.World :=
  SocketHandlerDb.mkWorld alice_socket
    [("chat-1", Chat.mkActiveUser "u1" "alice" "chat-1")] [] [].
Definition hi : SocketHandlerDb.SendData :=
  SocketHandlerDb.mkSendData (SocketHandlerDb.CString "hi") None None
                             (Some "general") None.
(** The persistence layer rejects the save. *)
Definition save_fails : SocketHandlerDb.SendAnswers :=
  SocketHandlerDb.mkSendAnswers (Js.Throw (Js.Error "MongoNetworkError"))
    (Js.Ok None) (Js.Ok None).

(** Bob connects: a fresh socket, nobody registered under its id. *)
Definition bob_socket : Chat.Socket := Chat.mkSocket "chat-2" None None [] false.
Definition bob_world : SocketHandlerDb.World :=
  SocketHandlerDb.mkWorld bob_socket
    [("chat-1", Chat.mkActiveUser "u1" "alice" "chat-1")] [] [].
Definition bob_world_mem : SocketHandlerMem.World :=
  SocketHandlerMem.mkWorld bob_socket
    [("chat-1", Chat.mkActiveUser "u1" "alice" "chat-1")] [] [].

(** Only the token [token-bob] verifies. *)
Definition verify (token : string) : Js.outcome Chat.Decoded :=
  if String.eqb token "token-bob" then Js.Ok (Chat.mkDecoded "u2" "bob")
  else Js.Throw (Js.Error "jwt malformed").

Definition bob_doc : Chat.UserDoc := Chat.mkUserDoc "u2" "bob" None false None.

(** Bob's user is found and marked online; then the query for the online
    users rejects. *)
Definition presence_query_fails : SocketHandlerDb.AuthAnswers :=
  SocketHandlerDb.mkAuthAnswers (Js.Ok (Some bob_doc)) (Js.Ok tt)
    (Js.Throw (Js.Error "MongoNetworkError")) (Js.Ok []).

Definition db_up : SocketHandlerDb.DisconnectAnswers :=
  SocketHandlerDb.mkDisconnectAnswers (Js.Ok (Some bob_doc)) (Js.Ok tt).

Definition broadcast_listFiles : AgentRoutes.BroadcastReq :=
  AgentRoutes.mkBroadcastReq (Some "fs") (Some "listFiles") None None.

End Scenario.

(* ===================================================================== *)
(** ** socket/agentHandler.js: liveness, disconnection and the sweep *)
(* ===================================================================== *)

Module AgentLiveness.
Import Js Signature AgentHandler.

(** [x || fallback] on an optional string. *)
Definition or_default (o : option string) (fallback : string) : string :=
  if truthy_string o then str_of o else fallback.

Definition mark_disconnected (t : Z) (a : AgentConnection) : AgentConnection :=
  mkConn (socketId a) (agentId a) (platform a) (connectedAt a) (lastSeen a)
         "disconnected" (Some t).

(** The sweep's threshold: [30 * 60 * 1000]. *)
Definition inactiveThreshold : Z := 30 * 60 * 1000.

Definition inactive (now : Z) (agent : AgentConnection) : bool :=
  now - lastSeen agent >? inactiveThreshold.

(** The loop of [cleanupInactiveAgents] over the entries of the Map. *)
Fixpoint cleanup_loop (now : Z) (entries : list (string * AgentConnection))
    (m : omap AgentConnection) (cleanedCount : nat)
  : omap AgentConnection * nat :=
  match entries with
  | [] => (m, cleanedCount)
  | (agentId, agent) :: rest =>
      if inactive now agent
      then cleanup_loop now rest (omap_delete agentId m) (S cleanedCount)
      else cleanup_loop now rest m cleanedCount
  end.

Section Handlers.
Variable clock : nat -> Z.

(** [socket.on('response:ping', ...)]; [agentId] absent is no key of the Map. *)
Definition on_response_ping (agentId status : option string) : M unit :=
  agents <- gets agentConnections ;;
  match agentId with
  | None => ret tt
  | Some agentId =>
      match omap_get agentId agents with
      | Some agent =>
          seen <- Date_now clock ;;
          set_connections
            (omap_set agentId (refresh seen (or_default status "alive") agent))
      | None => ret tt
      end
  end.

(** [socket.on('disconnect', ...)] of the agent connection. *)
Definition on_disconnect (socket : Socket) : M unit :=
  if truthy_string (sock_agentId socket)
  then
    agents <- gets agentConnections ;;
    match omap_get (str_of (sock_agentId socket)) agents with
    | Some agent =>
        t <- Date_now clock ;;
        set_connections
          (omap_set (str_of (sock_agentId socket)) (mark_disconnected t agent))
    | None => ret tt
    end
  else ret tt.

(** [getAgentStatus(agentId)] and [getAllAgentConnections()] *)
Definition getAgentStatus (agentId : string) : M (option AgentConnection) :=
  agents <- gets agentConnections ;;
  ret (omap_get agentId agents).

Definition getAllAgentConnections : M (list AgentConnection) :=
  agents <- gets agentConnections ;;
  ret (omap_values agents).

(** [cleanupInactiveAgents()] *)
Definition cleanupInactiveAgents : M nat :=
  now <- Date_now clock ;;
  agents <- gets agentConnections ;;
  let '(agents', cleanedCount) := cleanup_loop now agents agents 0 in
  set_connections (fun _ => agents') ;;;
  ret cleanedCount.
End Handlers.

End AgentLiveness.

(* ===================================================================== *)
(** ** routes/agents.js: status and cleanup *)
(* ===================================================================== *)

Module AgentStatus.
Import Js Signature AgentRoutes.

(** [cmd.agentId === agentId && cmd.status === 'pending'] *)
Definition pending_for (agentId : string) (cmd : Command) : bool :=
  String.eqb (cmd_agentId cmd) agentId && String.eqb (cmd_status cmd) "pending".

(** [Array.from(agentCommands.values()).filter(...).length] *)
Definition count_pending (agentId : string) (cmds : gmap string Command) : nat :=
  size (filter (fun kv => pending_for agentId (snd kv) = true) cmds).

(** The answers of [GET /status/:agentId]. *)
Inductive StatusAnswer : Type :=
| StatusError (code : Z) (message : string)
| StatusOk (agent : Agent) (pendingCommands : nat).

(** [router.get('/status/:agentId', ...)] *)
Definition get_status (agentId : string) (st : State) : StatusAnswer :=
  if negb (omap_has agentId (activeAgents st))
  then StatusError 404 "Agent not found"
  else
    match omap_get agentId (activeAgents st) with
    | Some agent => StatusOk agent (count_pending agentId (agentCommands st))
    | None => StatusError 500 "Failed to get agent status"
    end.

Definition inactive (now : Z) (agent : Agent) : bool :=
  now - lastSeen agent >? 30 * 60 * 1000.

(** The loop of [/cleanup] over the entries of [activeAgents]. *)
Fixpoint cleanup_loop (now : Z) (entries : list (string * Agent))
    (m : omap Agent) (cleanedCount : nat) : omap Agent * nat :=
  match entries with
  | [] => (m, cleanedCount)
  | (agentId, agent) :: rest =>
      if inactive now agent
      then cleanup_loop now rest (omap_delete agentId m) (S cleanedCount)
      else cleanup_loop now rest m cleanedCount
  end.

(** [router.post('/cleanup', ...)]: the number cleaned (the message reports
    it) and the state. *)
Definition post_cleanup (clock : nat -> Z) (st : State) : nat * State :=
  let now := clock (ticks st) in
  let st := tick st in
  let '(agents', cleanedCount) :=
    cleanup_loop now (activeAgents st) (activeAgents st) 0 in
  (cleanedCount, with_agents (fun _ => agents') st).

End AgentStatus.

(* ===================================================================== *)
(** ** socket/socketHandler.js: typing and call signalling (both variants) *)
(* ===================================================================== *)

Module Signaling.
Import Js Chat.

Inductive Payload : Type :=
| UserTyping (userId username : option string) (isTyping : option bool)
| IncomingCall (from fromUsername callType : option string)
| CallResponse (accepted : option bool) (from fromUsername : option string)
| WebrtcSignal (signal from : option string).

Record Emission : Type := mkEmit {
  target : Target;
  event : string;
  payload : Payload
}.

(** [Array.from(activeUsers.values()).find(user => user.userId === id)];
    an absent id equals no user's. *)
Definition find_user (id : option string) (users : omap ActiveUser)
  : option ActiveUser :=
  List.find (fun user => match id with
                         | Some i => String.eqb (userId user) i
                         | None => false
                         end)
            (omap_values users).

(** [socket.on('typing', ...)] *)
Definition on_typing (socket : Socket) (isTyping : option bool) : list Emission :=
  if negb (truthy_string (sock_userId socket)) then []
  else [mkEmit (RoomExcept "general" (sock_id socket)) "userTyping"
               (UserTyping (sock_userId socket) (sock_username socket) isTyping)].

(** [socket.on('callRequest', ...)] *)
Definition on_callRequest (socket : Socket) (users : omap ActiveUser)
    (targetUserId callType : option string) : list Emission :=
  match find_user targetUserId users with
  | Some targetUser =>
      [mkEmit (Room (socketId targetUser)) "incomingCall"
              (IncomingCall (sock_userId socket) (sock_username socket) callType)]
  | None => []
  end.

(** [socket.on('callResponse', ...)] *)
Definition on_callResponse (socket : Socket) (users : omap ActiveUser)
    (callerId : option string) (accepted : option bool) : list Emission :=
  match find_user callerId users with
  | Some caller =>
      [mkEmit (Room (socketId caller)) "callResponse"
              (CallResponse accepted (sock_userId socket) (sock_username socket))]
  | None => []
  end.

(** [socket.on('webrtc-signal', ...)] *)
Definition on_webrtc_signal (socket : Socket) (users : omap ActiveUser)
    (targetUserId signal : option string) : list Emission :=
  match find_user targetUserId users with
  | Some targetUser =>
      [mkEmit (Room (socketId targetUser)) "webrtc-signal"
              (WebrtcSignal signal (sock_userId socket))]
  | None => []
  end.

End Signaling.

(* ===================================================================== *)
(** ** models/Message.js and the message routes: editing and deleting *)
(* ===================================================================== *)

Module MessageRoutes.
Import Js MessageModel.

(** [editMessage(newContent)] and [softDelete()] on the document in memory;
    [now] is the [new Date()] they take. *)
Definition editMessage (newContent : string) (now : Z) (this : Message) : Message :=
  mkMessage (_id this) (sender this) newContent (type this) (room this) true
            (Some now) (isDeleted this) (deletedAt this) (reactions this)
            (replyTo this).

Definition softDelete (now : Z) (this : Message) : Message :=
  mkMessage (_id this) (sender this) (content this) (type this) (room this)
            (isEdited this) (editedAt this) true (Some now) (reactions this)
            (replyTo this).

(** What a route answers, and the documents it handed to [save()]. *)
Record Answer : Type := mkAnswer {
  code : Z;
  text : string;
  saved : list Message
}.

(** How the persistence layer answers during one request: [findById], the
    [save()] inside the method, and the populates that follow. *)
Record DbAnswers : Type := mkDbAnswers {
  ans_findById : outcome (option Message);
  ans_save : outcome unit;
  ans_populate : outcome unit
}.

(** [router.put('/message/:messageId', ...)] *)
Definition put_message (userId : ObjectId) (content : option string) (now : Z)
    (db : DbAnswers) : Answer :=
  if negb (truthy_string content)
  then mkAnswer 400 "Message content is required" []
  else
    match ans_findById db with
    | Throw _ => mkAnswer 500 "Failed to edit message" []
    | Ok None => mkAnswer 404 "Message not found" []
    | Ok (Some message) =>
        if negb (equals (sender message) userId)
        then mkAnswer 403 "You can only edit your own messages" []
        else
          let message := editMessage (str_of content) now message in
          match ans_save db with
          | Throw _ => mkAnswer 500 "Failed to edit message" [message]
          | Ok _ =>
              match ans_populate db with
              | Throw _ => mkAnswer 500 "Failed to edit message" [message]
              | Ok _ => mkAnswer 200 "Message updated successfully" [message]
              end
          end
    end.

(** [router.delete('/message/:messageId', ...)] *)
Definition delete_message (userId : ObjectId) (now : Z) (db : DbAnswers) : Answer :=
  match ans_findById db with
  | Throw _ => mkAnswer 500 "Failed to delete message" []
  | Ok None => mkAnswer 404 "Message not found" []
  | Ok (Some message) =>
      if negb (equals (sender message) userId)
      then mkAnswer 403 "You can only delete your own messages" []
      else
        let message := softDelete now message in
        match ans_save db with
        | Throw _ => mkAnswer 500 "Failed to delete message" [message]
        | Ok _ => mkAnswer 200 "Message deleted successfully" [message]
        end
  end.

(** [router.post('/message/:messageId/reaction', ...)] *)
Definition post_reaction (userId : ObjectId) (emoji : option string) (now : Z)
    (db : DbAnswers) : Answer :=
  if negb (truthy_string emoji)
  then mkAnswer 400 "Emoji is required" []
  else
    match ans_findById db with
    | Throw _ => mkAnswer 500 "Failed to add reaction" []
    | Ok None => mkAnswer 404 "Message not found" []
    | Ok (Some message) =>
        let message := addReaction userId (str_of emoji) now message in
        match ans_save db with
        | Throw _ => mkAnswer 500 "Failed to add reaction" [message]
        | Ok _ =>
            match ans_populate db with
            | Throw _ => mkAnswer 500 "Failed to add reaction" [message]
            | Ok _ => mkAnswer 200 "Reaction added successfully" [message]
            end
        end
    end.

(** [router.delete('/message/:messageId/reaction', ...)] *)
Definition delete_reaction (userId : ObjectId) (db : DbAnswers) : Answer :=
  match ans_findById db with
  | Throw _ => mkAnswer 500 "Failed to remove reaction" []
  | Ok None => mkAnswer 404 "Message not found" []
  | Ok (Some message) =>
      let message := removeReaction userId message in
      match ans_save db with
      | Throw _ => mkAnswer 500 "Failed to remove reaction" [message]
      | Ok _ =>
          match ans_populate db with
          | Throw _ => mkAnswer 500 "Failed to remove reaction" [message]
          | Ok _ => mkAnswer 200 "Reaction removed successfully" [message]
          end
      end
  end.

(** Every step of the persistence layer succeeds on [found]. *)
Definition finds (found : Message) : DbAnswers :=
  mkDbAnswers (Ok (Some found)) (Ok tt) (Ok tt).

End MessageRoutes.

(* ===================================================================== *)
(** ** Names for what the handshake computes *)
(* ===================================================================== *)

Module HandshakeSpec.
Import Crypto Js Signature.

(** The "simple" signature the base64 fallback of routes/agents.js compares
    with: [Buffer.from(JSON.stringify(data) + SHARED_SECRET)
    .toString('base64').substring(0, 32)]. *)
Definition simpleSignature (env : option string) (data : signed) : string :=
  substring0 32 (base64 (bytes_of_string (JSON_stringify data ++ SHARED_SECRET env))).

(** The handshake is within the replay window at server time [now]. *)
Definition in_window (now timestamp : Z) : Prop :=
  Z.abs (now - timestamp) <= 300000.

End HandshakeSpec.

(* ===================================================================== *)
(** ** More concrete requests and states *)
(* ===================================================================== *)

Module Scenario2.
Import Js Signature Scenario.

(** The HTTP state after [fs/listFiles] was dispatched to [ag-1]. *)
Definition routes_dispatched : AgentRoutes.State :=
  snd (AgentRoutes.post_command no_env (running_clock stamp) uuid_n
         dispatch_listFiles routes_two).

(** [ag-2] reports the command [uuid-0], dispatched to [ag-1], completed. *)
Definition completed_by_ag2 : AgentRoutes.ResponseBody :=
  AgentRoutes.mkResponseBody (Some "uuid-0") (Some "ag-2") (Some "fs")
                             (Some "completed") (Some "[]") None (Some 12).

(** A registry of four, last seen at different times. *)
Definition seen (aid : string) (t : Z) : string * AgentHandler.AgentConnection :=
  (aid, AgentHandler.mkConn ("sock-" ++ aid) aid "linux" 0 t "active" None).
Definition hub_aged : AgentHandler.World :=
  AgentHandler.mkWorld
    [seen "a" 0; seen "b" 1000000; seen "c" 200000; seen "d" 1800000]
    ∅ [] [] 0.

(** Two devices of Alice and one of Bob in the chat registry. *)
Definition chat_users : Js.omap Chat.ActiveUser :=
  [("chat-1", Chat.mkActiveUser "u1" "alice" "chat-1");
   ("chat-2", Chat.mkActiveUser "u2" "bob" "chat-2");
   ("chat-3", Chat.mkActiveUser "u1" "alice" "chat-3")].

(** The persistence layer answers everything. *)
Definition db_all_up : SocketHandlerDb.AuthAnswers :=
  SocketHandlerDb.mkAuthAnswers (Js.Ok (Some bob_doc)) (Js.Ok tt)
    (Js.Ok [bob_doc]) (Js.Ok []).

Definition alice_profile : SocketHandlerDb.Sender :=
  SocketHandlerDb.mkSender "u1" "alice" None true.
Definition send_up : SocketHandlerDb.SendAnswers :=
  SocketHandlerDb.mkSendAnswers (Js.Ok ("m1", stamp)) (Js.Ok (Some alice_profile))
    (Js.Ok None).
Definition number_message : SocketHandlerDb.SendData :=
  SocketHandlerDb.mkSendData (SocketHandlerDb.CNumber 42) None None None None.

(** A message of Alice. *)
Definition alice_message : MessageModel.Message :=
  MessageModel.new_Message "m1" "u1" "hi" "text" "general" None.
Definition found_alice_message : MessageRoutes.DbAnswers :=
  MessageRoutes.mkDbAnswers (Js.Ok (Some alice_message)) (Js.Ok tt) (Js.Ok tt).

End Scenario2.

(* ===================================================================== *)
(** * Properties *)
(* ===================================================================== *)

(** The digests are computed on closed inputs only; simplification leaves
    them folded. *)
Arguments Crypto.sha256 : simpl never.
Arguments Crypto.hmac_sha256 : simpl never.
Arguments Signature.createSignature : simpl never.
Arguments Signature.authHash_of : simpl never.
Arguments Signature.JSON_stringify : simpl never.

(** ** Buffers, hex text and digests *)

Module CryptoFacts.
Import Crypto Js Signature.

(** Known answers: SHA-256 of "abc" (FIPS 180-4), HMAC-SHA256 of test case 2
    of RFC 4231, base64 of a sentence, and two hex decodings from Node's
    documentation. *)
Example sha256_abc :
  hex_encode (sha256 (bytes_of_string "abc"))
  = "ba7816bf8f01cfea414140de5dae2223b00361a396177a9cb410ff61f20015ad".
Proof. vm_compute. reflexivity. Qed.

Example hmac_rfc4231_case2 :
  hex_encode (hmac_sha256 (bytes_of_string "Jefe")
                          (bytes_of_string "what do ya want for nothing?"))
  = "5bdcc146bf60754e6a042426089575c75a003f089d2739839dec58b964ec3843".
Proof. vm_compute. reflexivity. Qed.

Example base64_sentence :
  base64 (bytes_of_string "Many hands make light work.")
  = "TWFueSBoYW5kcyBtYWtlIGxpZ2h0IHdvcmsu".
Proof. vm_compute. reflexivity. Qed.

Example hex_decode_truncates :
  hex_decode "1ag123" = [26] /\ hex_decode "1a7" = [26] /\ hex_decode "1634" = [22; 52].
Proof. repeat split; reflexivity. Qed.

Example handshake_payload_text :
  JSON_stringify (AuthData "ag-1" "linux" 1700000000000)
  = "{" ++ json_string "agentId" ++ ":" ++ json_string "ag-1" ++ ","
        ++ json_string "platform" ++ ":" ++ json_string "linux" ++ ","
        ++ json_string "timestamp" ++ ":1700000000000}".
Proof. vm_compute. reflexivity. Qed.

Lemma hexval_hexdigit_table :
  forallb (fun i => bool_decide (hexval (hexdigit (Z.of_nat i)) = Some (Z.of_nat i)))
          (seq 0 16) = true.
Proof. reflexivity. Qed.

Lemma hexval_hexdigit (n : Z) : 0 <= n < 16 -> hexval (hexdigit n) = Some n.
Proof.
  intros Hn. pose proof hexval_hexdigit_table as T.
  rewrite forallb_forall in T.
  assert (Hin : In (Z.to_nat n) (seq 0 16)) by (apply in_seq; lia).
  apply T in Hin. rewrite Z2Nat.id in Hin by lia.
  now apply bool_decide_eq_true in Hin.
Qed.

(** Decoding the hex text of a buffer gives back as many bytes. *)
Lemma hex_decode_encode_length (l : list Z) :
  length (hex_decode (hex_encode l)) = length l.
Proof.
  induction l as [| b r IH]; [reflexivity |].
  cbn [hex_encode hex_decode].
  rewrite !hexval_hexdigit.
  - cbn [length]. now rewrite IH.
  - apply Z.mod_pos_bound. lia.
  - split.
    + apply Z.div_pos; [apply Z.mod_pos_bound |]; lia.
    + apply Z.div_lt_upper_bound; [lia |]. apply Z.mod_pos_bound. lia.
Qed.

Lemma be_bytes_length (n : nat) (x : Z) : length (be_bytes n x) = n.
Proof. unfold be_bytes. now rewrite length_map, length_rev, length_seq. Qed.

Lemma sha256_length (msg : list Z) : length (sha256 msg) = 32%nat.
Proof.
  unfold sha256, digest_bytes. now rewrite !length_app, !be_bytes_length.
Qed.

Lemma hmac_sha256_length (key msg : list Z) : length (hmac_sha256 key msg) = 32%nat.
Proof. apply sha256_length. Qed.

(** The expected signature always decodes to 32 bytes. *)
Lemma expected_length (env : option string) (data : signed) :
  length (hex_decode (createSignature env data)) = 32%nat.
Proof.
  unfold createSignature. now rewrite hex_decode_encode_length, hmac_sha256_length.
Qed.

(** Hex text of [n] characters holds at most [n / 2] bytes. *)
Lemma hex_decode_length (s : string) :
  (2 * length (hex_decode s) <= String.length s)%nat.
Proof.
  assert (H : forall n s, (String.length s <= n)%nat ->
                          (2 * length (hex_decode s) <= String.length s)%nat).
  { clear s. induction n as [| n IH]; intros s Hs.
    - destruct s; cbn in *; lia.
    - destruct s as [| c1 [| c2 r]]; cbn [hex_decode]; cbn [length String.length];
        try lia.
      destruct (hexval c1), (hexval c2); cbn [length]; try lia.
      specialize (IH r). cbn [String.length] in Hs.
      assert (String.length r <= n)%nat by lia.
      specialize (IH H). lia. }
  apply (H (String.length s)). lia.
Qed.

Lemma substring0_length (n : nat) (s : string) :
  (String.length (substring0 n s) <= n)%nat.
Proof.
  revert s. induction n as [| n IH]; intros s; [destruct s; cbn; lia |].
  destruct s as [| c r]; cbn; [lia |]. specialize (IH r). lia.
Qed.

Lemma timingSafeEqual_true (a b : list Z) :
  timingSafeEqual a b = Ok true <-> a = b.
Proof.
  unfold timingSafeEqual. split.
  - destruct (Nat.eqb _ _); [| discriminate].
    intros [= H]. now apply bool_decide_eq_true in H.
  - intros ->. rewrite Nat.eqb_refl. f_equal. now apply bool_decide_eq_true.
Qed.

Lemma timingSafeEqual_throw (a b : list Z) :
  (exists e, timingSafeEqual a b = Throw e) <-> length a <> length b.
Proof.
  unfold timingSafeEqual. destruct (Nat.eqb_spec (length a) (length b)) as [E | E].
  - split; [intros [e H]; discriminate | tauto].
  - split; [tauto | eauto].
Qed.

(** The base64 fallback of routes/agents.js never accepts: it is reached only
    with a signature of 64 characters or more, and compares that with a text
    of at most 32. *)
Lemma verifySignature_fallback_dead (env : option string) (data : signed)
    (signature : string) :
  verifySignature env data signature
  = verifySignature_socket env data signature.
Proof.
  unfold verifySignature, verifySignature_socket.
  destruct (timingSafeEqual _ _) as [[|] | e] eqn:E; try reflexivity.
  f_equal. apply String.eqb_neq. intros ->.
  unfold timingSafeEqual in E.
  destruct (Nat.eqb_spec
              (length (hex_decode
                 (substring0 32
                    (base64 (bytes_of_string (JSON_stringify data ++ SHARED_SECRET env))))))
              (length (hex_decode (createSignature env data)))) as [L | L];
    [| discriminate].
  rewrite expected_length in L.
  pose proof (hex_decode_length
                (substring0 32
                   (base64 (bytes_of_string (JSON_stringify data ++ SHARED_SECRET env))))).
  pose proof (substring0_length 32
                (base64 (bytes_of_string (JSON_stringify data ++ SHARED_SECRET env)))).
  lia.
Qed.

(** Both [verifySignature]s answer [true] exactly when the signature decodes
    to the bytes of the expected HMAC, and throw exactly when it does not
    decode to 32 bytes. *)
Lemma verifySignature_true (env : option string) (data : signed) (signature : string) :
  verifySignature env data signature = Ok true
  <-> hex_decode signature = hex_decode (createSignature env data).
Proof.
  rewrite verifySignature_fallback_dead. apply timingSafeEqual_true.
Qed.

Lemma verifySignature_throws (env : option string) (data : signed) (signature : string) :
  (exists e, verifySignature env data signature = Throw e)
  <-> length (hex_decode signature) <> 32%nat.
Proof.
  rewrite verifySignature_fallback_dead. unfold verifySignature_socket.
  rewrite timingSafeEqual_throw. now rewrite expected_length.
Qed.

End CryptoFacts.

(** ** The agent handshake (C1, C2) *)

Module AuthFacts.
Import Crypto Js Signature CryptoFacts.

Lemma fields_present_guard agentId platform timestamp signature :
  fields_present agentId platform timestamp signature ->
  negb (truthy_string agentId) || negb (truthy_string platform)
  || negb (truthy_number timestamp) || negb (truthy_string signature) = false.
Proof. intros (-> & -> & -> & ->). reflexivity. Qed.

Ltac run_handler :=
  unfold AgentHandler.on_agent_authenticate, try_catch, bind, lift, ret,
    AgentHandler.emit, AgentHandler.set_connections, AgentHandler.Date_now, modify.

(** A successful HTTP handshake registers the agent and answers 200; it needs
    a signature that decodes to the bytes of the expected HMAC. *)
Lemma post_authenticate_success_needs_hmac env clock req st :
  AgentRoutes.code (fst (AgentRoutes.post_authenticate env clock req st)) = 200 ->
  hex_decode (str_of (AgentRoutes.req_signature req))
  = hex_decode (createSignature env
                  (AuthData (str_of (AgentRoutes.req_agentId req))
                            (str_of (AgentRoutes.req_platform req))
                            (num_of (AgentRoutes.req_timestamp req)))).
Proof.
  unfold AgentRoutes.post_authenticate.
  destruct (_ || _); [discriminate |].
  destruct (verifySignature _ _ _) as [[|] | e] eqn:E; try discriminate.
  intros _. now apply verifySignature_true.
Qed.

(** The same on the live connection: the socket gets its [agentId] property
    only with such a signature. *)
Lemma on_agent_authenticate_success_needs_hmac env clock socket a p t s w socket' w' :
  AgentHandler.on_agent_authenticate env clock socket a p t s w = (Ok socket', w') ->
  AgentHandler.sock_agentId socket' <> AgentHandler.sock_agentId socket ->
  hex_decode (str_of s)
  = hex_decode (createSignature env (AuthData (str_of a) (str_of p) (num_of t))).
Proof.
  run_handler. destruct (_ || _); cbn.
  { intros [= <- <-]. congruence. }
  unfold verifySignature_socket.
  destruct (timingSafeEqual _ _) as [[|] | e] eqn:E; cbn.
  - intros _ _. now apply timingSafeEqual_true.
  - intros [= <- <-]. congruence.
  - intros [= <- <-]. congruence.
Qed.

(** A signature that does decode to 32 bytes, but not to those of the HMAC,
    is answered 401 "Invalid authentication signature". *)
Lemma post_authenticate_bad_signature env clock req st :
  fields_present (AgentRoutes.req_agentId req) (AgentRoutes.req_platform req)
                 (AgentRoutes.req_timestamp req) (AgentRoutes.req_signature req) ->
  length (hex_decode (str_of (AgentRoutes.req_signature req))) = 32%nat ->
  hex_decode (str_of (AgentRoutes.req_signature req))
  <> hex_decode (createSignature env
                   (AuthData (str_of (AgentRoutes.req_agentId req))
                             (str_of (AgentRoutes.req_platform req))
                             (num_of (AgentRoutes.req_timestamp req)))) ->
  AgentRoutes.post_authenticate env clock req st
  = (AgentRoutes.json_error 401 "Invalid authentication signature", st).
Proof.
  intros Hf Hlen Hne. unfold AgentRoutes.post_authenticate.
  rewrite (fields_present_guard _ _ _ _ Hf).
  destruct (verifySignature _ _ _) as [[|] | e] eqn:E.
  - apply verifySignature_true in E. contradiction.
  - reflexivity.
  - exfalso. assert (Ht : exists e, verifySignature env
        (AuthData (str_of (AgentRoutes.req_agentId req))
                  (str_of (AgentRoutes.req_platform req))
                  (num_of (AgentRoutes.req_timestamp req)))
        (str_of (AgentRoutes.req_signature req)) = Throw e) by eauto.
    apply verifySignature_throws in Ht. contradiction.
Qed.

(** C1 (the code departs from the claim): a handshake that carries all four
    fields and a signature that does not decode to 32 bytes is not answered
    with the bad-signature error. [crypto.timingSafeEqual] throws on the
    length mismatch, and the handler's catch-all answers "Authentication
    failed": status 500 on POST /api/agents/authenticate, the
    [agent:auth_failed] event with that message on the socket. Nothing is
    registered. *)
Theorem C1_wrong_length_signature_gets_generic_failure
    (env : option string) (clock : nat -> Z)
    (agentId platform : option string) (timestamp : option Z)
    (signature : option string)
    (st : AgentRoutes.State) (socket : AgentHandler.Socket) (w : AgentHandler.World) :
  fields_present agentId platform timestamp signature ->
  length (hex_decode (str_of signature)) <> 32%nat ->
  AgentRoutes.post_authenticate env clock
    (AgentRoutes.mkAuthBody agentId platform timestamp signature) st
  = (AgentRoutes.json_error 500 "Authentication failed", st)
  /\ AgentHandler.on_agent_authenticate env clock socket agentId platform
       timestamp signature w
     = (Ok socket,
        AgentHandler.mkWorld (AgentHandler.agentConnections w)
          (AgentHandler.pendingCommands w) (AgentHandler.timers w)
          (AgentHandler.outbox w
           ++ [AgentHandler.mkEmit (AgentHandler.sock_id socket) "agent:auth_failed"
                 (AgentHandler.AuthFailed "Authentication failed")])
          (AgentHandler.ticks w)).
Proof.
  intros Hf Hlen.
  pose proof (fields_present_guard _ _ _ _ Hf) as Hg.
  assert (Ht : exists e, verifySignature env
            (AuthData (str_of agentId) (str_of platform) (num_of timestamp))
            (str_of signature) = Throw e)
    by now apply verifySignature_throws.
  destruct Ht as [e He]. split.
  - unfold AgentRoutes.post_authenticate. cbn [AgentRoutes.req_agentId
      AgentRoutes.req_platform AgentRoutes.req_timestamp AgentRoutes.req_signature].
    now rewrite Hg, He.
  - rewrite verifySignature_fallback_dead in He.
    run_handler. now rewrite Hg, He.
Qed.

(** The theorem at the signature "deadbeef" (four bytes). *)
Lemma C1_wrong_length_signature_witness :
  AgentRoutes.post_authenticate Scenario.no_env (Scenario.at_time Scenario.stamp)
    (Scenario.handshake "deadbeef") Scenario.routes_empty
  = (AgentRoutes.json_error 500 "Authentication failed", Scenario.routes_empty)
  /\ AgentHandler.on_agent_authenticate Scenario.no_env
       (Scenario.at_time Scenario.stamp) Scenario.agent_socket
       (Some "ag-1") (Some "linux") (Some Scenario.stamp) (Some "deadbeef")
       Scenario.hub_empty
     = (Ok Scenario.agent_socket,
        AgentHandler.mkWorld [] ∅ [] 
          [AgentHandler.mkEmit "sock-1" "agent:auth_failed"
             (AgentHandler.AuthFailed "Authentication failed")] 0).
Proof.
  apply (C1_wrong_length_signature_gets_generic_failure
           Scenario.no_env (Scenario.at_time Scenario.stamp)
           (Some "ag-1") (Some "linux") (Some Scenario.stamp) (Some "deadbeef")
           Scenario.routes_empty Scenario.agent_socket Scenario.hub_empty).
  - repeat split; reflexivity.
  - vm_compute. lia.
Defined.

(** C2 (counterexample): the handshake of [ag-1] stamped 400000 ms before the
    server's time, with a signature of 64 zeros. It is outside the window,
    yet the failure reported is the bad signature, on the HTTP route and on
    the socket alike: the signature is checked before the timestamp. *)
Lemma C2_counterexample_bad_signature_reported_first :
  let now := Scenario.stamp + 400000 in
  Z.abs (now - Scenario.stamp) > 300000
  /\ fst (AgentRoutes.post_authenticate Scenario.no_env (Scenario.at_time now)
            (Scenario.handshake Scenario.zero_signature) Scenario.routes_empty)
     = AgentRoutes.json_error 401 "Invalid authentication signature"
  /\ AgentHandler.outbox
       (snd (AgentHandler.on_agent_authenticate Scenario.no_env (Scenario.at_time now)
               Scenario.agent_socket (Some "ag-1") (Some "linux")
               (Some Scenario.stamp) (Some Scenario.zero_signature)
               Scenario.hub_empty))
     = [AgentHandler.mkEmit "sock-1" "agent:auth_failed"
          (AgentHandler.AuthFailed "Invalid authentication signature")]
  /\ "Invalid authentication signature" <> "Authentication timestamp expired".
Proof.
  cbv zeta. split; [vm_compute; reflexivity |].
  split; [vm_compute; reflexivity |].
  split; [vm_compute; reflexivity | discriminate].
Qed.

(** C2 (amended): a handshake whose timestamp is more than 300000 ms away
    from the server's time is always rejected and registers no
    AgentConnection, whatever its signature; the failure reported is the
    expired timestamp when the four fields are present and the signature is
    valid. *)
Theorem C2_expired_handshake_never_registers
    (env : option string) (clock : nat -> Z)
    (agentId platform : option string) (timestamp : Z) (signature : option string)
    (st : AgentRoutes.State) (socket : AgentHandler.Socket) (w : AgentHandler.World) :
  Z.abs (clock (AgentRoutes.ticks st) - timestamp) > 300000 ->
  Z.abs (clock (AgentHandler.ticks w) - timestamp) > 300000 ->
  let http := AgentRoutes.post_authenticate env clock
                (AgentRoutes.mkAuthBody agentId platform (Some timestamp) signature) st in
  let live := AgentHandler.on_agent_authenticate env clock socket agentId platform
                (Some timestamp) signature w in
  (exists code message,
      fst http = AgentRoutes.json_error code message /\ code <> 200
      /\ (fields_present agentId platform (Some timestamp) signature ->
          signature_valid env agentId platform timestamp signature ->
          code = 401 /\ message = "Authentication timestamp expired"))
  /\ AgentRoutes.activeAgents (snd http) = AgentRoutes.activeAgents st
  /\ (exists message,
        fst live = Ok socket
        /\ AgentHandler.outbox (snd live)
           = (AgentHandler.outbox w
              ++ [AgentHandler.mkEmit (AgentHandler.sock_id socket) "agent:auth_failed"
                    (AgentHandler.AuthFailed message)])%list
        /\ (fields_present agentId platform (Some timestamp) signature ->
            signature_valid env agentId platform timestamp signature ->
            message = "Authentication timestamp expired"))
  /\ AgentHandler.agentConnections (snd live) = AgentHandler.agentConnections w.
Proof.
  intros Hhttp Hlive http live.
  assert (Hh : (Z.abs (clock (AgentRoutes.ticks st) - timestamp) >? 300000) = true)
    by (apply Z.gtb_lt; lia).
  assert (Hl : (Z.abs (clock (AgentHandler.ticks w) - timestamp) >? 300000) = true)
    by (apply Z.gtb_lt; lia).
  unfold signature_valid.
  repeat split.
  - subst http. unfold AgentRoutes.post_authenticate.
    cbn -[verifySignature createSignature Z.gtb Z.abs Z.sub].
    destruct (_ || _) eqn:G.
    { eexists _, _. split; [reflexivity |]. split; [lia |].
      intros Hf. pose proof (fields_present_guard _ _ _ _ Hf) as Hg.
      cbn in Hg. congruence. }
    destruct (verifySignature _ _ _) as [[|] | e] eqn:E.
    + rewrite Hh. eexists _, _. split; [reflexivity |]. split; [lia |]. now intros _ _.
    + eexists _, _. split; [reflexivity |]. split; [lia |].
      intros _ Hv. apply verifySignature_true in Hv. unfold str_of in *. congruence.
    + eexists _, _. split; [reflexivity |]. split; [lia |].
      intros _ Hv. apply verifySignature_true in Hv. unfold str_of in *. congruence.
  - subst http. unfold AgentRoutes.post_authenticate.
    cbn -[verifySignature createSignature Z.gtb Z.abs Z.sub].
    destruct (_ || _); [reflexivity |].
    destruct (verifySignature _ _ _) as [[|] | e]; try reflexivity.
    now rewrite Hh.
  - subst live. run_handler. cbn -[timingSafeEqual createSignature Z.gtb Z.abs Z.sub].
    destruct (_ || _) eqn:G; cbn -[timingSafeEqual createSignature Z.gtb Z.abs Z.sub].
    { eexists. split; [reflexivity |]. split; [reflexivity |].
      intros Hf. pose proof (fields_present_guard _ _ _ _ Hf) as Hg.
      cbn in Hg. congruence. }
    unfold verifySignature_socket.
    destruct (timingSafeEqual _ _) as [[|] | e] eqn:E;
      cbn -[timingSafeEqual createSignature Z.gtb Z.abs Z.sub].
    + rewrite Hl. cbn. eexists. split; [reflexivity |]. split; [reflexivity |].
      now intros _ _.
    + eexists. split; [reflexivity |]. split; [reflexivity |].
      intros _ Hv. apply timingSafeEqual_true in Hv. unfold str_of in *. congruence.
    + eexists. split; [reflexivity |]. split; [reflexivity |].
      intros _ Hv. apply timingSafeEqual_true in Hv. unfold str_of in *. congruence.
  - subst live. run_handler. cbn -[timingSafeEqual createSignature Z.gtb Z.abs Z.sub].
    destruct (_ || _); cbn -[timingSafeEqual createSignature Z.gtb Z.abs Z.sub];
      [reflexivity |].
    unfold verifySignature_socket.
    destruct (timingSafeEqual _ _) as [[|] | e];
      cbn -[timingSafeEqual createSignature Z.gtb Z.abs Z.sub]; try reflexivity.
    rewrite Hl. reflexivity.
Qed.

(** The theorem at the handshake of [ag-1] stamped 400000 ms before the
    server's time and carrying the valid signature: "Authentication timestamp
    expired" on both paths, nothing registered. *)
Lemma C2_expired_handshake_witness :
  let now := Scenario.stamp + 400000 in
  AgentRoutes.post_authenticate Scenario.no_env (Scenario.at_time now)
    (Scenario.handshake Scenario.ag1_signature) Scenario.routes_empty
  = (AgentRoutes.json_error 401 "Authentication timestamp expired",
     AgentRoutes.tick Scenario.routes_empty)
  /\ AgentHandler.outbox
       (snd (AgentHandler.on_agent_authenticate Scenario.no_env (Scenario.at_time now)
               Scenario.agent_socket (Some "ag-1") (Some "linux")
               (Some Scenario.stamp) (Some Scenario.ag1_signature)
               Scenario.hub_empty))
     = [AgentHandler.mkEmit "sock-1" "agent:auth_failed"
          (AgentHandler.AuthFailed "Authentication timestamp expired")].
Proof.
  cbv zeta.
  destruct (C2_expired_handshake_never_registers Scenario.no_env
              (Scenario.at_time (Scenario.stamp + 400000))
              (Some "ag-1") (Some "linux") Scenario.stamp
              (Some Scenario.ag1_signature)
              Scenario.routes_empty Scenario.agent_socket Scenario.hub_empty)
    as ((code & message & Hhttp & _ & Hwhy) & Hagents & (message' & _ & Hout & Hwhy') & _).
  - vm_compute. reflexivity.
  - vm_compute. reflexivity.
  - assert (Hf : fields_present (Some "ag-1") (Some "linux") (Some Scenario.stamp)
                                (Some Scenario.ag1_signature))
      by (repeat split; reflexivity).
    assert (Hv : signature_valid Scenario.no_env (Some "ag-1") (Some "linux")
                                 Scenario.stamp (Some Scenario.ag1_signature))
      by reflexivity.
    destruct (Hwhy Hf Hv) as [-> ->]. rewrite (Hwhy' Hf Hv) in Hout.
    split; [| exact Hout].
    vm_compute. reflexivity.
Defined.

End AuthFacts.

(** ** Dispatch and broadcast on the live connection (C3, C4, C9) *)

Module DispatchFacts.
Import Js Signature AgentHandler BroadcastSpec.

Ltac run_send :=
  unfold sendCommandToAgent, bind, try_catch, gets, throw, ret, lift,
    set_pending, emit, Date_now, modify.

(** In a well-formed registry an entry is found under its own [agentId]. *)
Lemma registered_lookup (m : omap AgentConnection) (a : AgentConnection) :
  registry_wf m -> In a (omap_values m) -> omap_get (agentId a) m = Some a.
Proof.
  intros [Hnd Hkeys]. induction m as [| [k v] r IH]; cbn; [tauto |].
  cbn in Hnd. apply List.NoDup_cons_iff in Hnd as [Hk Hnd].
  apply List.Forall_cons_iff in Hkeys as [Hv Hkeys]. cbn in Hv.
  intros [-> | Hin].
  - rewrite Hv, String.eqb_refl. reflexivity.
  - destruct (String.eqb_spec (agentId a) k) as [E | _]; [| now apply IH].
    exfalso. apply Hk. unfold omap_values in Hin. apply in_map_iff in Hin.
    destruct Hin as ([k' v'] & Ev & Hin'). cbn in Ev. subst v'.
    rewrite List.Forall_forall in Hkeys. specialize (Hkeys _ Hin'). cbn in Hkeys.
    unfold omap_keys. apply in_map_iff. exists (k', a). split; [cbn; congruence | easy].
Qed.

(** [sendCommandToAgent] to an agent that is not registered. *)
Lemma sendCommandToAgent_unknown env clock io agentId command w :
  omap_get agentId (agentConnections w) = None ->
  sendCommandToAgent env clock io agentId command w
  = (Throw (Error ("Agent not found: " ++ agentId)), w).
Proof. intros H. run_send. now rewrite H. Qed.

(** [sendCommandToAgent] to a registered agent. *)
Lemma sendCommandToAgent_registered env clock io agentId command w agent :
  omap_get agentId (agentConnections w) = Some agent ->
  sendCommandToAgent env clock io agentId command w
  = let w1 := stored env clock command w in
    if reachable io agent
    then (Ok true,
          mkWorld (agentConnections w1) (pendingCommands w1) (timers w1)
                  (outbox w1 ++ [mkEmit (socketId agent) ("command:" ++ module command)
                                        (CommandPayload (as_sent env clock command (ticks w)))])
                  (ticks w1))
    else (Throw (Error ("Agent socket not found: " ++ agentId)), w1).
Proof.
  intros H. run_send. rewrite H. unfold reachable, stored, as_sent. cbn.
  destruct (bool_decide _); reflexivity.
Qed.

(** The loop of the broadcast over agents that are all registered under
    their own ids. *)
Lemma broadcast_loop_spec env clock io command agents :
  forall w results,
    (forall a, In a agents -> omap_get (agentId a) (agentConnections w) = Some a) ->
    exists w',
      broadcast_loop env clock io command agents results w
      = (Ok (results ++ map (result_for io) agents)%list, w')
      /\ agentConnections w' = agentConnections w
      /\ outbox w' = (outbox w ++ deliveries env clock io command (ticks w) agents)%list
      /\ ticks w' = (ticks w + 2 * length agents)%nat
      /\ timers w' = timers w
      /\ forall k, k <> id command -> pendingCommands w' !! k = pendingCommands w !! k.
Proof.
  induction agents as [| a rest IH]; intros w results Hreg.
  - exists w. cbn. unfold ret. rewrite !app_nil_r.
    repeat split; try reflexivity. lia.
  - cbn [broadcast_loop]. unfold bind at 1. unfold try_catch, bind at 1.
    rewrite (sendCommandToAgent_registered env clock io (agentId a) command w a)
      by (apply Hreg; now left).
    cbv zeta. unfold result_for at 1. cbn [deliveries map].
    destruct (reachable io a) eqn:R; cbn [ret].
    + match goal with
      | |- context [broadcast_loop _ _ _ _ _ ?rs ?w1] =>
          destruct (IH w1 rs) as (w' & Hrun & Hc & Ho & Ht & Htm & Hp)
      end.
      { intros b Hb. cbn. apply Hreg. now right. }
      exists w'. rewrite Hrun. cbn in Hc, Ho, Ht, Htm, Hp.
      repeat split.
      * now rewrite <- app_assoc.
      * exact Hc.
      * rewrite Ho. now rewrite <- app_assoc.
      * rewrite Ht. cbn [length]. lia.
      * exact Htm.
      * intros k Hk. rewrite Hp by exact Hk. now apply lookup_insert_ne.
    + match goal with
      | |- context [broadcast_loop _ _ _ _ _ ?rs ?w1] =>
          destruct (IH w1 rs) as (w' & Hrun & Hc & Ho & Ht & Htm & Hp)
      end.
      { intros b Hb. cbn. apply Hreg. now right. }
      exists w'. rewrite Hrun. cbn in Hc, Ho, Ht, Htm, Hp.
      repeat split.
      * now rewrite <- app_assoc.
      * exact Hc.
      * exact Ho.
      * rewrite Ht. cbn [length]. lia.
      * exact Htm.
      * intros k Hk. rewrite Hp by exact Hk. now apply lookup_insert_ne.
Qed.

(** Every command the broadcast emits carries the template's id. *)
Lemma deliveries_carry_template_id env clock io command agents :
  forall t, Forall (fun e => carried_id e = Some (id command))
                   (deliveries env clock io command t agents).
Proof.
  induction agents as [| a rest IH]; intros t; cbn; [constructor |].
  destruct (reachable io a); cbn; [constructor; [reflexivity |] |]; apply IH.
Qed.

(** A reachable recipient gets its command, whatever happened to the others. *)
Lemma deliveries_reach env clock io command agents a :
  In a agents -> reachable io a = true ->
  forall t, exists t',
    In (mkEmit (socketId a) ("command:" ++ module command)
               (CommandPayload (as_sent env clock command t')))
       (deliveries env clock io command t agents).
Proof.
  induction agents as [| b rest IH]; cbn; [tauto |].
  intros [-> | Hin] Hr t.
  - exists t. rewrite Hr. now left.
  - destruct (IH Hin Hr (S (S t))) as [t' Ht']. exists t'.
    apply in_or_app. now right.
Qed.

Lemma omap_get_set_eq {V} (k : string) (v : V) (m : omap V) :
  omap_get k (omap_set k v m) = Some v.
Proof.
  induction m as [| [k' v'] r IH]; cbn.
  - now rewrite String.eqb_refl.
  - destruct (String.eqb_spec k k') as [-> | Hne]; cbn.
    + now rewrite String.eqb_refl.
    + destruct (String.eqb_spec k k'); [contradiction | exact IH].
Qed.

Lemma omap_has_false {V} (k : string) (m : omap V) :
  omap_has k m = false <-> omap_get k m = None.
Proof. unfold omap_has. destruct (omap_get k m); split; congruence. Qed.

(** C4: dispatching a command to an agentId that has no registered
    AgentConnection fails with the agent-not-found error and leaves the whole
    state, the command tables included, as it was: [sendCommandToAgent] throws
    "Agent not found: <agentId>"; POST /command changes nothing either and,
    the command carrying its module and action, answers 404 "Agent not found
    or not authenticated". *)
Theorem C4_dispatch_to_unknown_agent
    (env : option string) (clock : nat -> Z) (randomUUID : nat -> string)
    (io : gset string) (agentId : string) (command : Command) (w : World)
    (req : AgentRoutes.CommandBody) (st : AgentRoutes.State) :
  omap_get agentId (agentConnections w) = None ->
  truthy_string (AgentRoutes.cb_agentId req) = true ->
  omap_get (str_of (AgentRoutes.cb_agentId req)) (AgentRoutes.activeAgents st) = None ->
  sendCommandToAgent env clock io agentId command w
  = (Throw (Error ("Agent not found: " ++ agentId)), w)
  /\ snd (AgentRoutes.post_command env clock randomUUID req st) = st
  /\ (truthy_string (AgentRoutes.cb_module req) = true ->
      truthy_string (AgentRoutes.cb_action req) = true ->
      fst (AgentRoutes.post_command env clock randomUUID req st)
      = AgentRoutes.json_error 404 "Agent not found or not authenticated").
Proof.
  intros Hlive Hid Hhttp. split; [now apply sendCommandToAgent_unknown |].
  apply omap_has_false in Hhttp.
  unfold AgentRoutes.post_command. rewrite Hid, Hhttp. cbn [negb orb].
  split.
  - destruct (_ || _); reflexivity.
  - intros -> ->. reflexivity.
Qed.

(** The theorem at [dispatch("ag-1", "fs", "listFiles", {})] with no agent
    ever authenticated. *)
Lemma C4_dispatch_witness :
  sendCommandToAgent Scenario.no_env (Scenario.at_time Scenario.stamp) Scenario.io_all
    "ag-1" Scenario.listFiles Scenario.hub_empty
  = (Throw (Error "Agent not found: ag-1"), Scenario.hub_empty)
  /\ AgentRoutes.post_command Scenario.no_env (Scenario.at_time Scenario.stamp)
       Scenario.uuid_n Scenario.dispatch_listFiles Scenario.routes_empty
     = (AgentRoutes.json_error 404 "Agent not found or not authenticated",
        Scenario.routes_empty).
Proof.
  destruct (C4_dispatch_to_unknown_agent Scenario.no_env
              (Scenario.at_time Scenario.stamp) Scenario.uuid_n Scenario.io_all
              "ag-1" Scenario.listFiles Scenario.hub_empty
              Scenario.dispatch_listFiles Scenario.routes_empty)
    as (Hlive & Hst & Hanswer); try reflexivity.
  split; [exact Hlive |].
  rewrite (surjective_pairing (AgentRoutes.post_command _ _ _ _ _)).
  rewrite Hst, Hanswer by reflexivity. reflexivity.
Defined.

(** C9: when the registry has an entry for the agentId but its socket is no
    longer among the connected sockets, [sendCommandToAgent] throws "Agent
    socket not found: <agentId>", a message different from that of the
    unknown agent, and it does so after storing the command, with status
    [sent], in [pendingCommands]: the state it leaves is the one with the
    command stored. *)
Theorem C9_stale_socket_leaves_command_stored
    (env : option string) (clock : nat -> Z) (io : gset string)
    (agentId : string) (command : Command) (w : World) (agent : AgentConnection) :
  omap_get agentId (agentConnections w) = Some agent ->
  socketId agent ∉ io ->
  sendCommandToAgent env clock io agentId command w
  = (Throw (Error ("Agent socket not found: " ++ agentId)),
     stored env clock command w)
  /\ (exists c, pendingCommands (stored env clock command w) !! id command = Some c
                /\ cmd_status c = Some "sent"
                /\ id c = id command)
  /\ outbox (stored env clock command w) = outbox w
  /\ "Agent socket not found: " ++ agentId <> "Agent not found: " ++ agentId.
Proof.
  intros Hreg Hgone.
  rewrite (sendCommandToAgent_registered env clock io agentId command w agent Hreg).
  cbv zeta. unfold reachable. rewrite bool_decide_eq_false_2 by exact Hgone.
  split; [reflexivity |].
  split.
  - eexists. split; [apply lookup_insert_eq |]. split; reflexivity.
  - split; [reflexivity |]. intros H. cbv [String.append] in H. congruence.
Qed.

(** The theorem at [ag-1], registered, its socket gone. *)
Lemma C9_stale_socket_witness :
  fst (sendCommandToAgent Scenario.no_env (Scenario.running_clock Scenario.stamp)
         Scenario.io_without_1 "ag-1" Scenario.listFiles Scenario.hub_three)
  = Throw (Error "Agent socket not found: ag-1")
  /\ cmd_status
       <$> (pendingCommands
              (snd (sendCommandToAgent Scenario.no_env
                      (Scenario.running_clock Scenario.stamp)
                      Scenario.io_without_1 "ag-1" Scenario.listFiles
                      Scenario.hub_three)) !! "cmd-1")
     = Some (Some "sent").
Proof.
  destruct (C9_stale_socket_leaves_command_stored Scenario.no_env
              (Scenario.running_clock Scenario.stamp) Scenario.io_without_1
              "ag-1" Scenario.listFiles Scenario.hub_three
              (Scenario.conn "sock-1" "ag-1" "authenticated"))
    as (Hrun & _).
  - reflexivity.
  - vm_compute. discriminate.
  - rewrite Hrun. split; [reflexivity | vm_compute; reflexivity].
Defined.

(** *** The registry stays well formed

    The handlers write [agentConnections] only with [set] under the entry's
    own [agentId], so every registry they build from the empty one is well
    formed. *)

Lemma omap_set_keys {V} (k k' : string) (v : V) (m : omap V) :
  In k' (omap_keys (omap_set k v m)) <-> k' = k \/ In k' (omap_keys m).
Proof.
  induction m as [| [k0 v0] r IH]; cbn; [intuition |].
  destruct (String.eqb_spec k k0) as [-> | Hne]; cbn; [intuition |].
  rewrite IH. intuition.
Qed.

Lemma omap_set_wf (k : string) (v : AgentConnection) (m : omap AgentConnection) :
  registry_wf m -> agentId v = k -> registry_wf (omap_set k v m).
Proof.
  intros [Hnd Hkeys] Hv. induction m as [| [k0 v0] r IH]; cbn.
  - split; repeat constructor; [intros [] | exact Hv].
  - cbn in Hnd. apply List.NoDup_cons_iff in Hnd as [Hk0 Hnd].
    apply List.Forall_cons_iff in Hkeys as [Hv0 Hkeys].
    destruct (String.eqb_spec k k0) as [-> | Hne].
    + split; cbn; constructor; assumption.
    + destruct (IH Hnd Hkeys) as [Hnd' Hkeys']. split; cbn; constructor; try assumption.
      change (map fst (omap_set k v r)) with (omap_keys (omap_set k v r)).
      rewrite omap_set_keys. intros [E | Hin]; [congruence | contradiction].
Qed.

Lemma omap_get_own_id (k : string) (a : AgentConnection) (m : omap AgentConnection) :
  registry_wf m -> omap_get k m = Some a -> agentId a = k.
Proof.
  intros [_ Hkeys]. induction m as [| [k0 v0] r IH]; cbn; [discriminate |].
  apply List.Forall_cons_iff in Hkeys as [Hv0 Hkeys]. cbn in Hv0.
  destruct (String.eqb_spec k k0) as [-> | _].
  - now intros [= <-].
  - now apply IH.
Qed.

Lemma on_agent_authenticate_keeps_wf env clock socket a p t s w :
  registry_wf (agentConnections w) ->
  registry_wf (agentConnections (snd (on_agent_authenticate env clock socket a p t s w))).
Proof.
  intros Hwf.
  unfold on_agent_authenticate, try_catch, bind, lift, ret, emit, set_connections,
    Date_now, modify.
  destruct (_ || _); cbn; [exact Hwf |].
  destruct (verifySignature_socket _ _ _) as [[|] | e]; cbn; try exact Hwf.
  destruct (_ >? _); cbn; [exact Hwf |].
  now apply omap_set_wf.
Qed.

Lemma on_response_command_keeps_wf clock rsp w :
  registry_wf (agentConnections w) ->
  registry_wf (agentConnections (snd (on_response_command clock rsp w))).
Proof.
  intros Hwf.
  unfold on_response_command, bind, gets, ret, set_pending, set_connections,
    setTimeout, Date_now, modify.
  destruct (_ || _); cbn; [exact Hwf |].
  destruct (pendingCommands w !! _); cbn;
    destruct (omap_get _ _) eqn:G; cbn; try exact Hwf;
    (apply omap_set_wf; [exact Hwf | exact (omap_get_own_id _ _ _ Hwf G)]).
Qed.

End DispatchFacts.

(** ** The HTTP command routes (C3, C4, C5) *)

Module RoutesFacts.
Import Js Signature AgentRoutes.

(** The loop of [/broadcast]: one command per agent id, each stored under the
    UUID drawn for it, provided the UUIDs drawn are pairwise distinct. *)
Lemma http_broadcast_loop_spec env clock randomUUID module action params priority agentIds :
  forall st sent,
    List.NoDup (drawn_ids randomUUID st (length agentIds)) ->
    exists st',
      broadcast_loop env clock randomUUID module action params priority
                     agentIds st sent
      = ((sent ++ drawn_ids randomUUID st (length agentIds))%list, st')
      /\ activeAgents st' = activeAgents st
      /\ agentResponses st' = agentResponses st
      /\ (forall k agentId,
             agentIds !! k = Some agentId ->
             agentCommands st' !! randomUUID (drawn st + k)%nat
             = Some (new_command env agentId module action params priority
                                 (randomUUID (drawn st + k)%nat)
                                 (clock (ticks st + k)%nat)))
      /\ (forall key, ~ In key (drawn_ids randomUUID st (length agentIds)) ->
                      agentCommands st' !! key = agentCommands st !! key).
Proof.
  unfold drawn_ids.
  induction agentIds as [| a rest IH]; intros st sent Hnd.
  - exists st. cbn. rewrite app_nil_r. repeat split; try reflexivity.
    intros k agentId H. discriminate.
  - cbn [broadcast_loop length seq map] in *.
    apply List.NoDup_cons_iff in Hnd as [Hfresh Hnd].
    match goal with
    | |- context [broadcast_loop _ _ _ _ _ _ _ _ ?st1 ?sent1] =>
        destruct (IH st1 sent1) as (st' & Hrun & Ha & Hr & Hk & Hother)
    end.
    { exact Hnd. }
    exists st'. rewrite Hrun. cbn in Ha, Hr, Hk, Hother |- *.
    repeat split.
    + now rewrite <- app_assoc.
    + exact Ha.
    + exact Hr.
    + intros [| k] agentId Hl.
      * cbn in Hl. injection Hl as <-. rewrite !Nat.add_0_r.
        rewrite Hother by exact Hfresh. apply lookup_insert_eq.
      * cbn in Hl. rewrite <- !Nat.add_succ_comm. now apply Hk.
    + intros key Hkey. rewrite Hother by tauto.
      apply lookup_insert_ne. intros E. apply Hkey. now left.
Qed.

End RoutesFacts.

(** ** Broadcast (C3) *)

Module BroadcastFacts.
Import Js Signature BroadcastSpec DispatchFacts RoutesFacts.

Lemma recipients_exactly (w : AgentHandler.World) (a : AgentHandler.AgentConnection) :
  In a (recipients w)
  <-> In a (omap_values (AgentHandler.agentConnections w))
      /\ (AgentHandler.status a = "authenticated" \/ AgentHandler.status a = "active").
Proof.
  unfold recipients. rewrite filter_In. unfold AgentHandler.is_active.
  rewrite orb_true_iff, !String.eqb_eq. reflexivity.
Qed.

(** C3 (counterexample): the template [cmd-1] broadcast on the live
    connection to a registry with two recipients: both receive a command
    whose id is [cmd-1]. And POST /broadcast with an agent whose status is
    [command_sent]: that agent gets a command too, and the answer is the list
    of command ids, not a success/failure list. *)
Lemma C3_counterexample_one_id_for_all_recipients :
  let live := AgentHandler.broadcastCommandToAllAgents Scenario.no_env
                (Scenario.running_clock Scenario.stamp) Scenario.io_all
                Scenario.listFiles Scenario.hub_three in
  let http := AgentRoutes.post_broadcast Scenario.no_env
                (Scenario.running_clock Scenario.stamp) Scenario.uuid_n
                Scenario.broadcast_listFiles Scenario.routes_two in
  map (fun e => (AgentHandler.to_socket e, carried_id e))
      (AgentHandler.outbox (snd live))
  = [("sock-1", Some "cmd-1"); ("sock-3", Some "cmd-1")]
  /\ ~ List.NoDup [Some "cmd-1"; Some "cmd-1"]
  /\ fst http = AgentRoutes.mkHttp 200 (AgentRoutes.BroadcastBody 2 ["uuid-0"; "uuid-1"])
  /\ AgentRoutes.status <$> omap_get "ag-2" (AgentRoutes.activeAgents Scenario.routes_two)
     = Some "command_sent"
  /\ AgentRoutes.cmd_agentId <$> (AgentRoutes.agentCommands (snd http) !! "uuid-1")
     = Some "ag-2".
Proof.
  cbv zeta. split; [vm_compute; reflexivity |].
  split.
  { intros H. apply List.NoDup_cons_iff in H as [H _]. apply H. now left. }
  split; [vm_compute; reflexivity |].
  split; vm_compute; reflexivity.
Qed.

(** C3 (amended). On the live connection, [broadcastCommandToAllAgents]
    addresses exactly the AgentConnections whose status is [authenticated] or
    [active], in registry order; it returns one success/failure entry per
    recipient; and a recipient whose socket is present gets its command
    whatever happened to the others. POST /broadcast stores one command per
    registered agent, whatever its status, each under a UUID of its own, and
    answers with the list of those ids. *)
Theorem C3_broadcast_on_each_path
    (env : option string) (clock : nat -> Z) (randomUUID : nat -> string)
    (io : gset string) (command : AgentHandler.Command) (w : AgentHandler.World)
    (req : AgentRoutes.BroadcastReq) (st : AgentRoutes.State) :
  registry_wf (AgentHandler.agentConnections w) ->
  truthy_string (AgentRoutes.bb_module req) = true ->
  truthy_string (AgentRoutes.bb_action req) = true ->
  List.NoDup (AgentRoutes.drawn_ids randomUUID st (length (AgentRoutes.activeAgents st))) ->
  let live := AgentHandler.broadcastCommandToAllAgents env clock io command w in
  let http := AgentRoutes.post_broadcast env clock randomUUID req st in
  let sent := deliveries env clock io command (AgentHandler.ticks w) (recipients w) in
  let ids := AgentRoutes.drawn_ids randomUUID st (length (AgentRoutes.activeAgents st)) in
  (forall a, In a (recipients w)
             <-> In a (omap_values (AgentHandler.agentConnections w))
                 /\ (AgentHandler.status a = "authenticated"
                     \/ AgentHandler.status a = "active"))
  /\ fst live = Ok (map (result_for io) (recipients w))
  /\ AgentHandler.outbox (snd live) = (AgentHandler.outbox w ++ sent)%list
  /\ (forall a, In a (recipients w) -> reachable io a = true ->
        exists t, In (AgentHandler.mkEmit (AgentHandler.socketId a)
                        ("command:" ++ AgentHandler.module command)
                        (AgentHandler.CommandPayload (as_sent env clock command t)))
                     (AgentHandler.outbox (snd live)))
  /\ fst http
     = AgentRoutes.mkHttp 200
         (AgentRoutes.BroadcastBody (length (AgentRoutes.activeAgents st)) ids)
  /\ length ids = length (AgentRoutes.activeAgents st)
  /\ (forall k agentId,
        omap_keys (AgentRoutes.activeAgents st) !! k = Some agentId ->
        exists c,
          AgentRoutes.agentCommands (snd http) !! randomUUID (AgentRoutes.drawn st + k)%nat
          = Some c
          /\ AgentRoutes.id c = randomUUID (AgentRoutes.drawn st + k)%nat
          /\ AgentRoutes.cmd_agentId c = agentId
          /\ AgentRoutes.cmd_status c = "pending").
Proof.
  intros Hwf Hm Ha Hnd live http sent ids.
  split; [intros a; apply recipients_exactly |].
  (* the live connection *)
  destruct (DispatchFacts.broadcast_loop_spec env clock io command (recipients w) w [])
    as (w' & Hrun & _ & Hout & _).
  { intros a Hin. apply registered_lookup; [exact Hwf |].
    now apply recipients_exactly in Hin. }
  assert (Hlive : live = (Ok (map (result_for io) (recipients w)), w')).
  { subst live. unfold AgentHandler.broadcastCommandToAllAgents, bind, gets.
    exact Hrun. }
  rewrite Hlive. cbn [fst snd].
  split; [reflexivity |].
  split; [exact Hout |].
  split.
  { intros a Hin Hr.
    destruct (deliveries_reach env clock io command (recipients w) a Hin Hr
                (AgentHandler.ticks w)) as [t Ht].
    exists t. rewrite Hout. apply in_or_app. now right. }
  (* the HTTP route *)
  assert (Hlen : length (omap_keys (AgentRoutes.activeAgents st))
                 = length (AgentRoutes.activeAgents st))
    by (unfold omap_keys; apply length_map).
  destruct (RoutesFacts.http_broadcast_loop_spec env clock randomUUID
              (str_of (AgentRoutes.bb_module req)) (str_of (AgentRoutes.bb_action req))
              (AgentRoutes.bb_params req) (AgentRoutes.bb_priority req)
              (omap_keys (AgentRoutes.activeAgents st)) st [])
    as (st' & Hloop & _ & _ & Hk & _).
  { now rewrite Hlen. }
  assert (Hhttp : http = (AgentRoutes.mkHttp 200
                            (AgentRoutes.BroadcastBody
                               (length (AgentRoutes.activeAgents st)) ids), st')).
  { subst http ids. unfold AgentRoutes.post_broadcast. rewrite Hm, Ha. cbn [negb orb].
    rewrite Hloop, Hlen. reflexivity. }
  rewrite Hhttp. cbn [fst snd].
  split; [reflexivity |].
  split; [subst ids; unfold AgentRoutes.drawn_ids; now rewrite length_map, length_seq |].
  intros k agentId Hl. eexists. split; [exact (Hk k agentId Hl) |].
  repeat split.
Qed.

(** The theorem at a registry of three agents, the socket of [ag-1] gone:
    [ag-1] fails, [ag-3] still gets its command. *)
Lemma C3_broadcast_witness :
  fst (AgentHandler.broadcastCommandToAllAgents Scenario.no_env
         (Scenario.running_clock Scenario.stamp) Scenario.io_without_1
         Scenario.listFiles Scenario.hub_three)
  = Ok [AgentHandler.mkResult "ag-1" false (Some "Agent socket not found: ag-1");
        AgentHandler.mkResult "ag-3" true None]
  /\ fst (AgentRoutes.post_broadcast Scenario.no_env
            (Scenario.running_clock Scenario.stamp) Scenario.uuid_n
            Scenario.broadcast_listFiles Scenario.routes_two)
     = AgentRoutes.mkHttp 200 (AgentRoutes.BroadcastBody 2 ["uuid-0"; "uuid-1"]).
Proof.
  destruct (C3_broadcast_on_each_path Scenario.no_env
              (Scenario.running_clock Scenario.stamp) Scenario.uuid_n
              Scenario.io_without_1 Scenario.listFiles Scenario.hub_three
              Scenario.broadcast_listFiles Scenario.routes_two)
    as (_ & Hres & _ & _ & Hhttp & _).
  - split.
    + repeat constructor; cbn; intuition discriminate.
    + repeat constructor.
  - reflexivity.
  - reflexivity.
  - vm_compute. repeat constructor; cbn; intuition discriminate.
  - split.
    + rewrite Hres. vm_compute. reflexivity.
    + rewrite Hhttp. vm_compute. reflexivity.
Defined.

End BroadcastFacts.

(** ** Responses to unknown commands (C5, C10) *)

Module ResponseFacts.
Import Js Signature DispatchFacts.

Ltac run_response :=
  unfold AgentHandler.on_response_command, bind, gets, ret,
    AgentHandler.set_pending, AgentHandler.set_connections,
    AgentHandler.setTimeout, AgentHandler.Date_now, modify.

(** The handler of [response:command] emits nothing and throws nothing,
    whatever the response. *)
Lemma on_response_command_silent clock rsp w :
  fst (AgentHandler.on_response_command clock rsp w) = Ok tt
  /\ AgentHandler.outbox (snd (AgentHandler.on_response_command clock rsp w))
     = AgentHandler.outbox w.
Proof.
  run_response. destruct (_ || _); cbn; [easy |].
  destruct (AgentHandler.pendingCommands w !! _); cbn;
    destruct (omap_get _ _); cbn; easy.
Qed.

(** C5: a response whose commandId matches no stored command. POST
    /api/agents/response answers 404 "Command not found" and changes nothing,
    so no response record is stored. The [response:command] handler returns
    normally, emits nothing, and leaves [pendingCommands] and the timers as
    they were: the response is kept nowhere. *)
Theorem C5_response_to_unknown_command
    (clock : nat -> Z) (req : AgentRoutes.ResponseBody) (st : AgentRoutes.State)
    (rsp : AgentHandler.ResponseMsg) (w : AgentHandler.World) :
  truthy_string (AgentRoutes.rb_commandId req) = true ->
  truthy_string (AgentRoutes.rb_agentId req) = true ->
  truthy_string (AgentRoutes.rb_status req) = true ->
  AgentRoutes.agentCommands st !! str_of (AgentRoutes.rb_commandId req) = None ->
  truthy_string (AgentHandler.r_commandId rsp) = true ->
  AgentHandler.pendingCommands w !! str_of (AgentHandler.r_commandId rsp) = None ->
  AgentRoutes.post_response clock req st
  = (AgentRoutes.json_error 404 "Command not found", st)
  /\ fst (AgentHandler.on_response_command clock rsp w) = Ok tt
  /\ AgentHandler.outbox (snd (AgentHandler.on_response_command clock rsp w))
     = AgentHandler.outbox w
  /\ AgentHandler.pendingCommands (snd (AgentHandler.on_response_command clock rsp w))
     = AgentHandler.pendingCommands w
  /\ AgentHandler.timers (snd (AgentHandler.on_response_command clock rsp w))
     = AgentHandler.timers w.
Proof.
  intros Hc Ha Hs Hunknown Hc' Hunknown'.
  split.
  { unfold AgentRoutes.post_response. rewrite Hc, Ha, Hs, Hunknown. reflexivity. }
  destruct (on_response_command_silent clock rsp w) as [Hok Hout].
  split; [exact Hok |]. split; [exact Hout |].
  run_response. destruct (_ || _); cbn; [easy |].
  rewrite Hunknown'. cbn.
  destruct (omap_get _ _); cbn; easy.
Qed.

(** The theorem at a response for [cmd-9] with nothing stored. *)
Lemma C5_response_witness :
  AgentRoutes.post_response (Scenario.at_time Scenario.stamp)
    Scenario.stray_http_response Scenario.routes_two
  = (AgentRoutes.json_error 404 "Command not found", Scenario.routes_two)
  /\ AgentHandler.outbox
       (snd (AgentHandler.on_response_command (Scenario.at_time Scenario.stamp)
               Scenario.stray_response Scenario.hub_three))
     = [].
Proof.
  destruct (C5_response_to_unknown_command (Scenario.at_time Scenario.stamp)
              Scenario.stray_http_response Scenario.routes_two
              Scenario.stray_response Scenario.hub_three)
    as (Hhttp & _ & Hout & _); try reflexivity.
  split; [exact Hhttp | exact Hout].
Defined.

(** C10: a [response:command] with its three required fields, whose commandId
    is unknown and whose agentId is registered, refreshes the agent: the
    entry's [lastSeen] becomes the time the handler reads and its status
    [active], the other fields staying; [pendingCommands], the timers and
    the outbox are as before. *)
Theorem C10_unknown_response_refreshes_agent
    (clock : nat -> Z) (rsp : AgentHandler.ResponseMsg) (w : AgentHandler.World)
    (agent : AgentHandler.AgentConnection) :
  truthy_string (AgentHandler.r_commandId rsp) = true ->
  truthy_string (AgentHandler.r_agentId rsp) = true ->
  truthy_string (AgentHandler.r_status rsp) = true ->
  AgentHandler.pendingCommands w !! str_of (AgentHandler.r_commandId rsp) = None ->
  omap_get (str_of (AgentHandler.r_agentId rsp)) (AgentHandler.agentConnections w)
  = Some agent ->
  let now := clock (AgentHandler.ticks w) in
  let w' := snd (AgentHandler.on_response_command clock rsp w) in
  omap_get (str_of (AgentHandler.r_agentId rsp)) (AgentHandler.agentConnections w')
  = Some (AgentHandler.mkConn (AgentHandler.socketId agent) (AgentHandler.agentId agent)
            (AgentHandler.platform agent) (AgentHandler.connectedAt agent)
            now "active" (AgentHandler.disconnectedAt agent))
  /\ AgentHandler.agentConnections w'
     = omap_set (str_of (AgentHandler.r_agentId rsp))
         (AgentHandler.refresh now "active" agent) (AgentHandler.agentConnections w)
  /\ AgentHandler.pendingCommands w' = AgentHandler.pendingCommands w
  /\ AgentHandler.timers w' = AgentHandler.timers w
  /\ AgentHandler.outbox w' = AgentHandler.outbox w.
Proof.
  intros Hc Ha Hs Hunknown Hreg now w'. subst now w'.
  run_response. rewrite Hc, Ha, Hs. cbn [negb orb].
  rewrite Hunknown. cbn. rewrite Hreg. cbn.
  split; [apply omap_get_set_eq |]. easy.
Qed.

(** The theorem at a response of [ag-1] for [cmd-9], at time [stamp + 5]. *)
Lemma C10_refresh_witness :
  omap_get "ag-1"
    (AgentHandler.agentConnections
       (snd (AgentHandler.on_response_command (Scenario.at_time (Scenario.stamp + 5))
               Scenario.stray_response Scenario.hub_three)))
  = Some (AgentHandler.mkConn "sock-1" "ag-1" "linux" Scenario.stamp
            (Scenario.stamp + 5) "active" None).
Proof.
  destruct (C10_unknown_response_refreshes_agent (Scenario.at_time (Scenario.stamp + 5))
              Scenario.stray_response Scenario.hub_three
              (Scenario.conn "sock-1" "ag-1" "authenticated"))
    as (Hagent & _);
    [reflexivity | reflexivity | reflexivity | reflexivity | reflexivity |].
  exact Hagent.
Defined.

End ResponseFacts.

(** ** Reactions (C6) *)

Module ReactionFacts.
Import MessageModel.

Lemma users_after_filter (u : ObjectId) (rs : list Reaction) :
  ~ In u (map user (List.filter (fun r => negb (equals (user r) u)) rs)).
Proof.
  rewrite in_map_iff. intros (r & Hu & Hin). apply filter_In in Hin as [_ Hne].
  subst u. unfold equals in Hne. now rewrite String.eqb_refl in Hne.
Qed.

Lemma NoDup_users_filter (f : Reaction -> bool) (rs : list Reaction) :
  List.NoDup (map user rs) -> List.NoDup (map user (List.filter f rs)).
Proof.
  induction rs as [| r rest IH]; cbn; [constructor |].
  intros H. apply List.NoDup_cons_iff in H as [Hr Hrest].
  destruct (f r); cbn; [| now apply IH].
  constructor; [| now apply IH].
  intros Hin. apply Hr. apply in_map_iff in Hin as (x & Hx & Hin).
  apply filter_In in Hin as [Hin _]. apply in_map_iff. now exists x.
Qed.

Lemma addReaction_keeps_one_per_user u e now m :
  one_per_user m -> one_per_user (addReaction u e now m).
Proof.
  unfold one_per_user, addReaction. cbn. intros H.
  rewrite map_app. cbn.
  apply NoDup_ListNoDup, NoDup_app. repeat split.
  - now apply NoDup_ListNoDup, NoDup_users_filter.
  - intros x Hx Hx'. apply list_elem_of_In in Hx, Hx'.
    destruct Hx' as [<- | []]. now apply users_after_filter in Hx.
  - apply NoDup_ListNoDup. repeat constructor. intros [].
Qed.

Lemma removeReaction_keeps_one_per_user u m :
  one_per_user m -> one_per_user (removeReaction u m).
Proof. unfold one_per_user, removeReaction. cbn. apply NoDup_users_filter. Qed.

Lemma calls_keep_one_per_user cs :
  forall m, one_per_user m -> one_per_user (calls cs m).
Proof.
  induction cs as [| c rest IH]; intros m Hm; [exact Hm |].
  cbn. apply IH. destruct c; cbn.
  - now apply addReaction_keeps_one_per_user.
  - now apply removeReaction_keeps_one_per_user.
Qed.

Lemma filter_other_user (u u' : ObjectId) (rs : list Reaction) :
  equals u' u = false ->
  List.filter (fun r => equals (user r) u)
              (List.filter (fun r => negb (equals (user r) u')) rs)
  = List.filter (fun r => equals (user r) u) rs.
Proof.
  intros Hne. induction rs as [| r rest IH]; cbn; [reflexivity |].
  unfold equals in *.
  destruct (String.eqb_spec (user r) u') as [E | E]; cbn.
  - destruct (String.eqb_spec (user r) u) as [E' | _]; [| exact IH].
    rewrite <- E, E', String.eqb_refl in Hne. discriminate.
  - now rewrite IH.
Qed.

Lemma filter_same_user (u : ObjectId) (rs : list Reaction) :
  List.filter (fun r => equals (user r) u)
              (List.filter (fun r => negb (equals (user r) u)) rs) = [].
Proof.
  induction rs as [| r rest IH]; cbn; [reflexivity |].
  destruct (equals (user r) u) eqn:E; cbn; [exact IH |]. now rewrite E.
Qed.

Lemma emojis_after_addReaction u u' e now m :
  emojis_of u (addReaction u' e now m)
  = if equals u' u then [e] else emojis_of u m.
Proof.
  unfold emojis_of, addReaction. cbn. rewrite List.filter_app. cbn.
  destruct (equals u' u) eqn:E.
  - unfold equals in E. apply String.eqb_eq in E. subst u'.
    rewrite filter_same_user, String.eqb_refl. reflexivity.
  - rewrite filter_other_user by exact E. unfold equals in E. rewrite E.
    now rewrite app_nil_r.
Qed.

Lemma emojis_after_removeReaction u u' m :
  emojis_of u (removeReaction u' m)
  = if equals u' u then [] else emojis_of u m.
Proof.
  unfold emojis_of, removeReaction. cbn.
  destruct (equals u' u) eqn:E.
  - unfold equals in E. apply String.eqb_eq in E. subst u'.
    now rewrite filter_same_user.
  - now rewrite filter_other_user.
Qed.

Lemma emojis_after_calls u cs :
  forall m acc,
    emojis_of u m = as_list acc ->
    emojis_of u (calls cs m) = as_list (latest u cs acc).
Proof.
  induction cs as [| c rest IH]; intros m acc Hm; [exact Hm |].
  cbn. destruct c as [u' e now | u']; cbn; apply IH.
  - rewrite emojis_after_addReaction. destruct (equals u' u); [reflexivity | exact Hm].
  - rewrite emojis_after_removeReaction. destruct (equals u' u); [reflexivity | exact Hm].
Qed.

(** C6: after any sequence of [addReaction] (and [removeReaction]) calls on
    a message, its list of reactions has at most one entry per user, and the
    entries of a user are exactly the emoji of that user's latest
    [addReaction], if no [removeReaction] of the user followed it. As the
    sequence is arbitrary, this holds after every call. *)
Theorem C6_one_reaction_per_user_latest_emoji
    (oid sender : ObjectId) (content type room : string) (replyTo : option ObjectId)
    (cs : list Call) (userId : ObjectId) :
  let m := calls cs (new_Message oid sender content type room replyTo) in
  List.NoDup (map user (reactions m))
  /\ emojis_of userId m = as_list (latest userId cs None).
Proof.
  cbv zeta. split.
  - apply calls_keep_one_per_user. constructor.
  - now apply emojis_after_calls.
Qed.

(** [addReaction(msg, "u1", thumbs-up)] then [addReaction(msg, "u1", joy)]. *)
Example two_reactions_of_u1 (m : Message) :
  reactions m = [] ->
  reactions (calls [AddReaction "u1" "thumbs-up" 1; AddReaction "u1" "joy" 2] m)
  = [mkReaction "u1" "joy" 2].
Proof. intros H. cbn. now rewrite H. Qed.

End ReactionFacts.

(** ** Submitting a chat message (C7) *)

Module SendFacts.
Import Js Chat SocketHandlerDb.

Ltac run_chat :=
  unfold on_sendMessage, on_authenticate, on_disconnect, await, socket_disconnect,
    try_catch, bind, gets, lift, ret, throw, emit, set_socket, set_activeUsers,
    modify.

(** *** Rules for [emits] *)

Section EmitsRules.
Variable P : Emission -> Prop.

Lemma emits_refl {A} (m : M World A) (w : World) :
  outbox (snd (m w)) = outbox w -> emits P m w.
Proof. intros H. exists []. rewrite H, app_nil_r. split; [reflexivity | constructor]. Qed.

Lemma emits_ret {A} (a : A) w : emits P (ret a) w.
Proof. now apply emits_refl. Qed.

Lemma emits_throw {A} (e : exn) w : emits P (throw (A:=A) e) w.
Proof. now apply emits_refl. Qed.

Lemma emits_emit t ev p w : P (mkEmit t ev p) -> emits P (emit t ev p) w.
Proof. intros H. exists [mkEmit t ev p]. split; [reflexivity | now constructor]. Qed.

Lemma emits_bind {A B} (m : M World A) (k : A -> M World B) w :
  emits P m w ->
  (forall a w', m w = (Ok a, w') -> emits P (k a) w') ->
  emits P (bind m k) w.
Proof.
  intros (new & Hm & Hnew) Hk. unfold emits, bind.
  destruct (m w) as [[a | e] w'] eqn:E; cbn in Hm.
  - destruct (Hk a w' eq_refl) as (new' & Hk' & Hnew').
    exists (new ++ new')%list. rewrite Hk', Hm, app_assoc.
    split; [reflexivity | now apply List.Forall_app].
  - exists new. now split.
Qed.

Lemma emits_try_catch {A} (m : M World A) (h : exn -> M World A) w :
  emits P m w ->
  (forall e w', m w = (Throw e, w') -> emits P (h e) w') ->
  emits P (try_catch m h) w.
Proof.
  intros (new & Hm & Hnew) Hh. unfold emits, try_catch.
  destruct (m w) as [[a | e] w'] eqn:E; cbn in Hm.
  - exists new. now split.
  - destruct (Hh e w' eq_refl) as (new' & Hh' & Hnew').
    exists (new ++ new')%list. rewrite Hh', Hm, app_assoc.
    split; [reflexivity | now apply List.Forall_app].
Qed.

Lemma emits_await {A} (c : DbCall) (answer : outcome A) w :
  emits P (await c answer) w.
Proof. apply emits_refl. unfold await, bind, modify, lift. reflexivity. Qed.
End EmitsRules.

(** An awaited call returns what the persistence layer answered. *)
Lemma await_returns {A} (c : DbCall) (answer : outcome A) w r w' :
  await c answer w = (r, w') -> r = answer.
Proof. unfold await, bind, modify, lift. now intros [= <- _]. Qed.

(** Every emission of [sendMessage] goes to the sender, except the
    [newMessage] to the room, which is emitted only once the save has
    succeeded. *)
Lemma on_sendMessage_emits data db w :
  emits (to_sender_or_saved (sock_id (socket w)) (or_else (sd_room data) "general") db)
        (on_sendMessage data db) w.
Proof.
  unfold on_sendMessage.
  apply emits_bind; [now apply emits_refl |].
  intros s w0 [= <- <-].
  destruct (negb _).
  { apply emits_emit. now left. }
  apply emits_try_catch.
  2: { intros e w' _. apply emits_emit. now left. }
  apply emits_bind; [apply emits_await |].
  intros saved w1 Hsaved. apply await_returns in Hsaved.
  apply emits_bind; [apply emits_await |].
  intros sender w2 _.
  apply emits_bind.
  { destruct (truthy_string _); [| apply emits_ret].
    apply emits_bind; [apply emits_await |]. intros; apply emits_ret. }
  intros reply w3 _.
  destruct sender as [sender |]; [| apply emits_throw].
  apply emits_bind.
  { apply emits_emit. right. repeat split. now exists saved. }
  intros _ w4 _. destruct (sd_content data); [apply emits_ret | apply emits_throw ..].
Qed.

(** C7: when persisting a submitted chat message fails, the sender's
    connection gets the [error] event "Failed to send message" and nothing
    else is emitted. In every run of [sendMessage], what is emitted is
    addressed to the sending connection, except the [newMessage] to the
    room, and that one is emitted only when the save has succeeded. *)
Theorem C7_failed_save_is_reported_to_the_sender_only
    (data : SendData) (db : SendAnswers) (w : World) :
  truthy_string (sock_userId (socket w)) = true ->
  (forall e, ans_save db = Throw e ->
     on_sendMessage data db w
     = (Ok tt,
        mkWorld (socket w) (activeUsers w)
          (dbCalls w ++ [Save (str_of (sock_userId (socket w)))
                           (cast_content (sd_content data))
                           (or_else (sd_type data) "text") (or_null (sd_file data))
                           (or_else (sd_room data) "general")
                           (or_null (sd_replyTo data))])
          (outbox w ++ [mkEmit (Self (sock_id (socket w))) "error"
                          (ErrorEvent "Failed to send message")])))
  /\ emits (to_sender_or_saved (sock_id (socket w))
                               (or_else (sd_room data) "general") db)
           (on_sendMessage data db) w.
Proof.
  intros Hauth. split; [| apply on_sendMessage_emits].
  intros e He. run_chat. cbn. rewrite Hauth, He. reflexivity.
Qed.

(** The theorem at Alice's "hi" with the save rejected. *)
Lemma C7_failed_save_witness :
  outbox (snd (on_sendMessage Scenario.hi Scenario.save_fails Scenario.alice_world))
  = [mkEmit (Self "chat-1") "error" (ErrorEvent "Failed to send message")].
Proof.
  destruct (C7_failed_save_is_reported_to_the_sender_only
              Scenario.hi Scenario.save_fails Scenario.alice_world)
    as [Hfail _]; [reflexivity |].
  rewrite (Hfail _ eq_refl). reflexivity.
Defined.

End SendFacts.

(** ** Disconnecting (C8) *)

Module DisconnectFacts.
Import Js Chat.

Lemma guard_false_of_no_session (userId : option string) (sid : string)
    (users : omap ActiveUser) :
  truthy_string userId = false \/ omap_get sid users = None ->
  truthy_string userId && omap_has sid users = false.
Proof.
  intros [-> | H]; [reflexivity |].
  unfold omap_has. rewrite H. apply andb_false_r.
Qed.

(** Database variant: with no Session, [disconnect] does nothing. *)
Lemma db_disconnect_without_session db w :
  SocketHandlerDb.no_session w ->
  SocketHandlerDb.on_disconnect db w = (Ok tt, w).
Proof.
  intros H. unfold SocketHandlerDb.on_disconnect, bind, gets, ret. cbn.
  now rewrite (guard_false_of_no_session _ _ _ H).
Qed.

(** In-memory variant: the same. *)
Lemma mem_disconnect_without_session w :
  SocketHandlerMem.no_session w ->
  SocketHandlerMem.on_disconnect w = (Ok tt, w).
Proof.
  intros H. unfold SocketHandlerMem.on_disconnect, bind, gets, ret. cbn.
  now rewrite (guard_false_of_no_session _ _ _ H).
Qed.

(** In-memory variant: an [authenticate] whose token does not verify
    registers no Session. *)
Lemma mem_failed_authenticate_no_session jwt_verify token w :
  (exists e, jwt_verify token = Throw e) ->
  SocketHandlerMem.no_session w ->
  SocketHandlerMem.no_session (snd (SocketHandlerMem.on_authenticate jwt_verify token w)).
Proof.
  intros [e He] H.
  unfold SocketHandlerMem.on_authenticate, try_catch, bind, lift, gets, ret,
    SocketHandlerMem.emit, SocketHandlerMem.set_socket, modify.
  rewrite He. cbn. exact H.
Qed.

(** Database variant: an [authenticate] that fails early, on a connection
    whose id is not in the registry, registers no Session. *)
Lemma db_early_failure_no_session jwt_verify limit token db w :
  SocketHandlerDb.fails_early jwt_verify token db ->
  omap_get (sock_id (SocketHandlerDb.socket w)) (SocketHandlerDb.activeUsers w) = None ->
  SocketHandlerDb.no_session
    (snd (SocketHandlerDb.on_authenticate jwt_verify limit token db w)).
Proof.
  intros Hfail Hfresh. right.
  unfold SocketHandlerDb.on_authenticate.
  unfold try_catch at 1. unfold bind at 1. unfold lift at 1.
  destruct (jwt_verify token) as [decoded | e] eqn:J; [| exact Hfresh].
  unfold bind at 1. unfold SocketHandlerDb.await at 1.
  unfold bind at 1, modify at 1, lift at 1.
  destruct (SocketHandlerDb.ans_findById db) as [[user |] | e] eqn:F;
    [| exact Hfresh | exact Hfresh].
  unfold bind at 1, gets at 1, bind at 1.
  unfold SocketHandlerDb.set_socket at 1, modify at 1.
  unfold bind at 1. unfold SocketHandlerDb.await at 1.
  unfold bind at 1, modify at 1, lift at 1.
  destruct (SocketHandlerDb.ans_setOnlineStatus db) as [[] | e] eqn:S;
    [| exact Hfresh].
  exfalso. destruct Hfail as [[e He] | [[e He] | [He | [e He]]]]; congruence.
Qed.

(** C8 (counterexample), database variant. Bob's token verifies, his user is
    found and marked online, the Session is registered and [userJoined] goes
    out; then the query for the online users rejects, so the authentication
    ends in [authError] and [socket.disconnect()]. The disconnect of this
    connection, which never completed an authentication, removes the
    Session, asks the persistence layer to mark Bob offline and emits
    [userLeft]. *)
Lemma C8_counterexample_failed_authentication_leaves_session :
  let w1 := snd (SocketHandlerDb.on_authenticate Scenario.verify 50 "token-bob"
                   Scenario.presence_query_fails Scenario.bob_world) in
  let w2 := snd (SocketHandlerDb.on_disconnect Scenario.db_up w1) in
  SocketHandlerDb.outbox w1
  = [SocketHandlerDb.mkEmit (RoomExcept "general" "chat-2") "userJoined"
       (SocketHandlerDb.UserJoined "u2" "bob" None true);
     SocketHandlerDb.mkEmit (Self "chat-2") "authError"
       (SocketHandlerDb.AuthError "Invalid token")]
  /\ disconnected (SocketHandlerDb.socket w1) = true
  /\ SocketHandlerDb.outbox w2
     = (SocketHandlerDb.outbox w1
        ++ [SocketHandlerDb.mkEmit (RoomExcept "general" "chat-2") "userLeft"
              (SocketHandlerDb.UserLeft "u2" "bob")])%list
  /\ omap_get "chat-2" (SocketHandlerDb.activeUsers w1)
     = Some (mkActiveUser "u2" "bob" "chat-2")
  /\ omap_get "chat-2" (SocketHandlerDb.activeUsers w2) = None
  /\ SocketHandlerDb.dbCalls w2
     = (SocketHandlerDb.dbCalls w1
        ++ [SocketHandlerDb.FindById "u2";
            SocketHandlerDb.SetOnlineStatus "u2" false None])%list.
Proof. cbv zeta. repeat split; vm_compute; reflexivity. Qed.

(** C8 (amended): disconnecting a connection for which no Session stands
    ([socket.userId] unset, or no entry of [activeUsers] under [socket.id]) is
    a no-op in both variants: nothing is emitted, [activeUsers] is unchanged,
    no call goes to the persistence layer. Such is a connection that never
    sent [authenticate]; one whose [authenticate] failed in the in-memory
    variant; and, in the database variant, one whose [authenticate] failed
    before the Session was registered. *)
Theorem C8_disconnect_without_session_is_a_noop
    (jwt_verify : string -> outcome Decoded) (limit : Z) (token : string)
    (adb : SocketHandlerDb.AuthAnswers) (ddb : SocketHandlerDb.DisconnectAnswers)
    (wd : SocketHandlerDb.World) (wm : SocketHandlerMem.World) :
  SocketHandlerDb.no_session wd ->
  SocketHandlerMem.no_session wm ->
  SocketHandlerDb.on_disconnect ddb wd = (Ok tt, wd)
  /\ SocketHandlerMem.on_disconnect wm = (Ok tt, wm)
  /\ ((exists e, jwt_verify token = Throw e) ->
      let wm' := snd (SocketHandlerMem.on_authenticate jwt_verify token wm) in
      SocketHandlerMem.on_disconnect wm' = (Ok tt, wm'))
  /\ (SocketHandlerDb.fails_early jwt_verify token adb ->
      omap_get (sock_id (SocketHandlerDb.socket wd)) (SocketHandlerDb.activeUsers wd)
      = None ->
      let wd' := snd (SocketHandlerDb.on_authenticate jwt_verify limit token adb wd) in
      SocketHandlerDb.on_disconnect ddb wd' = (Ok tt, wd')).
Proof.
  intros Hd Hm.
  split; [now apply db_disconnect_without_session |].
  split; [now apply mem_disconnect_without_session |].
  split.
  - intros Hfail wm'. apply mem_disconnect_without_session.
    now apply mem_failed_authenticate_no_session.
  - intros Hfail Hfresh wd'. apply db_disconnect_without_session.
    now apply db_early_failure_no_session.
Qed.

(** The theorem at Bob's fresh connection: disconnected at once, and
    disconnected after a token that does not verify. *)
Lemma C8_disconnect_witness :
  SocketHandlerDb.on_disconnect Scenario.db_up Scenario.bob_world
  = (Ok tt, Scenario.bob_world)
  /\ SocketHandlerMem.on_disconnect Scenario.bob_world_mem
     = (Ok tt, Scenario.bob_world_mem)
  /\ SocketHandlerMem.outbox
       (snd (SocketHandlerMem.on_disconnect
               (snd (SocketHandlerMem.on_authenticate Scenario.verify "forged"
                       Scenario.bob_world_mem))))
     = [SocketHandlerMem.mkEmit (Self "chat-2") "authError"
          (SocketHandlerMem.AuthError "Invalid token")].
Proof.
  destruct (C8_disconnect_without_session_is_a_noop Scenario.verify 50 "forged"
              Scenario.presence_query_fails Scenario.db_up
              Scenario.bob_world Scenario.bob_world_mem)
    as (Hdb & Hmem & Hforged & _).
  - left. reflexivity.
  - left. reflexivity.
  - split; [exact Hdb |]. split; [exact Hmem |].
    cbv zeta in Hforged. rewrite Hforged; [reflexivity |].
    eexists. reflexivity.
Defined.

End DisconnectFacts.

(** ** Further properties of the handshake *)

Module HandshakeFacts.
Import Crypto Js Signature CryptoFacts HandshakeSpec.

Lemma simpleSignature_truthy env data :
  truthy_string (Some (simpleSignature env data)) = true.
Proof.
  unfold simpleSignature.
  assert (H : exists c r, (JSON_stringify data ++ SHARED_SECRET env)%string = String c r).
  { destruct data; cbv [JSON_stringify String.append]; eauto. }
  destruct H as (c & r & ->). cbn [bytes_of_string].
  destruct (bytes_of_string r) as [| b [| b' l]]; reflexivity.
Qed.

(** X1. The base64 fallback of [verifySignature] in routes/agents.js changes no
    answer, and the signature it was written for is never accepted: sent to
    POST /authenticate it is answered 500 "Authentication failed". *)
Theorem base64_fallback_never_accepts
    (env : option string) (clock : nat -> Z)
    (agentId platform : string) (timestamp : Z) (st : AgentRoutes.State) :
  let data := AuthData agentId platform timestamp in
  (forall signature,
      verifySignature env data signature = verifySignature_socket env data signature)
  /\ (exists e, verifySignature env data (simpleSignature env data) = Throw e)
  /\ (agentId <> EmptyString -> platform <> EmptyString -> timestamp <> 0 ->
      AgentRoutes.post_authenticate env clock
        (AgentRoutes.mkAuthBody (Some agentId) (Some platform) (Some timestamp)
                                (Some (simpleSignature env data))) st
      = (AgentRoutes.json_error 500 "Authentication failed", st)).
Proof.
  intros data.
  assert (Hthrow : exists e, verifySignature env data (simpleSignature env data) = Throw e).
  { apply verifySignature_throws.
    pose proof (hex_decode_length (simpleSignature env data)) as H1.
    pose proof (substring0_length 32
                  (base64 (bytes_of_string (JSON_stringify data ++ SHARED_SECRET env)))) as H2.
    unfold simpleSignature in *. lia. }
  split; [intros; apply verifySignature_fallback_dead |].
  split; [exact Hthrow |].
  intros Ha Hp Ht. destruct Hthrow as [e He].
  unfold AgentRoutes.post_authenticate.
  cbn [AgentRoutes.req_agentId AgentRoutes.req_platform AgentRoutes.req_timestamp
       AgentRoutes.req_signature].
  rewrite simpleSignature_truthy.
  destruct agentId as [| c r]; [contradiction |].
  destruct platform as [| c' r']; [contradiction |].
  cbn [truthy_string truthy_number negb orb].
  destruct (Z.eqb_spec timestamp 0) as [E | _]; [contradiction |].
  cbn -[verifySignature simpleSignature]. fold data. now rewrite He.
Qed.

Lemma omap_get_set_other {V} (k k' : string) (v : V) (m : omap V) :
  k <> k' -> omap_get k (omap_set k' v m) = omap_get k m.
Proof.
  intros Hne. induction m as [| [k0 v0] r IH]; cbn.
  - destruct (String.eqb_spec k k'); [contradiction | reflexivity].
  - destruct (String.eqb_spec k' k0) as [-> | Hne']; cbn.
    + destruct (String.eqb_spec k k0); [contradiction | reflexivity].
    + destruct (String.eqb_spec k k0); [reflexivity | exact IH].
Qed.

Lemma guard_false_fields_present a p t s :
  negb (truthy_string a) || negb (truthy_string p)
  || negb (truthy_number t) || negb (truthy_string s) = false
  <-> fields_present a p t s.
Proof.
  unfold fields_present.
  destruct (truthy_string a), (truthy_string p), (truthy_number t), (truthy_string s);
    cbn; intuition congruence.
Qed.


(** X3. An accepted handshake on POST /authenticate registers the agent under
    its agentId with status [authenticated] and [connectedAt = lastSeen =
    now], replacing an earlier entry of that agentId and leaving every other
    entry, the commands and the responses as they were; the acknowledgement
    carries a signature of [{status, agentId, timestamp: now}] that
    [verifySignature] accepts. *)
Theorem post_authenticate_registers
    (env : option string) (clock : nat -> Z)
    (agentId platform : string) (timestamp : Z) (signature : string)
    (st : AgentRoutes.State) :
  let now := clock (AgentRoutes.ticks st) in
  let r := AgentRoutes.post_authenticate env clock
             (AgentRoutes.mkAuthBody (Some agentId) (Some platform) (Some timestamp)
                                     (Some signature)) st in
  fields_present (Some agentId) (Some platform) (Some timestamp) (Some signature) ->
  signature_valid env (Some agentId) (Some platform) timestamp (Some signature) ->
  in_window now timestamp ->
  (exists ack,
      fst r = AgentRoutes.mkHttp 200 (AgentRoutes.AuthenticatedBody agentId now ack)
      /\ verifySignature env (AckData "authenticated" agentId now) ack = Ok true)
  /\ omap_get agentId (AgentRoutes.activeAgents (snd r))
     = Some (AgentRoutes.mkAgent agentId platform now now "authenticated")
  /\ (forall other, other <> agentId ->
        omap_get other (AgentRoutes.activeAgents (snd r))
        = omap_get other (AgentRoutes.activeAgents st))
  /\ AgentRoutes.agentCommands (snd r) = AgentRoutes.agentCommands st
  /\ AgentRoutes.agentResponses (snd r) = AgentRoutes.agentResponses st.
Proof.
  intros now r Hf Hv Hw. subst r. unfold AgentRoutes.post_authenticate.
  apply guard_false_fields_present in Hf as Hg.
  cbn [AgentRoutes.req_agentId AgentRoutes.req_platform AgentRoutes.req_timestamp
       AgentRoutes.req_signature] in *.
  rewrite Hg. unfold signature_valid in Hv. apply verifySignature_true in Hv.
  cbv [str_of num_of from_option id] in *.
  rewrite Hv. fold now.
  unfold in_window in Hw.
  destruct (Z.gtb_spec (Z.abs (now - timestamp)) 300000) as [Hgt | _]; [lia |].
  cbn -[createSignature verifySignature]. split.
  - eexists. split; [reflexivity |]. apply verifySignature_true. reflexivity.
  - split; [apply DispatchFacts.omap_get_set_eq |].
    split; [intros other Hne; now apply omap_get_set_other | easy].
Qed.

(** The theorem at the handshake of [ag-1] arriving 100000 ms after its
    stamp. *)
Lemma post_authenticate_registers_witness :
  omap_get "ag-1"
    (AgentRoutes.activeAgents
       (snd (AgentRoutes.post_authenticate Scenario.no_env
               (Scenario.at_time (Scenario.stamp + 100000))
               (Scenario.handshake Scenario.ag1_signature) Scenario.routes_empty)))
  = Some (AgentRoutes.mkAgent "ag-1" "linux" (Scenario.stamp + 100000)
            (Scenario.stamp + 100000) "authenticated").
Proof.
  destruct (post_authenticate_registers Scenario.no_env
              (Scenario.at_time (Scenario.stamp + 100000))
              "ag-1" "linux" Scenario.stamp Scenario.ag1_signature
              Scenario.routes_empty)
    as (_ & Hreg & _).
  - repeat split; reflexivity.
  - reflexivity.
  - unfold in_window. vm_compute. discriminate.
  - exact Hreg.
Defined.

(** X4. The same on the live connection: an accepted [agent:authenticate] sets
    the socket's [agentId], registers the connection under the agentId with
    this socket's id, replacing an earlier entry, and emits
    [agent:authenticated] with a verifiable signature on this socket only. *)
Theorem on_agent_authenticate_registers
    (env : option string) (clock : nat -> Z) (socket : AgentHandler.Socket)
    (agentId platform : string) (timestamp : Z) (signature : string)
    (w : AgentHandler.World) :
  let now := clock (AgentHandler.ticks w) in
  let r := AgentHandler.on_agent_authenticate env clock socket (Some agentId)
             (Some platform) (Some timestamp) (Some signature) w in
  fields_present (Some agentId) (Some platform) (Some timestamp) (Some signature) ->
  signature_valid env (Some agentId) (Some platform) timestamp (Some signature) ->
  in_window now timestamp ->
  fst r = Ok (AgentHandler.mkSocket (AgentHandler.sock_id socket) (Some agentId))
  /\ omap_get agentId (AgentHandler.agentConnections (snd r))
     = Some (AgentHandler.mkConn (AgentHandler.sock_id socket) agentId platform
               now now "authenticated" None)
  /\ (forall other, other <> agentId ->
        omap_get other (AgentHandler.agentConnections (snd r))
        = omap_get other (AgentHandler.agentConnections w))
  /\ (exists ack,
        AgentHandler.outbox (snd r)
        = (AgentHandler.outbox w
           ++ [AgentHandler.mkEmit (AgentHandler.sock_id socket) "agent:authenticated"
                 (AgentHandler.Authenticated "authenticated" agentId now ack)])%list
        /\ verifySignature_socket env (AckData "authenticated" agentId now) ack = Ok true)
  /\ AgentHandler.pendingCommands (snd r) = AgentHandler.pendingCommands w.
Proof.
  intros now r Hf Hv Hw. subst r.
  unfold AgentHandler.on_agent_authenticate, try_catch, bind, lift, ret,
    AgentHandler.emit, AgentHandler.set_connections, AgentHandler.Date_now, modify.
  apply guard_false_fields_present in Hf as Hg. rewrite Hg.
  unfold signature_valid in Hv. apply timingSafeEqual_true in Hv.
  unfold verifySignature_socket.
  cbv [str_of num_of from_option id] in *. rewrite Hv.
  cbn -[createSignature Z.gtb Z.abs Z.sub]. fold now.
  unfold in_window in Hw.
  destruct (Z.gtb_spec (Z.abs (now - timestamp)) 300000) as [Hgt | _]; [lia |].
  cbn -[createSignature].
  split; [reflexivity |].
  split; [apply DispatchFacts.omap_get_set_eq |].
  split; [intros other Hne; now apply omap_get_set_other |].
  split; [| reflexivity].
  eexists. split; [reflexivity |]. now apply timingSafeEqual_true.
Qed.

(** The theorem at the handshake of [ag-1] on socket [sock-1]. *)
Lemma on_agent_authenticate_registers_witness :
  fst (AgentHandler.on_agent_authenticate Scenario.no_env
         (Scenario.at_time (Scenario.stamp + 100000)) Scenario.agent_socket
         (Some "ag-1") (Some "linux") (Some Scenario.stamp)
         (Some Scenario.ag1_signature) Scenario.hub_empty)
  = Ok (AgentHandler.mkSocket "sock-1" (Some "ag-1")).
Proof.
  destruct (on_agent_authenticate_registers Scenario.no_env
              (Scenario.at_time (Scenario.stamp + 100000)) Scenario.agent_socket
              "ag-1" "linux" Scenario.stamp Scenario.ag1_signature Scenario.hub_empty)
    as (Hsock & _).
  - repeat split; reflexivity.
  - reflexivity.
  - unfold in_window. vm_compute. discriminate.
  - exact Hsock.
Defined.

End HandshakeFacts.

(** ** The HTTP command tables: dispatch, status, response *)

Module CommandTableFacts.
Import Js Signature AgentRoutes AgentStatus.

Lemma count_pending_insert_fresh a k c (cmds : gmap string Command) :
  cmds !! k = None ->
  count_pending a (<[k := c]> cmds)
  = ((if pending_for a c then 1 else 0) + count_pending a cmds)%nat.
Proof.
  intros Hk. unfold count_pending. rewrite map_filter_insert. cbn.
  destruct (pending_for a c) eqn:E.
  - rewrite decide_True by reflexivity. rewrite map_size_insert_None; [reflexivity |].
    now apply map_lookup_filter_None_2; left.
  - rewrite decide_False by discriminate. now rewrite delete_id.
Qed.

Lemma count_pending_delete a k c (cmds : gmap string Command) :
  cmds !! k = Some c ->
  count_pending a cmds
  = ((if pending_for a c then 1 else 0) + count_pending a (delete k cmds))%nat.
Proof.
  intros Hk. rewrite <- (insert_delete_id cmds k c Hk) at 1.
  apply count_pending_insert_fresh, lookup_delete_eq.
Qed.

Lemma count_pending_overwrite a k c c' (cmds : gmap string Command) :
  cmds !! k = Some c ->
  (count_pending a (<[k := c']> cmds) + (if pending_for a c then 1 else 0))%nat
  = (count_pending a cmds + (if pending_for a c' then 1 else 0))%nat.
Proof.
  intros Hk. rewrite <- (insert_delete_eq cmds k c').
  rewrite count_pending_insert_fresh by apply lookup_delete_eq.
  rewrite (count_pending_delete a k c cmds Hk). lia.
Qed.

(** X5. A dispatch on POST /command shows in GET /status: with the three fields
    present, the agent registered and a UUID not yet in the table, the route
    answers 200 with that UUID, and the status of the agent then reads
    [command_sent], [lastSeen] the time of the dispatch, and one pending
    command more than before. *)
Theorem dispatch_shows_in_status
    (env : option string) (clock : nat -> Z) (randomUUID : nat -> string)
    (req : CommandBody) (st : State) (agent : Agent) :
  let a := str_of (cb_agentId req) in
  let uuid := randomUUID (drawn st) in
  let r := post_command env clock randomUUID req st in
  truthy_string (cb_agentId req) = true ->
  truthy_string (cb_module req) = true ->
  truthy_string (cb_action req) = true ->
  omap_get a (activeAgents st) = Some agent ->
  agentCommands st !! uuid = None ->
  fst r = mkHttp 200 (CommandSentBody uuid "Command sent to agent")
  /\ get_status a (snd r)
     = StatusOk (mkAgent (agentId agent) (platform agent) (connectedAt agent)
                         (clock (S (ticks st))) "command_sent")
                (S (count_pending a (agentCommands st)))
  /\ (exists c, agentCommands (snd r) !! uuid = Some c
                /\ cmd_agentId c = a /\ cmd_status c = "pending"
                /\ authHash c = authHash_of env uuid (str_of (cb_action req)))
  /\ agentResponses (snd r) = agentResponses st.
Proof.
  intros a uuid r Ha Hm Hact Hreg Hfresh. subst r.
  unfold post_command. rewrite Ha, Hm, Hact. cbn [negb orb].
  fold a. unfold omap_has. rewrite Hreg. cbn [negb].
  cbn -[authHash_of new_command]. fold a. rewrite Hreg.
  cbn -[authHash_of new_command]. fold uuid.
  split; [reflexivity |].
  split.
  - unfold get_status, omap_has. cbn -[authHash_of new_command].
    rewrite DispatchFacts.omap_get_set_eq. cbn -[authHash_of new_command].
    f_equal. rewrite count_pending_insert_fresh by exact Hfresh.
    unfold pending_for, new_command. cbn -[authHash_of].
    now rewrite String.eqb_refl.
  - split; [| reflexivity].
    eexists. split; [apply lookup_insert_eq |]. repeat split.
Qed.

(** The theorem at [fs/listFiles] dispatched to [ag-1]. *)
Lemma dispatch_shows_in_status_witness :
  get_status "ag-1" Scenario2.routes_dispatched
  = StatusOk (mkAgent "ag-1" "linux" Scenario.stamp (Scenario.stamp + 1) "command_sent") 1.
Proof.
  destruct (dispatch_shows_in_status Scenario.no_env
              (Scenario.running_clock Scenario.stamp) Scenario.uuid_n
              Scenario.dispatch_listFiles Scenario.routes_two
              (mkAgent "ag-1" "linux" Scenario.stamp Scenario.stamp "authenticated"))
    as (_ & Hstatus & _);
    [reflexivity | reflexivity | reflexivity | reflexivity | reflexivity |].
  unfold Scenario2.routes_dispatched. cbv zeta in Hstatus.
  etransitivity; [exact Hstatus |]. vm_compute. reflexivity.
Defined.

(** X6. A response on POST /response for a stored command, its three fields
    present, is answered 200 whoever sends it: the responding agentId is not
    compared with the command's and need not be registered. The response is
    stored under the commandId, replacing an earlier one; the command takes
    the reported status and a completion time; every other command and
    response is untouched; and if the command was pending for its agent and
    the reported status is not [pending], that agent has one pending command
    fewer. *)
Theorem response_completes_command
    (clock : nat -> Z) (req : ResponseBody) (st : State) (c : Command) :
  let cid := str_of (rb_commandId req) in
  let status := str_of (rb_status req) in
  let r := post_response clock req st in
  truthy_string (rb_commandId req) = true ->
  truthy_string (rb_agentId req) = true ->
  truthy_string (rb_status req) = true ->
  agentCommands st !! cid = Some c ->
  fst r = mkHttp 200 (ResponseReceivedBody "Response received")
  /\ agentResponses (snd r) !! cid
     = Some (mkResponse cid (str_of (rb_agentId req)) (rb_module req) status
               (rb_data req) (rb_error req) (rb_executionTime req)
               (clock (ticks st)))
  /\ agentCommands (snd r) !! cid
     = Some (mkCommand (id c) (cmd_agentId c) (module c) (action c) (params c)
               (priority c) (timestamp c) status (authHash c)
               (Some (clock (S (ticks st)))))
  /\ (forall other, other <> cid ->
        agentCommands (snd r) !! other = agentCommands st !! other
        /\ agentResponses (snd r) !! other = agentResponses st !! other)
  /\ (pending_for (cmd_agentId c) c = true -> status <> "pending" ->
      S (count_pending (cmd_agentId c) (agentCommands (snd r)))
      = count_pending (cmd_agentId c) (agentCommands st)).
Proof.
  intros cid status r Hc Ha Hs Hknown. subst r.
  unfold post_response. rewrite Hc, Ha, Hs. cbn [negb orb].
  fold cid status. rewrite Hknown.
  assert (Hcmds : forall st',
    agentCommands
      (match omap_get (str_of (rb_agentId req)) (activeAgents st') with
       | Some agent =>
           with_agents
             (omap_set (str_of (rb_agentId req))
                (mkAgent (agentId agent) (platform agent) (connectedAt agent)
                         (clock (ticks st')) "active")) (tick st')
       | None => st'
       end) = agentCommands st'
    /\ agentResponses
      (match omap_get (str_of (rb_agentId req)) (activeAgents st') with
       | Some agent =>
           with_agents
             (omap_set (str_of (rb_agentId req))
                (mkAgent (agentId agent) (platform agent) (connectedAt agent)
                         (clock (ticks st')) "active")) (tick st')
       | None => st'
       end) = agentResponses st').
  { intros st'. destruct (omap_get _ _); split; reflexivity. }
  cbn [fst snd]. split; [reflexivity |].
  match goal with
  | |- context [agentResponses ?X] =>
      match X with
      | context [omap_get _ (activeAgents ?st')] =>
          destruct (Hcmds st') as [-> ->]
      end
  end.
  cbn [agentCommands agentResponses with_commands with_responses tick ticks].
  split; [apply lookup_insert_eq |].
  split; [apply lookup_insert_eq |].
  split.
  - intros other Hne. split; now apply lookup_insert_ne.
  - intros Hp Hnp.
    pose proof (count_pending_overwrite (cmd_agentId c) cid c
                  (mkCommand (id c) (cmd_agentId c) (module c) (action c) (params c)
                     (priority c) (timestamp c) status (authHash c)
                     (Some (clock (S (ticks st)))))
                  (agentCommands st) Hknown) as H.
    rewrite Hp in H. unfold pending_for in H. cbn in H.
    rewrite String.eqb_refl in H.
    destruct (String.eqb_spec status "pending") as [E | _]; [contradiction |].
    cbn in H. lia.
Qed.

(** The theorem at the response of [ag-2] for the command dispatched to
    [ag-1]. *)
Lemma response_completes_command_witness :
  fst (post_response (Scenario.running_clock Scenario.stamp)
         Scenario2.completed_by_ag2 Scenario2.routes_dispatched)
  = mkHttp 200 (ResponseReceivedBody "Response received")
  /\ count_pending "ag-1"
       (agentCommands
          (snd (post_response (Scenario.running_clock Scenario.stamp)
                  Scenario2.completed_by_ag2 Scenario2.routes_dispatched)))
     = 0%nat.
Proof.
  destruct (Scenario2.routes_dispatched.(agentCommands) !! "uuid-0") as [c |] eqn:E;
    [| vm_compute in E; discriminate].
  destruct (response_completes_command (Scenario.running_clock Scenario.stamp)
              Scenario2.completed_by_ag2 Scenario2.routes_dispatched c)
    as (Hok & _); [reflexivity | reflexivity | reflexivity | exact E |].
  split; [exact Hok | vm_compute; reflexivity].
Defined.

End CommandTableFacts.

(** ** Liveness: pings, disconnection and the sweep of inactive agents *)

Module LivenessFacts.
Import Js Signature AgentHandler BroadcastSpec DispatchFacts HandshakeFacts.
Local Open Scope list_scope.

Lemma omap_delete_app {V} (k : string) (v : V) (kept rest : omap V) :
  ~ In k (omap_keys kept) ->
  omap_delete k (kept ++ (k, v) :: rest) = (kept ++ rest)%list.
Proof.
  induction kept as [| [k0 v0] r IH]; cbn; intros Hk.
  - now rewrite String.eqb_refl.
  - destruct (String.eqb_spec k k0) as [-> | _]; [exfalso; apply Hk; now left |].
    f_equal. apply IH. intros H. apply Hk. now right.
Qed.

Lemma NoDup_keys_middle {V} (k : string) (v : V) (kept rest : omap V) :
  List.NoDup (omap_keys (kept ++ (k, v) :: rest)) ->
  ~ In k (omap_keys kept) /\ List.NoDup (omap_keys (kept ++ rest)).
Proof.
  unfold omap_keys. rewrite !map_app. cbn. intros H.
  apply List.NoDup_remove in H as [H1 H2]. split; [| exact H1].
  intros Hin. apply H2. apply in_or_app. now left.
Qed.

(** The sweep of the live registry keeps, in order, the entries that are not
    inactive, and counts the others. *)
Lemma live_cleanup_loop_spec now entries :
  forall kept count,
    List.NoDup (omap_keys (kept ++ entries)) ->
    AgentLiveness.cleanup_loop now entries (kept ++ entries) count
    = ((kept ++ List.filter (fun kv => negb (AgentLiveness.inactive now (snd kv))) entries)%list,
       (count + length (List.filter (fun kv => AgentLiveness.inactive now (snd kv)) entries))%nat).
Proof.
  induction entries as [| [k a] rest IH]; intros kept count Hnd.
  - cbn. now rewrite Nat.add_0_r.
  - cbn [AgentLiveness.cleanup_loop List.filter snd].
    destruct (AgentLiveness.inactive now a) eqn:E; cbn [negb].
    + apply NoDup_keys_middle in Hnd as [Hk Hnd].
      rewrite omap_delete_app by exact Hk. rewrite IH by exact Hnd.
      cbn [length]. f_equal. lia.
    + replace (kept ++ (k, a) :: rest)%list with ((kept ++ [(k, a)]) ++ rest)%list
        by now rewrite <- app_assoc.
      rewrite IH by (now rewrite <- app_assoc). now rewrite <- app_assoc.
Qed.

Lemma http_cleanup_loop_spec now entries :
  forall kept count,
    List.NoDup (omap_keys (kept ++ entries)) ->
    AgentStatus.cleanup_loop now entries (kept ++ entries) count
    = ((kept ++ List.filter (fun kv => negb (AgentStatus.inactive now (snd kv))) entries)%list,
       (count + length (List.filter (fun kv => AgentStatus.inactive now (snd kv)) entries))%nat).
Proof.
  induction entries as [| [k a] rest IH]; intros kept count Hnd.
  - cbn. now rewrite Nat.add_0_r.
  - cbn [AgentStatus.cleanup_loop List.filter snd].
    destruct (AgentStatus.inactive now a) eqn:E; cbn [negb].
    + apply NoDup_keys_middle in Hnd as [Hk Hnd].
      rewrite omap_delete_app by exact Hk. rewrite IH by exact Hnd.
      cbn [length]. f_equal. lia.
    + replace (kept ++ (k, a) :: rest)%list with ((kept ++ [(k, a)]) ++ rest)%list
        by now rewrite <- app_assoc.
      rewrite IH by (now rewrite <- app_assoc). now rewrite <- app_assoc.
Qed.

(** X7. The sweep, [cleanupInactiveAgents] and POST /cleanup alike: with [now]
    the one reading of the clock, it removes exactly the agents with
    [now - lastSeen > 1800000], keeps the others in their order (an agent
    last seen exactly thirty minutes ago stays), returns the number removed,
    and leaves the command tables alone. *)
Theorem cleanup_removes_exactly_the_inactive
    (clock : nat -> Z) (w : World) (st : AgentRoutes.State) :
  List.NoDup (omap_keys (agentConnections w)) ->
  List.NoDup (omap_keys (AgentRoutes.activeAgents st)) ->
  let live := AgentLiveness.cleanupInactiveAgents clock w in
  let http := AgentStatus.post_cleanup clock st in
  let now := clock (ticks w) in
  let now' := clock (AgentRoutes.ticks st) in
  agentConnections (snd live)
  = List.filter (fun kv => now - lastSeen (snd kv) <=? 1800000) (agentConnections w)
  /\ fst live
     = Ok (length (agentConnections w) - length (agentConnections (snd live)))%nat
  /\ pendingCommands (snd live) = pendingCommands w
  /\ AgentRoutes.activeAgents (snd http)
     = List.filter (fun kv => now' - AgentRoutes.lastSeen (snd kv) <=? 1800000)
                   (AgentRoutes.activeAgents st)
  /\ fst http
     = (length (AgentRoutes.activeAgents st)
        - length (AgentRoutes.activeAgents (snd http)))%nat
  /\ AgentRoutes.agentCommands (snd http) = AgentRoutes.agentCommands st.
Proof.
  intros Hw Hst live http now now'.
  assert (Hflip : forall x : Z, negb (x >? 1800000) = (x <=? 1800000)).
  { intros x. destruct (Z.gtb_spec x 1800000), (Z.leb_spec x 1800000); cbn; lia. }
  assert (Hlen : forall {A} (f : A -> bool) (l : list A),
             length (List.filter f l)
             = (length l - length (List.filter (fun x => negb (f x)) l))%nat).
  { intros A f l. induction l as [| x r IH]; cbn; [reflexivity |].
    destruct (f x); cbn; rewrite IH.
    - pose proof (List.filter_length_le (fun x => negb (f x)) r). lia.
    - reflexivity. }
  pose proof (live_cleanup_loop_spec now (agentConnections w) [] 0%nat Hw) as L.
  pose proof (http_cleanup_loop_spec now' (AgentRoutes.activeAgents st) [] 0%nat Hst) as H.
  cbn [app] in L, H.
  assert (El : live = (Ok (length (List.filter
                             (fun kv => AgentLiveness.inactive now (snd kv))
                             (agentConnections w))),
                       mkWorld (List.filter
                                  (fun kv => negb (AgentLiveness.inactive now (snd kv)))
                                  (agentConnections w))
                               (pendingCommands w) (timers w) (outbox w) (S (ticks w)))).
  { subst live. unfold AgentLiveness.cleanupInactiveAgents, bind, gets, ret,
      set_connections, Date_now, modify. cbn [agentConnections ticks].
    fold now. now rewrite L. }
  assert (Eh : http = (length (List.filter
                                 (fun kv => AgentStatus.inactive now' (snd kv))
                                 (AgentRoutes.activeAgents st)),
                       AgentRoutes.with_agents
                         (fun _ => List.filter
                                     (fun kv => negb (AgentStatus.inactive now' (snd kv)))
                                     (AgentRoutes.activeAgents st))
                         (AgentRoutes.tick st))).
  { subst http. unfold AgentStatus.post_cleanup. cbn [AgentRoutes.tick AgentRoutes.activeAgents].
    fold now'. now rewrite H. }
  rewrite El, Eh. cbn [fst snd agentConnections pendingCommands
                       AgentRoutes.with_agents AgentRoutes.activeAgents
                       AgentRoutes.agentCommands AgentRoutes.tick].
  unfold AgentLiveness.inactive, AgentStatus.inactive, AgentLiveness.inactiveThreshold.
  change (30 * 60 * 1000) with 1800000.
  assert (Fl : forall f g : (string * AgentConnection) -> bool,
             (forall kv, negb (f kv) = g kv) ->
             forall l, List.filter (fun kv => negb (f kv)) l = List.filter g l).
  { intros f g Hfg l. apply List.filter_ext. exact Hfg. }
  assert (Fh : forall f g : (string * AgentRoutes.Agent) -> bool,
             (forall kv, negb (f kv) = g kv) ->
             forall l, List.filter (fun kv => negb (f kv)) l = List.filter g l).
  { intros f g Hfg l. apply List.filter_ext. exact Hfg. }
  split; [apply Fl; intros kv; apply Hflip |].
  split; [rewrite Hlen; do 3 f_equal; apply Fl; intros kv; apply Hflip |].
  split; [reflexivity |].
  split; [apply Fh; intros kv; apply Hflip |].
  split; [rewrite Hlen; do 2 f_equal; apply Fh; intros kv; apply Hflip | reflexivity].
Qed.

(** The theorem at a registry of four, swept at time 2000000: only the agent
    last seen at 0 goes; the one last seen exactly 1800000 ms before stays. *)
Lemma cleanup_witness :
  omap_keys
    (agentConnections
       (snd (AgentLiveness.cleanupInactiveAgents (Scenario.at_time 2000000)
               Scenario2.hub_aged)))
  = ["b"; "c"; "d"]
  /\ fst (AgentLiveness.cleanupInactiveAgents (Scenario.at_time 2000000)
            Scenario2.hub_aged) = Ok 1%nat
  /\ fst (AgentStatus.post_cleanup (Scenario.at_time (Scenario.stamp + 1800001))
            Scenario.routes_two) = 2%nat.
Proof.
  destruct (cleanup_removes_exactly_the_inactive (Scenario.at_time 2000000)
              Scenario2.hub_aged Scenario.routes_two)
    as (Hkept & Hcount & _).
  - repeat constructor; cbn; intuition discriminate.
  - repeat constructor; cbn; intuition discriminate.
  - split; [rewrite Hkept; reflexivity |].
    split; [rewrite Hcount, Hkept; reflexivity | reflexivity].
Defined.

(** After a write of an entry that is not active under its own agentId, no
    recipient of a broadcast has that agentId. *)
Lemma set_inactive_not_recipient (aid : string) (v : AgentConnection)
    (m : omap AgentConnection) :
  registry_wf m -> is_active v = false ->
  forall x, In x (List.filter is_active (omap_values (omap_set aid v m))) ->
            agentId x <> aid.
Proof.
  intros [Hnd Hkeys] Hv x Hx. apply filter_In in Hx as [Hin Hact].
  induction m as [| [k0 v0] r IH]; cbn in Hin.
  - destruct Hin as [<- | []]. congruence.
  - cbn in Hnd. apply List.NoDup_cons_iff in Hnd as [Hk0 Hnd].
    apply List.Forall_cons_iff in Hkeys as [Hv0 Hkeys]. cbn in Hv0.
    destruct (String.eqb_spec aid k0) as [-> | Hne]; cbn in Hin.
    + destruct Hin as [<- | Hin]; [congruence |].
      intros E. apply Hk0. apply in_map_iff in Hin as ([k' x'] & Ex & Hin).
      cbn in Ex. subst x'. rewrite List.Forall_forall in Hkeys.
      specialize (Hkeys _ Hin). cbn in Hkeys.
      apply in_map_iff. exists (k', x). split; [cbn; congruence | exact Hin].
    + destruct Hin as [<- | Hin]; [congruence | now apply IH].
Qed.

(** X8. A ping of a registered agent refreshes [lastSeen] and sets the status to
    the reported one, or to [alive] when none is reported; every other entry
    stays. As a broadcast only addresses the statuses [authenticated] and
    [active], an agent whose last ping reported neither is no recipient of a
    broadcast any more. A ping naming no registered agent changes nothing. *)
Theorem ping_sets_status
    (clock : nat -> Z) (aid : string) (status : option string)
    (w : World) (agent : AgentConnection) :
  registry_wf (agentConnections w) ->
  omap_get aid (agentConnections w) = Some agent ->
  let status' := AgentLiveness.or_default status "alive" in
  let w' := snd (AgentLiveness.on_response_ping clock (Some aid) status w) in
  omap_get aid (agentConnections w')
  = Some (mkConn (socketId agent) (agentId agent) (platform agent)
                 (connectedAt agent) (clock (ticks w)) status' (disconnectedAt agent))
  /\ (forall other, other <> aid ->
        omap_get other (agentConnections w') = omap_get other (agentConnections w))
  /\ (status' <> "authenticated" -> status' <> "active" ->
      forall x, In x (recipients w') -> agentId x <> aid)
  /\ (forall unknown, omap_get unknown (agentConnections w) = None ->
        AgentLiveness.on_response_ping clock (Some unknown) status w = (Ok tt, w))
  /\ AgentLiveness.on_response_ping clock None status w = (Ok tt, w).
Proof.
  intros Hwf Hreg status' w'. subst w'.
  unfold AgentLiveness.on_response_ping, bind, gets, ret, set_connections,
    Date_now, modify.
  rewrite Hreg. cbn [snd agentConnections ticks]. fold status'.
  split; [apply omap_get_set_eq |].
  split; [intros other Hne; now apply omap_get_set_other |].
  split.
  - intros Ha Hb x Hx. unfold recipients in Hx. cbn [agentConnections] in Hx.
    eapply set_inactive_not_recipient; [exact Hwf | | exact Hx].
    unfold is_active. cbn [AgentHandler.status refresh].
    destruct (String.eqb_spec status' "authenticated"); [contradiction |].
    destruct (String.eqb_spec status' "active"); [contradiction | reflexivity].
  - split; [| reflexivity]. intros unknown Hun. now rewrite Hun.
Qed.

(** The theorem at a ping of [ag-3] that reports no status. *)
Lemma ping_witness :
  status
    <$> omap_get "ag-3"
          (agentConnections
             (snd (AgentLiveness.on_response_ping (Scenario.at_time Scenario.stamp)
                     (Some "ag-3") None Scenario.hub_three)))
  = Some "alive"
  /\ map agentId
       (recipients
          (snd (AgentLiveness.on_response_ping (Scenario.at_time Scenario.stamp)
                  (Some "ag-3") None Scenario.hub_three)))
     = ["ag-1"].
Proof.
  destruct (ping_sets_status (Scenario.at_time Scenario.stamp) "ag-3" None
              Scenario.hub_three (Scenario.conn "sock-3" "ag-3" "active"))
    as (Hentry & _).
  - split; [repeat constructor; cbn; intuition discriminate | repeat constructor].
  - reflexivity.
  - cbv zeta in Hentry. rewrite Hentry. split; reflexivity.
Defined.

(** X9. When the socket of an agent disconnects, the entry under the socket's
    [agentId] is kept and marked: status [disconnected], [disconnectedAt] the
    time read, every other field and entry as before, whichever socket the
    entry names. The agent is then no recipient of a broadcast, but it is
    still registered: a command sent to it does not fail with "Agent not
    found". A socket that never authenticated changes nothing. *)
Theorem agent_disconnect_marks_entry
    (env : option string) (clock : nat -> Z) (io : gset string)
    (socket : Socket) (aid : string) (w : World) (agent : AgentConnection)
    (command : Command) :
  registry_wf (agentConnections w) ->
  sock_agentId socket = Some aid ->
  aid <> EmptyString ->
  omap_get aid (agentConnections w) = Some agent ->
  let w' := snd (AgentLiveness.on_disconnect clock socket w) in
  omap_get aid (agentConnections w')
  = Some (mkConn (socketId agent) (agentId agent) (platform agent)
                 (connectedAt agent) (lastSeen agent) "disconnected"
                 (Some (clock (ticks w))))
  /\ (forall other, other <> aid ->
        omap_get other (agentConnections w') = omap_get other (agentConnections w))
  /\ (forall x, In x (recipients w') -> agentId x <> aid)
  /\ fst (sendCommandToAgent env clock io aid command w')
     <> Throw (Error ("Agent not found: " ++ aid)%string)
  /\ (forall s0, sock_agentId s0 = None ->
        AgentLiveness.on_disconnect clock s0 w = (Ok tt, w)).
Proof.
  intros Hwf Hs Hne Hreg w'. subst w'.
  unfold AgentLiveness.on_disconnect, bind, gets, ret, set_connections,
    Date_now, modify.
  rewrite Hs. destruct aid as [| c r]; [contradiction |].
  cbv [truthy_string str_of from_option Datatypes.id]. rewrite Hreg.
  cbn [snd agentConnections ticks].
  split; [apply omap_get_set_eq |].
  split; [intros other Ho; now apply omap_get_set_other |].
  split.
  - intros x Hx. unfold recipients in Hx. cbn [agentConnections] in Hx.
    exact (set_inactive_not_recipient _
             (AgentLiveness.mark_disconnected (clock (ticks w)) agent) _
             Hwf eq_refl x Hx).
  - split.
    + erewrite sendCommandToAgent_registered
        by (cbn [agentConnections]; apply omap_get_set_eq).
      cbv zeta. destruct (reachable io _); cbn [fst]; [discriminate |].
      intros [= E].
    + intros s0 H0. now rewrite H0.
Qed.

(** The theorem at the disconnection of the socket of [ag-1]. *)
Lemma agent_disconnect_witness :
  map agentId
    (recipients
       (snd (AgentLiveness.on_disconnect (Scenario.at_time Scenario.stamp)
               (mkSocket "sock-1" (Some "ag-1")) Scenario.hub_three)))
  = ["ag-3"].
Proof.
  destruct (agent_disconnect_marks_entry Scenario.no_env
              (Scenario.at_time Scenario.stamp) Scenario.io_all
              (mkSocket "sock-1" (Some "ag-1")) "ag-1" Scenario.hub_three
              (Scenario.conn "sock-1" "ag-1" "authenticated") Scenario.listFiles)
    as (Hentry & _).
  - split; [repeat constructor; cbn; intuition discriminate | repeat constructor].
  - reflexivity.
  - discriminate.
  - reflexivity.
  - reflexivity.
Defined.

End LivenessFacts.

(** ** Dispatch and response on the live connection *)

Module CorrelationFacts.
Import Js Signature AgentHandler BroadcastSpec DispatchFacts.
Local Open Scope list_scope.

(** X10. A command sent to a registered agent whose socket is connected: the call
    returns [true]; the agent's socket, and no other, gets one
    [command:<module>] carrying the command with its timestamp and hash; and
    the command stands in [pendingCommands] with status [sent]. A
    [response:command] for it, with its three fields, then gives the stored
    command the reported status, a completion time and the response, and
    sets one timer of 300000 ms for its removal; nothing is emitted in
    return. *)
Theorem dispatch_then_response
    (env : option string) (clock : nat -> Z) (io : gset string)
    (aid : string) (command : Command) (w : World) (agent : AgentConnection)
    (rsp : ResponseMsg) :
  omap_get aid (agentConnections w) = Some agent ->
  socketId agent ∈ io ->
  r_commandId rsp = Some (id command) ->
  id command <> EmptyString ->
  truthy_string (r_agentId rsp) = true ->
  truthy_string (r_status rsp) = true ->
  let t := ticks w in
  let sent := sendCommandToAgent env clock io aid command w in
  let w2 := snd (on_response_command clock rsp (snd sent)) in
  fst sent = Ok true
  /\ outbox (snd sent)
     = outbox w ++ [mkEmit (socketId agent) ("command:" ++ module command)%string
                           (CommandPayload (as_sent env clock command t))]
  /\ pendingCommands (snd sent) !! id command
     = Some (set_sent (clock (S t)) (as_sent env clock command t))
  /\ pendingCommands w2 !! id command
     = Some (set_completed (str_of (r_status rsp)) (clock (S (S t))) rsp
               (set_sent (clock (S t)) (as_sent env clock command t)))
  /\ timers w2 = timers w ++ [(id command, 300000)]
  /\ outbox w2 = outbox (snd sent).
Proof.
  intros Hreg Hio Hcid Hid Ha Hs t sent w2. subst w2 sent.
  rewrite (sendCommandToAgent_registered env clock io aid command w agent Hreg).
  cbv zeta. unfold reachable. rewrite bool_decide_eq_true_2 by exact Hio.
  cbn [fst snd]. fold t.
  split; [reflexivity |]. split; [reflexivity |].
  split; [apply lookup_insert_eq |].
  unfold on_response_command, bind, gets, ret, set_pending, set_connections,
    setTimeout, Date_now, modify.
  assert (Ht : truthy_string (Some (id command)) = true)
    by (destruct (id command); [contradiction | reflexivity]).
  rewrite Hcid, Ht, Ha, Hs.
  generalize (str_of (r_agentId rsp)) as responder. intros responder.
  cbv [str_of from_option Datatypes.id negb orb].
  cbn [pendingCommands stored].
  rewrite (lookup_insert_eq (pendingCommands w) (id command)).
  cbn [pendingCommands agentConnections timers outbox ticks stored fst snd].
  destruct (omap_get responder (agentConnections w));
    cbn [pendingCommands agentConnections timers outbox ticks stored fst snd];
    (split; [apply lookup_insert_eq |]);
    split; reflexivity.
Qed.

(** The theorem at [fs/listFiles] sent to [ag-3] and completed by it. *)
Lemma dispatch_then_response_witness :
  let w2 :=
    snd (on_response_command (Scenario.running_clock Scenario.stamp)
           (mkResponseMsg (Some "cmd-1") (Some "ag-3") (Some "fs") (Some "completed")
                          (Some "[]") None (Some 12))
           (snd (sendCommandToAgent Scenario.no_env
                   (Scenario.running_clock Scenario.stamp) Scenario.io_all
                   "ag-3" Scenario.listFiles Scenario.hub_three))) in
  cmd_status <$> (pendingCommands w2 !! "cmd-1") = Some (Some "completed")
  /\ timers w2 = [("cmd-1", 300000)].
Proof.
  cbv zeta.
  destruct (dispatch_then_response Scenario.no_env
              (Scenario.running_clock Scenario.stamp) Scenario.io_all
              "ag-3" Scenario.listFiles Scenario.hub_three
              (Scenario.conn "sock-3" "ag-3" "active")
              (mkResponseMsg (Some "cmd-1") (Some "ag-3") (Some "fs") (Some "completed")
                             (Some "[]") None (Some 12)))
    as (_ & _ & _ & Hdone & Htimers & _).
  - reflexivity.
  - vm_compute. reflexivity.
  - reflexivity.
  - discriminate.
  - reflexivity.
  - reflexivity.
  - split; [exact (f_equal (fmap cmd_status) Hdone) | exact Htimers].
Defined.

End CorrelationFacts.

(** ** Chat sessions: presence, history and the way out *)

Module SessionFacts.
Import Js Chat.
Local Open Scope list_scope.

Lemma omap_set_fresh {V} (k : string) (v : V) (m : omap V) :
  omap_get k m = None -> omap_set k v m = m ++ [(k, v)].
Proof.
  induction m as [| [k0 v0] r IH]; cbn; [reflexivity |].
  destruct (String.eqb_spec k k0); [discriminate |]. intros H. now rewrite IH.
Qed.

Lemma omap_delete_last {V} (k : string) (v : V) (m : omap V) :
  omap_get k m = None -> omap_delete k (m ++ [(k, v)]) = m.
Proof.
  induction m as [| [k0 v0] r IH]; cbn.
  - now rewrite String.eqb_refl.
  - destruct (String.eqb_spec k k0); [discriminate |]. intros H. now rewrite IH.
Qed.

Lemma omap_get_last {V} (k : string) (v : V) (m : omap V) :
  omap_get k m = None -> omap_get k (m ++ [(k, v)]) = Some v.
Proof.
  induction m as [| [k0 v0] r IH]; cbn.
  - now rewrite String.eqb_refl.
  - destruct (String.eqb_spec k k0); [discriminate | exact IH].
Qed.



Ltac run_mem :=
  cbv [SocketHandlerMem.on_authenticate SocketHandlerMem.on_disconnect
       try_catch bind lift gets ret modify
       SocketHandlerMem.emit SocketHandlerMem.set_socket
       SocketHandlerMem.set_activeUsers
       SocketHandlerMem.socket SocketHandlerMem.activeUsers
       SocketHandlerMem.messages SocketHandlerMem.outbox
       sock_id sock_userId sock_username rooms disconnected fst snd].



(** X12. In-memory variant. On a connection whose id is not yet in the registry,
    authenticating and then disconnecting leaves [activeUsers] as it was,
    and the disconnect emits one [userLeft], naming the user, to the room
    without the connection. *)
Theorem mem_session_round_trip
    (jwt_verify : string -> outcome Decoded) (token : string) (decoded : Decoded)
    (w : SocketHandlerMem.World) :
  jwt_verify token = Ok decoded ->
  d_userId decoded <> EmptyString ->
  omap_get (sock_id (SocketHandlerMem.socket w)) (SocketHandlerMem.activeUsers w) = None ->
  let sid := sock_id (SocketHandlerMem.socket w) in
  let w1 := snd (SocketHandlerMem.on_authenticate jwt_verify token w) in
  let w2 := snd (SocketHandlerMem.on_disconnect w1) in
  SocketHandlerMem.activeUsers w2 = SocketHandlerMem.activeUsers w
  /\ SocketHandlerMem.outbox w2
     = SocketHandlerMem.outbox w1
       ++ [SocketHandlerMem.mkEmit (RoomExcept "general" sid) "userLeft"
             (SocketHandlerMem.UserLeft (d_userId decoded) (d_username decoded))]
  /\ SocketHandlerMem.messages w2 = SocketHandlerMem.messages w.
Proof.
  intros J Hid Hfresh sid w1 w2. subst w2 w1 sid.
  destruct w as [[sid uid uname rms disc] users msgs out].
  cbn [SocketHandlerMem.socket SocketHandlerMem.activeUsers sock_id] in Hfresh.
  destruct decoded as [duid duname]. cbn [d_userId] in Hid.
  destruct duid as [| c r]; [contradiction |].
  run_mem. rewrite J. run_mem.
  rewrite (omap_set_fresh _ _ _ Hfresh).
  cbv [truthy_string omap_has d_userId d_username andb].
  rewrite (omap_get_last _ _ _ Hfresh).
  cbv [userId username fst snd SocketHandlerMem.outbox SocketHandlerMem.activeUsers
       SocketHandlerMem.messages].
  rewrite (omap_delete_last _ _ _ Hfresh). repeat split.
Qed.

(** The theorem at Bob's connection. *)
Lemma mem_session_round_trip_witness :
  SocketHandlerMem.activeUsers
    (snd (SocketHandlerMem.on_disconnect
            (snd (SocketHandlerMem.on_authenticate Scenario.verify "token-bob"
                    Scenario.bob_world_mem))))
  = SocketHandlerMem.activeUsers Scenario.bob_world_mem.
Proof.
  destruct (mem_session_round_trip Scenario.verify "token-bob"
              (mkDecoded "u2" "bob") Scenario.bob_world_mem)
    as (Hback & _); [reflexivity | discriminate | reflexivity |].
  exact Hback.
Defined.

Ltac run_db :=
  cbv [SocketHandlerDb.on_authenticate SocketHandlerDb.on_disconnect
       SocketHandlerDb.on_sendMessage
       SocketHandlerDb.await SocketHandlerDb.socket_disconnect
       try_catch bind lift gets ret throw modify
       SocketHandlerDb.emit SocketHandlerDb.set_socket
       SocketHandlerDb.set_activeUsers
       SocketHandlerDb.socket SocketHandlerDb.activeUsers
       SocketHandlerDb.dbCalls SocketHandlerDb.outbox
       SocketHandlerDb.ans_findById SocketHandlerDb.ans_setOnlineStatus
       SocketHandlerDb.ans_find SocketHandlerDb.ans_getRecentMessages
       SocketHandlerDb.dans_findById SocketHandlerDb.dans_setOnlineStatus
       SocketHandlerDb.ans_save SocketHandlerDb.ans_populate_sender
       SocketHandlerDb.ans_populate_replyTo
       sock_id sock_userId sock_username rooms disconnected fst snd].

(** X13. Database variant. With the persistence layer answering, an
    [authenticate] on a connection whose id is not yet in the registry asks
    it, in this order, for the user, the online flag, the online users and
    the recent messages, and emits [userJoined] to the others, then
    [activeUsers] and [messageHistory] to the connection. The disconnect that
    follows restores [activeUsers], asks for the user and clears the online
    flag, and emits [userLeft]. If that last user lookup rejects instead, the
    Session is removed all the same but no [userLeft] is emitted. *)
Theorem db_session_round_trip
    (jwt_verify : string -> outcome Decoded) (limit : Z) (token : string)
    (decoded : Decoded) (user dbUser : UserDoc) (online : list UserDoc)
    (recent : list string) (w : SocketHandlerDb.World) :
  jwt_verify token = Ok decoded ->
  d_userId decoded <> EmptyString ->
  omap_get (sock_id (SocketHandlerDb.socket w)) (SocketHandlerDb.activeUsers w) = None ->
  let sid := sock_id (SocketHandlerDb.socket w) in
  let uid := d_userId decoded in
  let w1 := snd (SocketHandlerDb.on_authenticate jwt_verify limit token
                   (SocketHandlerDb.mkAuthAnswers (Ok (Some user)) (Ok tt)
                                                  (Ok online) (Ok recent)) w) in
  let w2 := snd (SocketHandlerDb.on_disconnect
                   (SocketHandlerDb.mkDisconnectAnswers (Ok (Some dbUser)) (Ok tt)) w1) in
  SocketHandlerDb.dbCalls w1
  = SocketHandlerDb.dbCalls w
    ++ [SocketHandlerDb.FindById uid;
        SocketHandlerDb.SetOnlineStatus (u_id user) true (Some sid);
        SocketHandlerDb.FindOnline;
        SocketHandlerDb.GetRecentMessages limit]
  /\ SocketHandlerDb.outbox w1
     = SocketHandlerDb.outbox w
       ++ [SocketHandlerDb.mkEmit (RoomExcept "general" sid) "userJoined"
             (SocketHandlerDb.UserJoined uid (d_username decoded) (u_avatar user) true);
           SocketHandlerDb.mkEmit (Self sid) "activeUsers"
             (SocketHandlerDb.ActiveUsers online);
           SocketHandlerDb.mkEmit (Self sid) "messageHistory"
             (SocketHandlerDb.MessageHistory recent)]
  /\ omap_get sid (SocketHandlerDb.activeUsers w1)
     = Some (mkActiveUser uid (d_username decoded) sid)
  /\ SocketHandlerDb.activeUsers w2 = SocketHandlerDb.activeUsers w
  /\ SocketHandlerDb.dbCalls w2
     = SocketHandlerDb.dbCalls w1
       ++ [SocketHandlerDb.FindById uid;
           SocketHandlerDb.SetOnlineStatus (u_id dbUser) false None]
  /\ SocketHandlerDb.outbox w2
     = SocketHandlerDb.outbox w1
       ++ [SocketHandlerDb.mkEmit (RoomExcept "general" sid) "userLeft"
             (SocketHandlerDb.UserLeft uid (d_username decoded))]
  /\ (forall e answer,
        let w2' := snd (SocketHandlerDb.on_disconnect
                          (SocketHandlerDb.mkDisconnectAnswers (Throw e) answer) w1) in
        SocketHandlerDb.activeUsers w2' = SocketHandlerDb.activeUsers w
        /\ SocketHandlerDb.outbox w2' = SocketHandlerDb.outbox w1).
Proof.
  intros J Hid Hfresh sid uid w1 w2. subst w2 w1 sid uid.
  destruct w as [[sid uid uname rms disc] users calls out].
  cbn [SocketHandlerDb.socket SocketHandlerDb.activeUsers sock_id] in Hfresh.
  destruct decoded as [duid duname]. cbn [d_userId] in Hid.
  destruct duid as [| c r]; [contradiction |].
  run_db. rewrite J. run_db.
  rewrite (omap_set_fresh _ _ _ Hfresh).
  cbv [truthy_string omap_has d_userId d_username andb str_of from_option Datatypes.id].
  rewrite (omap_get_last _ _ _ Hfresh).
  cbv [userId username fst snd SocketHandlerDb.outbox SocketHandlerDb.activeUsers
       SocketHandlerDb.dbCalls].
  rewrite (omap_delete_last _ _ _ Hfresh).
  rewrite <- !app_assoc. cbn [app].
  repeat split.
Qed.

(** The theorem at Bob's connection, everything answering. *)
Lemma db_session_round_trip_witness :
  let w1 := snd (SocketHandlerDb.on_authenticate Scenario.verify 50 "token-bob"
                   Scenario2.db_all_up Scenario.bob_world) in
  SocketHandlerDb.activeUsers (snd (SocketHandlerDb.on_disconnect Scenario.db_up w1))
  = SocketHandlerDb.activeUsers Scenario.bob_world.
Proof.
  destruct (db_session_round_trip Scenario.verify 50 "token-bob"
              (mkDecoded "u2" "bob") Scenario.bob_doc Scenario.bob_doc
              [Scenario.bob_doc] [] Scenario.bob_world)
    as (_ & _ & _ & Hback & _); [reflexivity | discriminate | reflexivity |].
  exact Hback.
Defined.

(** X14. Database variant, [sendMessage] with everything answering. A message
    whose content is a string makes exactly one emission: [newMessage] to
    the room named in the payload, or [general], carrying the saved id, the
    sender's profile and the content. A message whose content is a number is
    saved and broadcast likewise, and then the sender also gets the [error]
    "Failed to send message": the handler's log line calls [substring] on
    the content after the broadcast. *)
Theorem sendMessage_broadcasts_once
    (data : SocketHandlerDb.SendData) (sender : SocketHandlerDb.Sender)
    (oid : string) (createdAt : Z) (populated : outcome (option string))
    (w : SocketHandlerDb.World) :
  truthy_string (sock_userId (SocketHandlerDb.socket w)) = true ->
  truthy_string (SocketHandlerDb.sd_replyTo data) = false ->
  let room := SocketHandlerDb.or_else (SocketHandlerDb.sd_room data) "general" in
  let sid := sock_id (SocketHandlerDb.socket w) in
  let message :=
    SocketHandlerDb.mkFormatted oid sender
      (SocketHandlerDb.cast_content (SocketHandlerDb.sd_content data))
      (SocketHandlerDb.or_else (SocketHandlerDb.sd_type data) "text")
      (SocketHandlerDb.or_null (SocketHandlerDb.sd_file data)) room false None []
      SocketHandlerDb.NoReply createdAt in
  let broadcast :=
    SocketHandlerDb.mkEmit (Room room) "newMessage" (SocketHandlerDb.NewMessage message) in
  let w' := snd (SocketHandlerDb.on_sendMessage data
                   (SocketHandlerDb.mkSendAnswers (Ok (oid, createdAt))
                                                  (Ok (Some sender)) populated) w) in
  (forall text, SocketHandlerDb.sd_content data = SocketHandlerDb.CString text ->
                SocketHandlerDb.outbox w' = SocketHandlerDb.outbox w ++ [broadcast])
  /\ (forall n, SocketHandlerDb.sd_content data = SocketHandlerDb.CNumber n ->
        SocketHandlerDb.outbox w'
        = SocketHandlerDb.outbox w
          ++ [broadcast;
              SocketHandlerDb.mkEmit (Self sid) "error"
                (SocketHandlerDb.ErrorEvent "Failed to send message")]).
Proof.
  intros Hauth Hreply room sid message broadcast w'.
  subst w' broadcast message sid room.
  destruct w as [[sid uid uname rms disc] users calls out].
  cbn [SocketHandlerDb.socket sock_userId] in Hauth.
  run_db. rewrite Hauth, Hreply. cbv [negb]. run_db.
  split; intros x Hx; rewrite Hx; run_db; [reflexivity |].
  now rewrite <- app_assoc.
Qed.

(** The theorem at Alice sending the number 42. *)
Lemma sendMessage_number_witness :
  map SocketHandlerDb.event
      (SocketHandlerDb.outbox
         (snd (SocketHandlerDb.on_sendMessage Scenario2.number_message
                 Scenario2.send_up Scenario.alice_world)))
  = ["newMessage"; "error"]%string.
Proof.
  destruct (sendMessage_broadcasts_once Scenario2.number_message
              Scenario2.alice_profile "m1" Scenario.stamp (Ok None)
              Scenario.alice_world)
    as (_ & Hnum); [reflexivity | reflexivity |].
  cbv zeta in Hnum.
  change (map SocketHandlerDb.event
            (SocketHandlerDb.outbox
               (snd (SocketHandlerDb.on_sendMessage Scenario2.number_message
                       (SocketHandlerDb.mkSendAnswers (Ok ("m1"%string, Scenario.stamp))
                          (Ok (Some Scenario2.alice_profile)) (Ok None))
                       Scenario.alice_world)))
          = ["newMessage"; "error"]%string).
  rewrite (Hnum 42 eq_refl). reflexivity.
Defined.

End SessionFacts.

(* ===================================================================== *)
(** ** Typing and call signalling *)
(* ===================================================================== *)

Module SignalingFacts.
Import Js Chat Signaling.
Local Open Scope list_scope.

Lemma find_user_none (target : option string) (users : omap ActiveUser) :
  (forall u, In u (omap_values users) -> Some (userId u) <> target) ->
  find_user target users = None.
Proof.
  intros Hno. unfold find_user.
  destruct (find _ (omap_values users)) as [u |] eqn:E; [| reflexivity].
  apply find_some in E. destruct E as [Hin Hp].
  destruct target as [i |]; [| discriminate].
  apply String.eqb_eq in Hp. exfalso. apply (Hno u Hin). now rewrite Hp.
Qed.

Lemma find_user_first (before after : omap ActiveUser) (k : string) (u : ActiveUser) :
  (forall v, In v (omap_values before) -> userId v <> userId u) ->
  find_user (Some (userId u)) (before ++ (k, u) :: after) = Some u.
Proof.
  unfold find_user, omap_values. induction before as [| [k' v] before IH]; intros Hno.
  - cbn. now rewrite String.eqb_refl.
  - cbn. destruct (String.eqb (userId v) (userId u)) eqn:E.
    + apply String.eqb_eq in E. exfalso. apply (Hno v); [now left | exact E].
    + apply IH. intros v' Hv'. apply Hno. now right.
Qed.

(** X15. [callRequest], [callResponse] and [webrtc-signal] are best-effort
    unicasts looked up by user id. If no registered connection belongs to the
    named user (or no user is named) nothing is emitted, not even an error to
    the caller. Otherwise exactly one emission is made, to the connection
    that was registered first for that user: further connections of the same
    user receive nothing. The handlers do not look at whether the calling
    socket is authenticated. *)
Theorem call_signalling_reaches_first_connection
    (socket : Socket) (users : omap ActiveUser) (target : option string)
    (callType signal : option string) (accepted : option bool) :
  ((forall u, In u (omap_values users) -> Some (userId u) <> target) ->
   on_callRequest socket users target callType = []
   /\ on_callResponse socket users target accepted = []
   /\ on_webrtc_signal socket users target signal = [])
  /\ (forall before k u after,
        users = before ++ (k, u) :: after ->
        target = Some (userId u) ->
        (forall v, In v (omap_values before) -> userId v <> userId u) ->
        on_callRequest socket users target callType
        = [mkEmit (Room (socketId u)) "incomingCall"
             (IncomingCall (sock_userId socket) (sock_username socket) callType)]
        /\ on_callResponse socket users target accepted
           = [mkEmit (Room (socketId u)) "callResponse"
                (CallResponse accepted (sock_userId socket) (sock_username socket))]
        /\ on_webrtc_signal socket users target signal
           = [mkEmit (Room (socketId u)) "webrtc-signal"
                (WebrtcSignal signal (sock_userId socket))]).
Proof.
  split.
  - intros Hno. unfold on_callRequest, on_callResponse, on_webrtc_signal.
    now rewrite (find_user_none _ _ Hno).
  - intros before k u after -> -> Hfirst.
    unfold on_callRequest, on_callResponse, on_webrtc_signal.
    now rewrite (find_user_first _ _ _ _ Hfirst).
Qed.

(** Alice has two connections; a call to her from an unauthenticated socket
    rings on the first one only. *)
Lemma call_signalling_witness :
  map target
      (on_callRequest (mkSocket "chat-9" None None [] false) Scenario2.chat_users
         (Some "u1"%string) (Some "video"%string))
  = [Room "chat-1"].
Proof.
  destruct (call_signalling_reaches_first_connection
              (mkSocket "chat-9" None None [] false) Scenario2.chat_users
              (Some "u1"%string) (Some "video"%string) None None) as [_ Hfirst].
  destruct (Hfirst [] "chat-1"%string (mkActiveUser "u1" "alice" "chat-1")
              [("chat-2"%string, mkActiveUser "u2" "bob" "chat-2");
               ("chat-3"%string, mkActiveUser "u1" "alice" "chat-3")]
              eq_refl eq_refl (fun v (H : In v []) => match H with end))
    as (Hreq & _).
  rewrite Hreq. reflexivity.
Defined.

End SignalingFacts.

(* ===================================================================== *)
(** ** Reactions, edits and deletions through the message routes *)
(* ===================================================================== *)

Module MessageRouteFacts.
Import Js MessageModel MessageRoutes.
Local Open Scope list_scope.

Lemma set_reactions_twice (a b : list Reaction) (m : Message) :
  set_reactions a (set_reactions b m) = set_reactions a m.
Proof. reflexivity. Qed.

Lemma set_reactions_same (m : Message) : set_reactions (reactions m) m = m.
Proof. now destruct m. Qed.

Lemma filter_others_twice (u : ObjectId) (rs : list Reaction) :
  List.filter (fun reaction => negb (equals (user reaction) u)) (List.filter (fun reaction => negb (equals (user reaction) u)) rs) = List.filter (fun reaction => negb (equals (user reaction) u)) rs.
Proof.
  induction rs as [| r rs IH]; [reflexivity |]. cbn.
  destruct (negb (equals (user r) u)) eqn:E; cbn; [rewrite E |]; now rewrite IH.
Qed.

Lemma filter_others_new (u : ObjectId) (e : string) (t : Z) (rs : list Reaction) :
  List.filter (fun reaction => negb (equals (user reaction) u)) (rs ++ [mkReaction u e t]) = List.filter (fun reaction => negb (equals (user reaction) u)) rs.
Proof.
  rewrite List.filter_app. cbn. unfold equals. rewrite String.eqb_refl. cbn.
  apply app_nil_r.
Qed.

Lemma filter_others_absent (u : ObjectId) (rs : list Reaction) :
  ~ In u (map user rs) -> List.filter (fun reaction => negb (equals (user reaction) u)) rs = rs.
Proof.
  induction rs as [| r rs IH]; intros Hno; [reflexivity |]. cbn.
  destruct (equals (user r) u) eqn:E.
  - apply String.eqb_eq in E. exfalso. apply Hno. now left.
  - cbn. rewrite IH; [reflexivity |]. intros Hin. apply Hno. now right.
Qed.

Lemma filter_own_absent (u : ObjectId) (rs : list Reaction) :
  ~ In u (map user rs) ->
  List.filter (fun reaction => equals (user reaction) u) rs = [].
Proof.
  induction rs as [| r rs IH]; intros Hno; [reflexivity |]. cbn.
  destruct (equals (user r) u) eqn:E.
  - apply String.eqb_eq in E. exfalso. apply Hno. now left.
  - apply IH. intros Hin. apply Hno. now right.
Qed.

Lemma filter_others_swap (u v : ObjectId) (rs : list Reaction) :
  List.filter (fun reaction => negb (equals (user reaction) u)) (List.filter (fun reaction => negb (equals (user reaction) v)) rs)
  = List.filter (fun reaction => negb (equals (user reaction) v)) (List.filter (fun reaction => negb (equals (user reaction) u)) rs).
Proof.
  induction rs as [| r rs IH]; [reflexivity |]. cbn.
  destruct (negb (equals (user r) v)) eqn:Ev,
           (negb (equals (user r) u)) eqn:Eu; cbn;
    rewrite ?Ev, ?Eu, IH; reflexivity.
Qed.

(** X16. For one user the later of two reaction calls wins outright: a second
    [addReaction] leaves the document as if the first had not happened,
    [removeReaction] after [addReaction] is the same as [removeReaction]
    alone, and [removeReaction] twice is [removeReaction] once. *)
Theorem later_reaction_call_overrides
    (u : ObjectId) (e1 e2 : string) (t1 t2 : Z) (m : Message) :
  addReaction u e2 t2 (addReaction u e1 t1 m) = addReaction u e2 t2 m
  /\ removeReaction u (addReaction u e1 t1 m) = removeReaction u m
  /\ addReaction u e2 t2 (removeReaction u m) = addReaction u e2 t2 m
  /\ removeReaction u (removeReaction u m) = removeReaction u m.
Proof.
  unfold addReaction, removeReaction. destruct m; cbn [set_reactions reactions].
  rewrite filter_others_new, filter_others_twice. repeat split.
Qed.

(** X17. Calls of different users do not disturb each other: removing [v]'s
    reaction before or after [u] reacts gives the same document, and each
    user's emojis are untouched by the other's calls. *)
Theorem reactions_of_different_users_are_independent
    (u v : ObjectId) (e : string) (t : Z) (m : Message) :
  u <> v ->
  removeReaction v (addReaction u e t m) = addReaction u e t (removeReaction v m)
  /\ removeReaction v (removeReaction u m) = removeReaction u (removeReaction v m)
  /\ emojis_of v (addReaction u e t m) = emojis_of v m
  /\ emojis_of v (removeReaction u m) = emojis_of v m.
Proof.
  intros Hne.
  assert (Euv : equals u v = false) by now apply String.eqb_neq.
  assert (Hkeep : forall rs,
             List.filter (fun reaction => equals (user reaction) v)
                         (List.filter (fun reaction => negb (equals (user reaction) u)) rs)
             = List.filter (fun reaction => equals (user reaction) v) rs).
  { induction rs as [| r rs IH]; [reflexivity |]. cbn.
    destruct (equals (user r) u) eqn:Eu; cbn.
    - apply String.eqb_eq in Eu. rewrite Eu, Euv. exact IH.
    - destruct (equals (user r) v); now rewrite IH. }
  unfold addReaction, removeReaction, emojis_of.
  destruct m; cbn [set_reactions reactions].
  rewrite !List.filter_app. cbn [List.filter user]. rewrite Euv. cbn [negb].
  rewrite (filter_others_swap v u), app_nil_r, Hkeep. repeat split.
Qed.

(** Bob withdraws his reaction while Alice reacts. *)
Lemma reactions_independent_witness :
  removeReaction "u2" (addReaction "u1" "+1" 5 Scenario2.alice_message)
  = addReaction "u1" "+1" 5 (removeReaction "u2" Scenario2.alice_message).
Proof.
  destruct (reactions_of_different_users_are_independent
              "u1" "u2" "+1" 5 Scenario2.alice_message) as [H _];
    [discriminate | exact H].
Defined.

(** X18. The two reaction routes undo each other. For a user with no reaction
    on the message yet, whoever sent the message, the POST answers 200 and
    saves a document on which the user has exactly the posted emoji; the
    DELETE on that document answers 200 and saves the original document. *)
Theorem reaction_routes_round_trip
    (userId : ObjectId) (emoji : option string) (now : Z) (found : Message) :
  truthy_string emoji = true ->
  ~ In userId (map user (reactions found)) ->
  exists reacted,
    post_reaction userId emoji now (finds found)
    = mkAnswer 200 "Reaction added successfully" [reacted]
    /\ emojis_of userId reacted = [str_of emoji]
    /\ delete_reaction userId (finds reacted)
       = mkAnswer 200 "Reaction removed successfully" [found].
Proof.
  intros Hemoji Hfresh.
  exists (addReaction userId (str_of emoji) now found).
  unfold post_reaction, delete_reaction, finds. rewrite Hemoji.
  cbn [negb ans_findById ans_save ans_populate].
  repeat split.
  - unfold emojis_of, addReaction. cbn [set_reactions reactions].
    rewrite (filter_others_absent _ _ Hfresh), List.filter_app.
    rewrite (filter_own_absent _ _ Hfresh). cbn.
    unfold equals. now rewrite String.eqb_refl.
  - do 2 f_equal. unfold removeReaction, addReaction.
    cbn [set_reactions reactions].
    rewrite filter_others_new, filter_others_twice.
    rewrite (filter_others_absent _ _ Hfresh). now destruct found.
Qed.

(** Bob reacts to Alice's message and withdraws the reaction. *)
Lemma reaction_routes_witness :
  exists reacted,
    post_reaction "u2" (Some "+1"%string) 5 (finds Scenario2.alice_message)
    = mkAnswer 200 "Reaction added successfully" [reacted]
    /\ emojis_of "u2" reacted = [str_of (Some "+1"%string)]
    /\ delete_reaction "u2" (finds reacted)
       = mkAnswer 200 "Reaction removed successfully" [Scenario2.alice_message].
Proof.
  apply (reaction_routes_round_trip "u2" (Some "+1"%string) 5 Scenario2.alice_message);
    [reflexivity | intros []].
Defined.

(** X19. Editing and deleting are for the sender only. When the stored
    message has another sender, the PUT answers 403 (400 if the body has no
    content, which is checked first) and the DELETE answers 403, whatever the
    persistence layer would have answered to a save; neither hands a document
    to [save()]. *)
Theorem foreign_message_is_refused
    (userId : ObjectId) (content : option string) (now : Z)
    (found : Message) (db : DbAnswers) :
  ans_findById db = Ok (Some found) ->
  sender found <> userId ->
  put_message userId content now db
  = (if truthy_string content
     then mkAnswer 403 "You can only edit your own messages" []
     else mkAnswer 400 "Message content is required" [])
  /\ delete_message userId now db
     = mkAnswer 403 "You can only delete your own messages" [].
Proof.
  intros Hfound Hne.
  assert (E : equals (sender found) userId = false) by now apply String.eqb_neq.
  unfold put_message, delete_message. rewrite Hfound, E.
  now destruct (truthy_string content).
Qed.

(** Bob tries to edit and to delete Alice's message. *)
Lemma foreign_message_witness :
  code (put_message "u2" (Some "edited"%string) 9 Scenario2.found_alice_message) = 403
  /\ saved (delete_message "u2" 9 Scenario2.found_alice_message) = [].
Proof.
  destruct (foreign_message_is_refused "u2" (Some "edited"%string) 9
              Scenario2.alice_message Scenario2.found_alice_message)
    as [Hput Hdel]; [reflexivity | discriminate |].
  rewrite Hput, Hdel. split; reflexivity.
Defined.

End MessageRouteFacts.
